(** * Samsung Health exercise export: the TCX pipeline of [exercises.py]

    A shallow embedding of the exercise-to-TCX pipeline (lap builder,
    track-point builder, document assembler, telemetry merger and driver)
    together with the properties that its specification states about it.

    Conventions of the embedding:
    - a Python exception is a value [Raise e] of the [result] type and
      propagates through [≫=] exactly as an uncaught exception does;
    - an [lxml] element is a value of the tree type [element]; the elements
      the pipeline appends are always freshly created ones, so an append
      never moves a node out of another parent;
    - the telemetry records are [gmap string Z], after their annotation
      [Dict[str, int]]; the rows of the exercise list are dictionaries on
      the names of the columns: [gmap string string] for the driver, after
      its annotation [Dict[str, str]], while the reader of the list
      leaves open what a cell is, since [csv.DictReader] puts [None]
      where a row is short; the insertion-ordered outer dictionary of the
      merger is an association list in insertion order;
    - a Python [str] is the string of the bytes of its UTF-8 encoding;
      [lxml] checks every text and attribute value that it is given and
      raises a [ValueError] on one that XML cannot hold, which is
      [xml_text] here;
    - the library routines whose results are floating point numbers or
      formatted dates are the fields of the class [PyLib]: the general
      theorems hold for whatever these routines compute, and the module
      [Exact] gives them a reference behaviour to run the pipeline on
      concrete inputs. *)

From stdpp Require Import base option list gmap strings pretty sorting.
From Stdlib Require Import ZArith Lia Ascii.

Local Open Scope string_scope.
Local Open Scope list_scope.
Local Open Scope Z_scope.
Set Warnings "-register-all,-clear-no-such-hyp".

(** ** Exceptions and results *)

Inductive exn : Set :=
  | KeyError | TypeError | ValueError | OverflowError | IndexError
  | AttributeError | ZeroDivisionError.

Inductive result (A : Type) : Type :=
  | Ok (a : A)
  | Raise (e : exn).
Arguments Ok {A} a.
Arguments Raise {A} e.

#[global] Instance exn_eq_dec : EqDecision exn.
Proof. solve_decision. Defined.

#[global] Instance result_ret : MRet result := @Ok.
#[global] Instance result_bind : MBind result := λ A B f m,
  match m with Ok a => f a | Raise e => Raise e end.
#[global] Instance result_fmap : FMap result := λ A B f m,
  match m with Ok a => Ok (f a) | Raise e => Raise e end.

(** [returns m]: the call came back with a value instead of raising. *)
Definition returns {A} (m : result A) : Prop := ∃ a, m = Ok a.
Definition raises {A} (m : result A) : Prop := ∃ e, m = Raise e.

(** A loop whose body may raise: the first exception ends the loop. *)
Fixpoint for_each {A S} (body : S → A → result S) (s : S) (l : list A)
  : result S :=
  match l with
  | [] => Ok s
  | x :: l' => s' ← body s x; for_each body s' l'
  end.

(** ** The texts that [lxml] takes

    [lxml] passes every text and every attribute value through [_utf8],
    which encodes the [str] to UTF-8 and raises a [ValueError] unless
    [_is_valid_xml_utf8] holds of the bytes: no byte below [0x20] other
    than tab, line feed and carriage return, and none of the encodings of
    [U+FFFE], [U+FFFF] and the surrogates. *)

(** [xmlIsChar_ch] on a byte below [0x80] *)
Definition xml_char (c : Ascii.ascii) : bool :=
  let n := Ascii.N_of_ascii c in
  ((n =? 9) || (n =? 10) || (n =? 13) || (32 <=? n))%N.

(** The three bytes [EF BF BE] and [EF BF BF], and those from [ED A0 80]
    to [ED BF BF]. *)
Definition forbidden_utf8 (c0 c1 c2 : Ascii.ascii) : bool :=
  let n := (Ascii.N_of_ascii c0 * 65536 + Ascii.N_of_ascii c1 * 256
            + Ascii.N_of_ascii c2)%N in
  ((n =? 15712190) || (n =? 15712191)
   || ((15573120 <=? n) && (n <=? 15581119)))%N.

(** [_is_valid_xml_utf8]: a byte from [0x80] on is looked at together
    with the two bytes after it, if there are two. *)
Fixpoint xml_compatible (s : string) : bool :=
  match s with
  | EmptyString => true
  | String c s' =>
      (if (128 <=? Ascii.N_of_ascii c)%N then
         match s' with
         | String c1 (String c2 _) => negb (forbidden_utf8 c c1 c2)
         | _ => true
         end
       else xml_char c)
      && xml_compatible s'
  end.

(** [_utf8(s)] *)
Definition xml_text (s : string) : result string :=
  if xml_compatible s then Ok s else Raise ValueError.

(** Printable ASCII, which is what [str] of a number and [strftime] with
    the format of the merger give. *)
Definition plain_char (c : Ascii.ascii) : bool :=
  ((32 <=? Ascii.N_of_ascii c) && (Ascii.N_of_ascii c <? 128))%N.

Fixpoint plain (s : string) : bool :=
  match s with
  | EmptyString => true
  | String c s' => plain_char c && plain s'
  end.

(** ** The library routines on floats and dates *)

Class PyLib := {
  float : Type;
  (** [float(s)], [ValueError] on text that is not a number *)
  float_of_str : string → result float;
  (** [int(s)], [ValueError] on text that is not an integer literal *)
  int_of_str : string → result Z;
  (** [a / b], true division of two integers *)
  truediv : Z → Z → result float;
  (** [round(x, 0)] *)
  round0 : float → float;
  (** [int(x)], raises on infinities and NaN *)
  int_of_float : float → result Z;
  (** [str(x)] *)
  str_of_float : float → string;
  (** [datetime.fromtimestamp(x, timezone.utc)
        .strftime("%Y-%m-%dT%H:%M:%S.000Z")], raises outside the range of
      [datetime] *)
  utc_strftime : float → result string;
  (** both texts are made of digits, signs, letters and punctuation: [lxml]
      takes them *)
  str_of_float_xml : ∀ x, xml_compatible (str_of_float x) = true;
  utc_strftime_xml : ∀ x s, utc_strftime x = Ok s → xml_compatible s = true;
}.

(** [str(n)] for an integer. *)
Definition str_of_int (n : Z) : string := pretty n.

(** ** XML elements *)

Inductive element : Type :=
  | Element (tag : string) (attrib : list (string * string))
            (text : option string) (children : list element).

Definition tag (e : element) : string :=
  let 'Element t _ _ _ := e in t.
Definition attrib (e : element) : list (string * string) :=
  let 'Element _ a _ _ := e in a.
Definition text (e : element) : option string :=
  let 'Element _ _ x _ := e in x.
Definition children (e : element) : list element :=
  let 'Element _ _ _ c := e in c.

(** [parent.append(child)] *)
Definition append (parent child : element) : element :=
  let 'Element t a x c := parent in Element t a x (c ++ [child]).

(** [parent] with a new last child [t] whose text is [s] *)
Definition sub_text (parent : element) (t s : string) : element :=
  append parent (Element t [] (Some s) []).

(** [etree.SubElement(parent, t).text = s]: the text is checked when it is
    assigned. *)
Definition set_sub_text (parent : element) (t s : string)
  : result element :=
  s ← xml_text s; Ok (sub_text parent t s).

(** [len(e)] *)
Definition len (e : element) : nat := length (children e).

(** The direct children of [e] that carry the tag [t]. *)
Definition children_tagged (t : string) (e : element) : list element :=
  filter (λ c, tag c = t) (children e).

Definition has_child (t : string) (e : element) : Prop :=
  children_tagged t e ≠ [].

#[global] Instance has_child_dec t e : Decision (has_child t e).
Proof. unfold has_child. apply _. Defined.

(** The elements reached from [e] along a path of tags. *)
Fixpoint descend (path : list string) (e : element) : list element :=
  match path with
  | [] => [e]
  | t :: path' => children_tagged t e ≫= descend path'
  end.

Definition has_path (path : list string) (e : element) : Prop :=
  descend path e ≠ [].

(** ** Name spaces *)

Definition ns_ActivityExtension : string :=
  "http://www.garmin.com/xmlschemas/ActivityExtension/v2".

(** [ns3_tag(name)], a qualified name in Clark notation *)
Definition ns3_tag (name : string) : string :=
  "{" ++ ns_ActivityExtension ++ "}" ++ name.

(** ** Values of the merged entries

    A merged entry maps field names to a formatted time, an integer or
    [None] (an absent altitude, an absent heart rate). *)

Inductive value : Set :=
  | VNone
  | VInt (n : Z)
  | VStr (s : string).

#[global] Instance value_eq_dec : EqDecision value.
Proof. solve_decision. Defined.

(** [str(v)] *)
Definition str_of_value (v : value) : string :=
  match v with
  | VNone => "None"
  | VInt n => str_of_int n
  | VStr s => s
  end.

(** Truth value: [None], [0] and the empty string are false. *)
Definition value_truthy (v : value) : bool :=
  match v with
  | VNone => false
  | VInt n => negb (bool_decide (n = 0))
  | VStr s => negb (String.eqb s "")
  end.

(** ** The lap builder *)

(** Truth value of an [Optional[str]]: [None] and the empty string are
    false. *)
Definition truthy (s : option string) : bool :=
  match s with
  | None => false
  | Some x => negb (String.eqb x "")
  end.

(** [s != "0.0"] *)
Definition not_zero_text (s : option string) : bool :=
  negb (bool_decide (s = Some "0.0")).

Definition str_arg (s : option string) : string := default "" s.

(** [if s: etree.SubElement(parent, t).text = s] *)
Definition sub_text_if (parent : element) (t : string) (s : option string)
  : result element :=
  if truthy s then set_sub_text parent t (str_arg s) else Ok parent.

(** [if s and s != "0.0": etree.SubElement(parent, t).text = s] *)
Definition sub_text_if_nonzero (parent : element) (t : string)
    (s : option string) : result element :=
  if truthy s && not_zero_text s then set_sub_text parent t (str_arg s)
  else Ok parent.

(** A heart-rate element: [<t><Value>n</Value></t>]. *)
Definition bpm (t : string) (n : Z) : element :=
  sub_text (Element t [] None []) "Value" (str_of_int n).

(** Lines 123-124 and 126-127: the element is appended to the lap, then
    its value is set. *)
Definition add_bpm (lap : element) (t : string) (n : Z) : result element :=
  hr ← set_sub_text (Element t [] None []) "Value" (str_of_int n);
  Ok (append lap hr).

(** Lines 132-140 of [exercises.py]. *)
Definition add_extensions (lap : element)
    (avg_speed avg_cadence max_cadence : option string) : result element :=
  if truthy avg_speed || truthy avg_cadence || truthy max_cadence then
    let ext := Element "Extensions" [] None [] in
    let lx := Element (ns3_tag "LX") [] None [] in
    lx ← sub_text_if_nonzero lx (ns3_tag "AvgSpeed") avg_speed;
    lx ← sub_text_if_nonzero lx (ns3_tag "AvgRunCadence") avg_cadence;
    lx ← sub_text_if_nonzero lx (ns3_tag "MaxRunCadence") max_cadence;
    Ok (append lap (append ext lx))
  else Ok lap.

(** The children of a finished lap, block by block: [opt c x] is the
    child [x] when the guard [c] of its block held. *)
Definition opt {A} (c : bool) (x : A) : list A := if c then [x] else [].

Definition leaf (t s : string) : element := Element t [] (Some s) [].

Definition lx_children (avg_speed avg_cadence max_cadence : option string)
  : list element :=
  opt (truthy avg_speed && not_zero_text avg_speed)
      (leaf (ns3_tag "AvgSpeed") (str_arg avg_speed))
  ++ opt (truthy avg_cadence && not_zero_text avg_cadence)
         (leaf (ns3_tag "AvgRunCadence") (str_arg avg_cadence))
  ++ opt (truthy max_cadence && not_zero_text max_cadence)
         (leaf (ns3_tag "MaxRunCadence") (str_arg max_cadence)).

Definition extensions (avg_speed avg_cadence max_cadence : option string)
  : element :=
  Element "Extensions" [] None
    [Element (ns3_tag "LX") [] None
       (lx_children avg_speed avg_cadence max_cadence)].

Section Pipeline.
Context `{PyLib}.

(** Lines 112-142 of [exercises.py]. *)
Definition create_lap (start_time : string)
    (duration distance calories avg_hr max_hr
     avg_speed max_speed avg_cadence max_cadence : option string)
  : result element :=
  start_time ← xml_text start_time;
  let lap := Element "Lap" [("StartTime", start_time)] None [] in
  lap ← (if truthy duration then
           d ← int_of_str (str_arg duration);
           secs ← truediv d 1000;
           set_sub_text lap "TotalTimeSeconds" (str_of_float secs)
         else Ok lap);
  lap ← sub_text_if lap "DistanceMeters" distance;
  lap ← sub_text_if lap "MaximumSpeed" max_speed;
  lap ← (if truthy calories then
           c ← float_of_str (str_arg calories);
           n ← int_of_float (round0 c);
           set_sub_text lap "Calories" (str_of_int n)
         else Ok lap);
  lap ← (if truthy avg_hr && not_zero_text avg_hr then
           x ← float_of_str (str_arg avg_hr);
           n ← int_of_float x;
           add_bpm lap "AverageHeartRateBpm" n
         else Ok lap);
  lap ← (if truthy max_hr && not_zero_text avg_hr then
           x ← float_of_str (str_arg max_hr);
           n ← int_of_float x;
           add_bpm lap "MaximumHeartRateBpm" n
         else Ok lap);
  lap ← set_sub_text lap "Intensity" "Active";
  lap ← set_sub_text lap "TriggerMethod" "Manual";
  add_extensions lap avg_speed avg_cadence max_cadence.

(** ** The track-point builder *)

(** [data[key]] on the merged entries *)
Definition item {V} (data : gmap string V) (key : string) : result V :=
  match data !! key with
  | Some v => Ok v
  | None => Raise KeyError
  end.

(** Assigning to [.text]: [lxml] takes [None] and a string that XML can
    hold; it raises a [ValueError] on another string and a [TypeError] on
    a number. *)
Definition as_text (v : value) : result (option string) :=
  match v with
  | VStr s => Some <$> xml_text s
  | VNone => Ok None
  | VInt _ => Raise TypeError
  end.

(** Lines 165-180 of [exercises.py]. *)
Definition create_trackpoint (data : gmap string value)
  : result (option element) :=
  let trackpoint := Element "Trackpoint" [] None [] in
  time ← item data "time" ≫= as_text;
  let trackpoint := append trackpoint (Element "Time" [] time []) in
  trackpoint ←
    (if decide (is_Some (data !! "altitude")
                ∧ is_Some (data !! "longitude")) then
       let position := Element "Position" [] None [] in
       lat ← item data "latitude";
       position ←
         set_sub_text position "LatitudeDegrees" (str_of_value lat);
       lon ← item data "longitude";
       position ←
         set_sub_text position "LongitudeDegrees" (str_of_value lon);
       Ok (append trackpoint position)
     else Ok trackpoint);
  trackpoint ←
    (if decide (is_Some (data !! "heart_rate")) then
       v ← item data "heart_rate";
       hr ← set_sub_text (Element "HeartRateBpm" [] None [])
                         "Value" (str_of_value v);
       Ok (append trackpoint hr)
     else Ok trackpoint);
  trackpoint ←
    (if decide (is_Some (data !! "cadence")) then
       v ← item data "cadence";
       set_sub_text trackpoint "Cadence" (str_of_value v)
     else Ok trackpoint);
  Ok (if decide (1 < len trackpoint)%nat then Some trackpoint else None).

(** ** The document assembler *)

(** Lines 197-198.  The driver gives the assembler as [a_id] the start
    time that the lap builder has taken as an attribute and as [sport] a
    result of the mapper, two texts that [lxml] has nothing against; the
    assembler is the tree it builds from such texts. *)
Definition create_activity (a_id sport : string) : element :=
  sub_text (Element "Activity" [("Sport", sport)] None []) "Id" a_id.

Definition create_root : element :=
  append
    (Element "TrainingCenterDatabase"
       [("{http://www.w3.org/2001/XMLSchema-instance}schemaLocation",
         ("http://www.garmin.com/xmlschemas/TrainingCenterDatabase/v2 "
          ++ "http://www.garmin.com/xmlschemas/TrainingCenterDatabasev2.xsd"
         )%string)]
       None [])
    (Element "Activities" [] None []).

(** [root.find("*").append(child)]: the append goes to the first child
    of [root]. *)
Definition append_to_first (root child : element) : element :=
  let 'Element t a x c := root in
  match c with
  | first :: rest => Element t a x (append first child :: rest)
  | [] => root
  end.

(** Lines 225-239 of [exercises.py]; the value is the tree that
    [etree.tostring] serialises.  The source appends [activity] to the
    document before it appends [lap] to [activity] and [track] to [lap];
    the nodes are shared, so the document sees the later appends, which
    is why the tree is put together here once [track] is complete. *)
Definition build_xml (a_id ex_type : string) (lap : element)
    (trackpoints : list (option element)) : element :=
  let root := create_root in
  let activity := create_activity a_id ex_type in
  let track := Element "Track" [] None [] in
  let track :=
    foldl (λ track trackpoint,
             match trackpoint with
             | Some p => append track p
             | None => track
             end) track trackpoints in
  let lap := if decide (0 < len track)%nat then append lap track
             else lap in
  append_to_first root (append activity lap).

(** ** The activity type mapper *)

Definition sport_map : gmap string string :=
  {[ "1002" := "Running"; "11007" := "Biking" ]}.

Definition convert_activity_type (sport_type : string) : string :=
  default "Other" (sport_map !! sport_type).

(** ** The telemetry merger *)

(** [min(l, key=key)]: the first element whose key is the least. *)
Fixpoint min_from {A} (key : A → result Z) (best : A) (kbest : Z)
    (l : list A) : result A :=
  match l with
  | [] => Ok best
  | x :: l' =>
      k ← key x;
      if decide (k < kbest) then min_from key x k l'
      else min_from key best kbest l'
  end.

Definition py_min {A} (key : A → result Z) (l : list A) : result A :=
  match l with
  | [] => Raise ValueError
  | x :: l' => k ← key x; min_from key x k l'
  end.

(** [abs(timestamp - ts)]; [ts] is [None] when the sample had no time
    stamp, and the subtraction raises then. *)
Definition distance_to (ts : option Z) (timestamp : Z) : result Z :=
  match ts with
  | Some t => Ok (Z.abs (timestamp - t))
  | None => Raise TypeError
  end.

(** Line 267 of [exercises.py]. *)
Definition find_nearest_time (ts : option Z) (timestamps : list Z)
  : result Z :=
  py_min (distance_to ts) timestamps.

(** The outer dictionary, in insertion order. *)
Fixpoint dict_get {V} (d : list (Z * V)) (k : Z) : option V :=
  match d with
  | [] => None
  | (k', v) :: d' => if decide (k' = k) then Some v else dict_get d' k
  end.

Definition dict_has {V} (d : list (Z * V)) (k : Z) : bool :=
  bool_decide (k ∈ d.*1).

(** [d[k] = v]: an existing key keeps its place. *)
Fixpoint dict_set {V} (d : list (Z * V)) (k : Z) (v : V) : list (Z * V) :=
  match d with
  | [] => [(k, v)]
  | (k', v') :: d' =>
      if decide (k' = k) then (k, v) :: d' else (k', v') :: dict_set d' k v
  end.

(** [d[k].update(u)] for a key that is present. *)
Definition dict_update (d : list (Z * gmap string value)) (k : Z)
    (u : gmap string value) : list (Z * gmap string value) :=
  (λ kv, if decide (kv.1 = k) then (kv.1, u ∪ kv.2) else kv) <$> d.

(** [a or b] on optional integers: [None] and [0] are false. *)
Definition py_or (a b : option Z) : option Z :=
  match a with
  | Some t => if decide (t = 0) then b else Some t
  | None => b
  end.

(** [datetime.fromtimestamp(ts / 1000, utc).strftime(...)] *)
Definition format_time (ts : Z) : result string :=
  truediv ts 1000 ≫= utc_strftime.

(** Lines 281-290: one position fix. *)
Definition add_location (merged_data : list (Z * gmap string value))
    (entry : gmap string Z) : result (list (Z * gmap string value)) :=
  start_time ← item entry "start_time";
  time ← format_time start_time;
  latitude ← item entry "latitude";
  longitude ← item entry "longitude";
  Ok (dict_set merged_data start_time
        {[ "time" := VStr time;
           "latitude" := VInt latitude;
           "longitude" := VInt longitude;
           "altitude" := from_option VInt VNone (entry !! "altitude") ]}).

Definition payload_keys : list string :=
  ["distance"; "cadence"; "heart_rate"; "speed"].

(** The sample after line 299 and the dictionary of line 305. *)
Definition with_heart_rate (entry : gmap string Z) : gmap string value :=
  <["heart_rate" := from_option VInt VNone (entry !! "heart_rate")]>
    (VInt <$> entry).

Definition payload (entry : gmap string Z) : gmap string value :=
  list_to_map
    (omap (λ key, match with_heart_rate entry !! key with
                  | Some v => if value_truthy v then Some (key, v) else None
                  | None => None
                  end) payload_keys).

(** Line 295: the primary key, or else the alternate one.  For [or] a
    primary time stamp of [0] is as good as none. *)
Definition sample_time (entry : gmap string Z) : option Z :=
  py_or (entry !! "start_time") (entry !! "StartTime").

(** Line 296. *)
Definition resolve_time (merged_data : list (Z * gmap string value))
    (timestamps : list Z) (ts : option Z) : result Z :=
  match ts with
  | Some t => if dict_has merged_data t then Ok t
              else find_nearest_time ts timestamps
  | None => find_nearest_time ts timestamps
  end.

(** Lines 294-305: one sample. *)
Definition add_live (timestamps : list Z)
    (merged_data : list (Z * gmap string value))
    (entry : gmap string Z) : result (list (Z * gmap string value)) :=
  ts ← resolve_time merged_data timestamps (sample_time entry);
  time ← format_time ts;
  let merged_data :=
    if dict_has merged_data ts then merged_data
    else dict_set merged_data ts {[ "time" := VStr time ]} in
  Ok (dict_update merged_data ts (payload entry)).

Fixpoint map_result {A B} (f : A → result B) (l : list A)
  : result (list B) :=
  match l with
  | [] => Ok []
  | x :: l' => y ← f x; ys ← map_result f l'; Ok (y :: ys)
  end.

(** Lines 279-307 of [exercises.py]. *)
Definition merge_location_and_live_data
    (locationdata livedata : list (gmap string Z))
  : result (list (Z * gmap string value)) :=
  merged_data ← for_each add_location [] locationdata;
  starts ← map_result (λ d, item d "start_time") locationdata;
  let timestamps := merge_sort Z.le starts in
  for_each (add_live timestamps) merged_data livedata.

(** ** The pipeline driver *)

(** The files under [jsons/]: a file name and the document that
    [json.load] reads from it. *)
Definition json_path (uuid data_type : string) : result string :=
  match uuid with
  | String c _ =>
      Ok ("jsons/com.samsung.shealth.exercise/" ++ String c ""
          ++ "/" ++ uuid ++ ".com.samsung.health.exercise."
          ++ data_type ++ ".json")%string
  | EmptyString => Raise IndexError
  end.

(** Lines 77-82.  [files] holds the telemetry files that can be opened
    and parsed, each with the document that [json.load] reads from it.  A
    missing file gives the empty dictionary, which the callers only test
    for emptiness and iterate over: it is the empty series here.  The
    source catches no other exception; a file that is there and cannot be
    read or parsed has no counterpart here, so what is said of a fetch is
    said of one that returned. *)
Definition fetch_json_data (files : gmap string (list (gmap string Z)))
    (uuid data_type : string) : result (list (gmap string Z)) :=
  filename ← json_path uuid data_type;
  match files !! filename with
  | Some document => Ok document
  | None => Ok []
  end.

(** [s.replace(" ", "T")] *)
Fixpoint replace_space (s : string) : string :=
  match s with
  | String c s' =>
      String (if decide (c = " "%char) then "T"%char else c)
             (replace_space s')
  | EmptyString => EmptyString
  end.

(** The loop of lines 341-345.  An element is true when it has
    children, and a track point that is not [None] has two or more. *)
Definition collect_trackpoint (trackpoints : list (option element))
    (data : gmap string value) : result (list (option element)) :=
  trackpoint ← create_trackpoint data;
  match trackpoint with
  | Some p => if decide (0 < len p)%nat
              then Ok (trackpoints ++ [Some p]) else Ok trackpoints
  | None => Ok trackpoints
  end.

(** Lines 318-347 of [exercises.py]. *)
Definition prepare_exercise_data
    (files : gmap string (list (gmap string Z)))
    (exercise : gmap string string) : result (option element) :=
  time ← match exercise !! "start_time" with
         | Some s => Ok (replace_space s ++ "Z")%string
         | None => Raise AttributeError
         end;
  ex_type ← convert_activity_type <$> item exercise "exercise_type";
  duration ← item exercise "duration";
  distance ← item exercise "distance";
  total_calorie ← item exercise "total_calorie";
  mean_heart_rate ← item exercise "mean_heart_rate";
  max_heart_rate ← item exercise "max_heart_rate";
  mean_speed ← item exercise "mean_speed";
  max_speed ← item exercise "max_speed";
  mean_cadence ← item exercise "mean_cadence";
  max_cadence ← item exercise "max_cadence";
  lap ← create_lap time (Some duration) (Some distance)
          (Some total_calorie) (Some mean_heart_rate)
          (Some max_heart_rate) (Some mean_speed) (Some max_speed)
          (Some mean_cadence) (Some max_cadence);
  uuid ← item exercise "datauuid";
  location_data ← fetch_json_data files uuid "location_data";
  if decide (location_data = []) then Ok None
  else
    live_data ← fetch_json_data files uuid "live_data";
    data ← merge_location_and_live_data location_data live_data;
    trackpoints ← for_each collect_trackpoint [] data.*2;
    Ok (Some (build_xml time ex_type lap trackpoints)).

(** What the main loop does that can be observed: progress dots, files
    written and the two messages. *)
Inductive event : Type :=
  | Progress
  | WriteFile (filename : string) (xml : element)
  | Exported (uuid filename : string)
  | Skipping (uuid : string).

(** Lines 369-377: one turn of the main loop. *)
Definition export_exercise (files : gmap string (list (gmap string Z)))
    (exercise : gmap string string) : result (list event) :=
  if decide (exercise !! "start_time" = None
             ∨ exercise !! "start_time" = Some "") then Ok [Progress]
  else
    xml_data ← prepare_exercise_data files exercise;
    uuid ← item exercise "datauuid";
    match xml_data with
    | Some xml =>
        let filename := ("exports/" ++ uuid ++ ".tcx")%string in
        Ok [Progress; WriteFile filename xml; Exported uuid filename]
    | None => Ok [Progress; Skipping uuid]
    end.

(** Lines 368-377: the loop.  An exception leaves the loop; what was
    written and printed before stays. *)
Fixpoint export_all (files : gmap string (list (gmap string Z)))
    (exercises : list (gmap string string)) : list event * option exn :=
  match exercises with
  | [] => ([], None)
  | exercise :: rest =>
      match export_exercise files exercise with
      | Ok events =>
          let '(later, e) := export_all files rest in (events ++ later, e)
      | Raise e => ([Progress], Some e)
      end
  end.

End Pipeline.

(** ** Vocabulary of the properties *)

(** The keys after a run of insertions: a new key goes to the end, a
    known one keeps its place. *)
Definition add_key (ks : list Z) (k : Z) : list Z :=
  if decide (k ∈ ks) then ks else ks ++ [k].

Section Vocabulary.
Context `{PyLib}.

(** The conversions that the lap builder runs on its inputs. *)
Definition seconds_of (s : string) : result string :=
  d ← int_of_str s; secs ← truediv d 1000; Ok (str_of_float secs).
Definition calories_of (s : string) : result string :=
  c ← float_of_str s; n ← int_of_float (round0 c); Ok (str_of_int n).
Definition heart_rate_of (s : string) : result Z :=
  x ← float_of_str s; int_of_float x.

(** The children of a lap, given the converted texts. *)
Definition lap_children (secs kcal : string) (ahr mhr : Z)
    (duration distance calories avg_hr max_hr
     avg_speed max_speed avg_cadence max_cadence : option string)
  : list element :=
  opt (truthy duration) (leaf "TotalTimeSeconds" secs)
  ++ opt (truthy distance) (leaf "DistanceMeters" (str_arg distance))
  ++ opt (truthy max_speed) (leaf "MaximumSpeed" (str_arg max_speed))
  ++ opt (truthy calories) (leaf "Calories" kcal)
  ++ opt (truthy avg_hr && not_zero_text avg_hr)
         (bpm "AverageHeartRateBpm" ahr)
  ++ opt (truthy max_hr && not_zero_text avg_hr)
         (bpm "MaximumHeartRateBpm" mhr)
  ++ [leaf "Intensity" "Active"; leaf "TriggerMethod" "Manual"]
  ++ opt (truthy avg_speed || truthy avg_cadence || truthy max_cadence)
         (extensions avg_speed avg_cadence max_cadence).

(** The time stamps of a position-fix series, in the order of the
    series. *)
Definition fix_times (locationdata : list (gmap string Z)) : list Z :=
  omap (λ d, d !! "start_time") locationdata.

(** A position fix that the merger can take in: it has a time stamp
    that [datetime] can format, a latitude and a longitude. *)
Definition position_fix (entry : gmap string Z) : Prop :=
  ∃ t, entry !! "start_time" = Some t
       ∧ returns (format_time t)
       ∧ is_Some (entry !! "latitude")
       ∧ is_Some (entry !! "longitude").

(** [k] is a time stamp of the list at the least distance from [t]. *)
Definition nearest (timestamps : list Z) (t k : Z) : Prop :=
  k ∈ timestamps
  ∧ ∀ u, u ∈ timestamps → Z.abs (k - t) ≤ Z.abs (u - t).

(** What every entry of the merged dictionary looks like: the formatted
    time of its key and the three position fields; whatever it holds
    besides the time is an integer or [None]. *)
Definition entry_shape (kv : Z * gmap string value) : Prop :=
  ∃ time, format_time kv.1 = Ok time
          ∧ kv.2 !! "time" = Some (VStr time)
          ∧ is_Some (kv.2 !! "latitude")
          ∧ is_Some (kv.2 !! "longitude")
          ∧ is_Some (kv.2 !! "altitude")
          ∧ ∀ f v, f ≠ "time" → kv.2 !! f = Some v →
                   v = VNone ∨ ∃ n, v = VInt n.

(** The fields of a row as [fetch_exercise_list] builds it. *)
Definition dataset_fields : list string :=
  ["datauuid"; "start_time"; "total_calorie"; "duration"; "exercise_type";
   "heart_rate_sample_count"; "mean_heart_rate"; "max_heart_rate";
   "min_heart_rate"; "mean_speed"; "max_speed"; "mean_cadence";
   "max_cadence"; "distance"; "location_data"; "live_data"].

Definition dataset (exercise : gmap string string) : Prop :=
  Forall (λ field, is_Some (exercise !! field)) dataset_fields.

(** The lap builder on the fields of a row, as line 321 calls it. *)
Definition row_lap (exercise : gmap string string) : result element :=
  create_lap
    (replace_space (default "" (exercise !! "start_time")) ++ "Z")%string
    (exercise !! "duration") (exercise !! "distance")
    (exercise !! "total_calorie") (exercise !! "mean_heart_rate")
    (exercise !! "max_heart_rate") (exercise !! "mean_speed")
    (exercise !! "max_speed") (exercise !! "mean_cadence")
    (exercise !! "max_cadence").

(** The position-fix document of an exercise is absent or empty. *)
Definition no_position_fixes (files : gmap string (list (gmap string Z)))
    (uuid : string) : Prop :=
  ∃ filename, json_path uuid "location_data" = Ok filename
              ∧ (files !! filename = None ∨ files !! filename = Some []).

End Vocabulary.

(** ** The exercise list *)

(** [s.replace(old, "")]: every occurrence of [old] is taken out, from
    the left, the occurrences not overlapping. *)
Fixpoint remove_from (old : string) (skip : nat) (s : string) : string :=
  match s with
  | EmptyString => EmptyString
  | String c s' =>
      match skip with
      | S k => remove_from old k s'
      | O => if String.prefix old s
             then remove_from old (String.length old - 1) s'
             else String c (remove_from old 0 s')
      end
  end.

Definition str_remove (old s : string) : string :=
  if decide (old = "") then s else remove_from old 0 s.

(** Lines 41-59 of [exercises.py]. *)
Definition column_prefix : string := "com.samsung.health.exercise.".

Definition fields : list string :=
  [ (column_prefix ++ "datauuid")%string;
    (column_prefix ++ "start_time")%string;
    "total_calorie";
    (column_prefix ++ "duration")%string;
    (column_prefix ++ "exercise_type")%string;
    "heart_rate_sample_count";
    (column_prefix ++ "mean_heart_rate")%string;
    (column_prefix ++ "max_heart_rate")%string;
    (column_prefix ++ "min_heart_rate")%string;
    (column_prefix ++ "mean_speed")%string;
    (column_prefix ++ "max_speed")%string;
    (column_prefix ++ "mean_cadence")%string;
    (column_prefix ++ "max_cadence")%string;
    (column_prefix ++ "distance")%string;
    (column_prefix ++ "location_data")%string;
    (column_prefix ++ "live_data")%string ].

(** Lines 67-70: the data set of one row of the reader.  [V] is what a
    cell of a row is: a text, or also [None], which [csv.DictReader] puts
    into the cells that a short row does not have. *)
Definition add_field {V} (row dataset : gmap string V) (field : string)
  : result (gmap string V) :=
  v ← item row field;
  Ok (<[str_remove column_prefix field := v]> dataset).

Definition dataset_of {V} (row : gmap string V) : result (gmap string V) :=
  for_each (add_field row) ∅ fields.

(** [csv.DictReader] on the rows that the [csv] reader splits the lines
    into.  [fieldnames] are the names of the columns, which the reader
    takes from the first of these rows.  Each further row that is not
    empty becomes a dictionary on these names: the cells go to the names
    in order, a later column of a name replacing an earlier one, and the
    names that a short row has no cell for get [None].  The surplus cells
    of a long row go under the key [None], which is no field, and are
    left out. *)
Definition dict_row (fieldnames row : list string)
  : gmap string (option string) :=
  foldl (λ d key, <[key := None]> d)
    (foldl (λ d kv, <[kv.1 := Some kv.2]> d) ∅ (zip fieldnames row))
    (drop (length row) fieldnames).

Definition DictReader (fieldnames : list string) (rows : list (list string))
  : list (gmap string (option string)) :=
  dict_row fieldnames <$> filter (λ row, row ≠ []) rows.

(** How reading the list ends when no list is returned: no exercise
    file (line 38), a file without a first line to skip (line 63), an
    exception of the loop over the rows. *)
Inductive fetch_error : Set :=
  | FileNotFoundError
  | StopIteration
  | RowError (e : exn).

(** Lines 36-72 of [exercises.py].  [exercise_files] is what [glob]
    finds.  [reader] stands for a file that can be opened and decoded: it
    gives the rows that [csv.DictReader] yields after the first line is
    skipped, each a dictionary on the columns of the header, and [None]
    for a file that has no first line.  The source handles no exception
    of [open], of the decoder or of the [csv] reader; a file on which one
    of them raises has no counterpart here. *)
Definition fetch_exercise_list {V} (exercise_files : list string)
    (reader : string → option (list (gmap string V)))
  : fetch_error + list (gmap string V) :=
  match exercise_files with
  | [] => inl FileNotFoundError
  | filename :: _ =>
      match reader filename with
      | None => inl StopIteration
      | Some rows =>
          match map_result dataset_of rows with
          | Ok data => inr data
          | Raise e => inl (RowError e)
          end
      end
  end.

(** ** Vocabulary of the further properties *)

(** The position and the heart rate of a track point, lines 169-171 and
    174-175. *)
Definition position_element (lat lon : value) : element :=
  Element "Position" [] None
    [leaf "LatitudeDegrees" (str_of_value lat);
     leaf "LongitudeDegrees" (str_of_value lon)].

Definition heart_rate_element (hr : value) : element :=
  Element "HeartRateBpm" [] None [leaf "Value" (str_of_value hr)].

(** The data has a time that [lxml] takes as the text of an element. *)
Definition time_text (data : gmap string value) : Prop :=
  data !! "time" = Some VNone
  ∨ ∃ s, data !! "time" = Some (VStr s) ∧ xml_compatible s = true.

(** The test of line 168. *)
Definition position_keys (data : gmap string value) : Prop :=
  is_Some (data !! "altitude") ∧ is_Some (data !! "longitude").

(** The values whose [str] the track-point builder writes, in the order
    in which it writes them. *)
Definition written_values (data : gmap string value) : list value :=
  (if decide (position_keys data)
   then option_list (data !! "latitude")
        ++ option_list (data !! "longitude")
   else [])
  ++ option_list (data !! "heart_rate")
  ++ option_list (data !! "cadence").

(** The order in which lines 113-133 add the children of a lap, which is
    the order of the schema. *)
Definition lap_schema : list string :=
  ["TotalTimeSeconds"; "DistanceMeters"; "MaximumSpeed"; "Calories";
   "AverageHeartRateBpm"; "MaximumHeartRateBpm"; "Intensity";
   "TriggerMethod"; "Extensions"].

(** ** A reference instance of the library routines

    Floats are exact fractions here.  On the numerals that occur in the
    exported files the routines below return what the Python ones return,
    and they serve to run the pipeline on concrete rows: the texts read
    are plain decimals (an optional sign, digits, at most one point; no
    blanks around them, no underscores, no exponent, no [inf] or [nan]),
    and the numbers stay below [2^53], where a binary double is exact and
    [str] prints it in full.  The dates are those of the years 1 to 9999,
    the year printed without padding; for a time outside of them, where
    Python raises a [ValueError], an [OverflowError] or an [OSError]
    depending on the platform, the instance has a [ValueError].  The
    general theorems do not depend on this module. *)

Module Exact.

Record frac : Set := Frac { num : Z; den : Z }.

Definition digit_of (a : Ascii.ascii) : option Z :=
  let n := Z.of_N (Ascii.N_of_ascii a) in
  if decide (48 ≤ n ≤ 57) then Some (n - 48) else None.

(** Reads a run of decimal digits: the number read so far, how many
    digits were read, and the rest of the text. *)
Fixpoint read_digits (s : string) (acc : Z) (n : nat)
  : Z * nat * string :=
  match s with
  | String a s' =>
      match digit_of a with
      | Some d => read_digits s' (10 * acc + d) (S n)
      | None => (acc, n, s)
      end
  | EmptyString => (acc, n, s)
  end.

Definition split_sign (s : string) : Z * string :=
  match s with
  | String "-"%char s' => (-1, s')
  | String "+"%char s' => (1, s')
  | _ => (1, s)
  end.

Definition parse_int (s : string) : result Z :=
  let '(sg, body) := split_sign s in
  match read_digits body 0 0 with
  | (v, S _, EmptyString) => Ok (sg * v)
  | _ => Raise ValueError
  end.

Definition parse_float (s : string) : result frac :=
  let '(sg, body) := split_sign s in
  match read_digits body 0 0 with
  | (v, S _, EmptyString) => Ok (Frac (sg * v) 1)
  | (v, n1, String "."%char rest) =>
      match read_digits rest v 0 with
      | (w, n2, EmptyString) =>
          if decide (n1 + n2 = 0)%nat then Raise ValueError
          else Ok (Frac (sg * w) (10 ^ Z.of_nat n2))
      | _ => Raise ValueError
      end
  | _ => Raise ValueError
  end.

Definition div (a b : Z) : result frac :=
  if decide (b = 0) then Raise ZeroDivisionError
  else Ok (Frac (Z.sgn b * a) (Z.abs b)).

(** Round half to even. *)
Definition round_even (x : frac) : frac :=
  let q := num x `div` den x in
  let r := num x `mod` den x in
  let up := if decide (2 * r < den x) then false
            else if decide (den x < 2 * r) then true
            else negb (Z.even q) in
  Frac (if up then q + 1 else q) 1.

Definition trunc (x : frac) : result Z := Ok (num x `quot` den x).

Fixpoint frac_digits (fuel : nat) (r d : Z) : string :=
  match fuel with
  | O => ""
  | S fuel' =>
      if decide (r = 0) then ""
      else (pretty ((10 * r) `div` d)
              ++ frac_digits fuel' ((10 * r) `mod` d) d)%string
  end.

Definition show (x : frac) : string :=
  let a := Z.abs (num x) in
  let ds := frac_digits 17 (a `mod` den x) (den x) in
  ((if decide (num x < 0) then "-" else "")
     ++ pretty (a `div` den x) ++ "."
     ++ (if decide (ds = "") then "0" else ds))%string.

(** Year, month and day of a day count from 1970-01-01. *)
Definition civil_from_days (days : Z) : Z * Z * Z :=
  let z := days + 719468 in
  let era := z `div` 146097 in
  let doe := z - era * 146097 in
  let yoe := (doe - doe `div` 1460 + doe `div` 36524 - doe `div` 146096)
               `div` 365 in
  let doy := doe - (365 * yoe + yoe `div` 4 - yoe `div` 100) in
  let mp := (5 * doy + 2) `div` 153 in
  let d := doy - (153 * mp + 2) `div` 5 + 1 in
  let m := if decide (mp < 10) then mp + 3 else mp - 9 in
  let y := yoe + era * 400 in
  (if decide (m <= 2) then y + 1 else y, m, d).

Definition pad (width : nat) (n : Z) : string :=
  let s := pretty n in
  (String.concat "" (replicate (width - String.length s) "0") ++ s)%string.

Definition strftime (x : frac) : result string :=
  let secs := num x `div` den x in
  if decide (-62135596800 <= secs < 253402300800) then
    let '(y, m, d) := civil_from_days (secs `div` 86400) in
    let sod := secs `mod` 86400 in
    Ok (pretty y ++ "-" ++ pad 2 m ++ "-" ++ pad 2 d ++ "T"
        ++ pad 2 (sod `div` 3600) ++ ":"
        ++ pad 2 ((sod `mod` 3600) `div` 60) ++ ":"
        ++ pad 2 (sod `mod` 60) ++ ".000Z")%string
  else Raise ValueError.

End Exact.

(** ** Concrete inputs *)

Module Examples.

(** Three position fixes and two samples; the first sample lies half
    way between two fixes, the second one uses the alternate key. *)
Definition fixes : list (gmap string Z) :=
  [ {[ "start_time" := 1714557600000; "latitude" := 46; "longitude" := 7;
       "altitude" := 400 ]};
    {[ "start_time" := 1714557602000; "latitude" := 47; "longitude" := 8 ]};
    {[ "start_time" := 1714557604000; "latitude" := 48;
       "longitude" := 9 ]} ].

Definition samples : list (gmap string Z) :=
  [ {[ "start_time" := 1714557601000; "heart_rate" := 140 ]};
    {[ "StartTime" := 1714557604000; "cadence" := 80; "speed" := 0 ]} ].

(** The same fixes, the later one first. *)
Definition fixes_unsorted : list (gmap string Z) :=
  [ {[ "start_time" := 1714557602000; "latitude" := 47; "longitude" := 8 ]};
    {[ "start_time" := 1714557600000; "latitude" := 46;
       "longitude" := 7 ]} ].

(** A sample without a time stamp. *)
Definition sample_untimed : gmap string Z := {[ "heart_rate" := 140 ]}.

(** A row of the exercise list. *)
Definition row : gmap string string :=
  list_to_map
    [("datauuid", "abc"); ("start_time", "2024-05-01 10:00:00");
     ("total_calorie", "12.4"); ("duration", "60000");
     ("exercise_type", "1002"); ("heart_rate_sample_count", "2");
     ("mean_heart_rate", "70.0"); ("max_heart_rate", "150.0");
     ("min_heart_rate", "60.0"); ("mean_speed", "2.5");
     ("max_speed", "3.0"); ("mean_cadence", ""); ("max_cadence", "");
     ("distance", "100.5"); ("location_data", "abc.location_data.json");
     ("live_data", "abc.live_data.json")].

Definition location_file : string :=
  "jsons/com.samsung.shealth.exercise/a/abc.com.samsung.health.exercise.location_data.json".

(** What the merger makes of [fixes] and [samples]. *)
Definition merged_first : Z * gmap string value :=
  (1714557600000,
   {[ "time" := VStr "2024-05-01T10:00:00.000Z"; "latitude" := VInt 46;
      "longitude" := VInt 7; "altitude" := VInt 400;
      "heart_rate" := VInt 140 ]}).

Definition merged_fixes : list (Z * gmap string value) :=
  [ merged_first;
    (1714557602000,
     {[ "time" := VStr "2024-05-01T10:00:02.000Z"; "latitude" := VInt 47;
        "longitude" := VInt 8; "altitude" := VNone ]});
    (1714557604000,
     {[ "time" := VStr "2024-05-01T10:00:04.000Z"; "latitude" := VInt 48;
        "longitude" := VInt 9; "altitude" := VNone;
        "cadence" := VInt 80 ]}) ].

(** Two fixes with one time stamp and a third one. *)
Definition fixes_repeated : list (gmap string Z) :=
  [ {[ "start_time" := 1714557600000; "latitude" := 46; "longitude" := 7;
       "altitude" := 400 ]};
    {[ "start_time" := 1714557600000; "latitude" := 47; "longitude" := 8 ]};
    {[ "start_time" := 1714557602000; "latitude" := 48;
       "longitude" := 9 ]} ].

(** What the merger makes of [fixes_repeated] and [samples]. *)
Definition merged_repeated : list (Z * gmap string value) :=
  [ (1714557600000,
     {[ "time" := VStr "2024-05-01T10:00:00.000Z"; "latitude" := VInt 47;
        "longitude" := VInt 8; "altitude" := VNone;
        "heart_rate" := VInt 140 ]});
    (1714557602000,
     {[ "time" := VStr "2024-05-01T10:00:02.000Z"; "latitude" := VInt 48;
        "longitude" := VInt 9; "altitude" := VNone;
        "cadence" := VInt 80 ]}) ].

(** A fix and a sample at the epoch. *)
Definition fix_epoch : gmap string Z :=
  {[ "start_time" := 0; "latitude" := 46; "longitude" := 7 ]}.

Definition sample_epoch : gmap string Z :=
  {[ "start_time" := 0; "heart_rate" := 140 ]}.

Definition live_file : string :=
  "jsons/com.samsung.shealth.exercise/a/abc.com.samsung.health.exercise.live_data.json".

(** The track point of [merged_first]. *)
Definition trackpoint_first : element :=
  Element "Trackpoint" [] None
    [leaf "Time" "2024-05-01T10:00:00.000Z";
     position_element (VInt 46) (VInt 7);
     heart_rate_element (VInt 140)].

(** The row of the exercise file that [row] is read from; it has a
    column that the list does not take over. *)
Definition csv_row : gmap string string :=
  list_to_map
    [("com.samsung.health.exercise.datauuid", "abc");
     ("com.samsung.health.exercise.start_time", "2024-05-01 10:00:00");
     ("total_calorie", "12.4");
     ("com.samsung.health.exercise.duration", "60000");
     ("com.samsung.health.exercise.exercise_type", "1002");
     ("heart_rate_sample_count", "2");
     ("com.samsung.health.exercise.mean_heart_rate", "70.0");
     ("com.samsung.health.exercise.max_heart_rate", "150.0");
     ("com.samsung.health.exercise.min_heart_rate", "60.0");
     ("com.samsung.health.exercise.mean_speed", "2.5");
     ("com.samsung.health.exercise.max_speed", "3.0");
     ("com.samsung.health.exercise.mean_cadence", "");
     ("com.samsung.health.exercise.max_cadence", "");
     ("com.samsung.health.exercise.distance", "100.5");
     ("com.samsung.health.exercise.location_data", "abc.location_data.json");
     ("com.samsung.health.exercise.live_data", "abc.live_data.json");
     ("com.samsung.health.exercise.comment", "")].

(** A line with fewer cells than the header has columns. *)
Definition short_row : list string := ["abc"; "2021-03-04 05:06:07.000"].

Definition exercise_file : string :=
  "com.samsung.shealth.exercise.20240501.csv".

End Examples.

(** * Properties *)

(** ** Results and loops *)

Lemma bind_Ok {A B} (m : result A) (f : A → result B) (b : B) :
  m ≫= f = Ok b → ∃ a, m = Ok a ∧ f a = Ok b.
Proof. destruct m as [a|e]; simpl; [eauto | discriminate]. Qed.

Lemma bind_Raise {A B} (m : result A) (f : A → result B) (e : exn) :
  m ≫= f = Raise e ↔ m = Raise e ∨ ∃ a, m = Ok a ∧ f a = Raise e.
Proof. destruct m as [a|e']; simpl; naive_solver. Qed.

Lemma returns_Ok {A} (a : A) : returns (Ok a).
Proof. by exists a. Qed.


Lemma for_each_app {A S} (body : S → A → result S) (s : S)
    (l1 l2 : list A) :
  for_each body s (l1 ++ l2)
  = for_each body s l1 ≫= λ s', for_each body s' l2.
Proof.
  revert s. induction l1 as [|x l1 IH]; intros s; simpl; [done |].
  destruct (body s x) as [s'|e]; simpl; [apply IH | done].
Qed.

(** ** Texts *)

Lemma plain_xml (s : string) : plain s = true → xml_compatible s = true.
Proof.
  induction s as [|c s IH]; [done |]. cbn [plain xml_compatible].
  intros [Hc Hs]%andb_true_iff. rewrite (IH Hs), andb_true_r.
  unfold plain_char in Hc. apply andb_true_iff in Hc as [Hlo Hhi].
  apply N.ltb_lt in Hhi. apply N.leb_le in Hlo.
  rewrite (proj2 (N.leb_gt _ _) Hhi). unfold xml_char. cbv zeta.
  rewrite (proj2 (N.leb_le _ _) Hlo). by rewrite !orb_true_r.
Qed.

Lemma plain_app (s1 s2 : string) :
  plain (s1 ++ s2) = plain s1 && plain s2.
Proof.
  induction s1 as [|c s1 IH]; [done |]. simpl.
  by rewrite IH, andb_assoc.
Qed.

Lemma plain_pretty_N_go (x : N) (s : string) :
  plain s = true → plain (pretty_N_go x s) = true.
Proof.
  revert s. induction (N.lt_wf_0 x) as [x _ IH]; intros s Hs.
  assert (x = 0 ∨ 0 < x)%N as [->|Hx] by lia.
  - by rewrite pretty_N_go_0.
  - rewrite pretty_N_go_step by done. apply IH.
    { by apply N.div_lt. }
    cbn [plain]. rewrite Hs, andb_true_r.
    unfold pretty_N_char. by repeat case_match.
Qed.

Lemma plain_pretty_Z (x : Z) : plain (pretty x) = true.
Proof.
  assert (∀ p : positive, plain (pretty p) = true) as Hpos.
  { intros p. unfold pretty, pretty_positive, pretty, pretty_N.
    case_decide; [done |]. by apply plain_pretty_N_go. }
  destruct x as [|p|p]; [done | apply Hpos |].
  unfold pretty, pretty_Z. cbn [plain String.append]. apply Hpos.
Qed.

Lemma str_of_int_xml (n : Z) : xml_compatible (str_of_int n) = true.
Proof. apply plain_xml, plain_pretty_Z. Qed.

Lemma xml_text_Ok (s r : string) :
  xml_text s = Ok r ↔ xml_compatible s = true ∧ r = s.
Proof. unfold xml_text. destruct (xml_compatible s); naive_solver. Qed.

Lemma xml_text_Raise (s : string) (e : exn) :
  xml_text s = Raise e ↔ xml_compatible s = false ∧ e = ValueError.
Proof. unfold xml_text. destruct (xml_compatible s); naive_solver. Qed.

Lemma set_sub_text_Ok (parent : element) (t s : string) (r : element) :
  set_sub_text parent t s = Ok r
  ↔ xml_compatible s = true ∧ r = sub_text parent t s.
Proof.
  unfold set_sub_text, xml_text.
  destruct (xml_compatible s); simpl; naive_solver.
Qed.

Lemma set_sub_text_xml (parent : element) (t s : string) :
  xml_compatible s = true →
  set_sub_text parent t s = Ok (sub_text parent t s).
Proof. intros Hs. by apply set_sub_text_Ok. Qed.

Lemma add_bpm_eq (lap : element) (t : string) (n : Z) :
  add_bpm lap t n = Ok (append lap (bpm t n)).
Proof.
  unfold add_bpm. by rewrite (set_sub_text_xml _ _ _ (str_of_int_xml n)).
Qed.

(** ** Elements *)

Lemma sub_text_Element t a x cs tg s :
  sub_text (Element t a x cs) tg s = Element t a x (cs ++ [leaf tg s]).
Proof. reflexivity. Qed.

Lemma sub_text_if_Ok t a x cs tg s r :
  sub_text_if (Element t a x cs) tg s = Ok r
  ↔ (truthy s = true → xml_compatible (str_arg s) = true)
    ∧ r = Element t a x (cs ++ opt (truthy s) (leaf tg (str_arg s))).
Proof.
  unfold sub_text_if, opt. destruct (truthy s).
  - rewrite set_sub_text_Ok, sub_text_Element. naive_solver.
  - rewrite app_nil_r. naive_solver.
Qed.

Lemma sub_text_if_nonzero_Ok t a x cs tg s r :
  sub_text_if_nonzero (Element t a x cs) tg s = Ok r
  ↔ (truthy s && not_zero_text s = true →
     xml_compatible (str_arg s) = true)
    ∧ r = Element t a x
            (cs ++ opt (truthy s && not_zero_text s) (leaf tg (str_arg s))).
Proof.
  unfold sub_text_if_nonzero, opt. destruct (truthy s && not_zero_text s).
  - rewrite set_sub_text_Ok, sub_text_Element. naive_solver.
  - rewrite app_nil_r. naive_solver.
Qed.

Lemma add_extensions_Ok t a x cs avg_speed avg_cadence max_cadence r :
  add_extensions (Element t a x cs) avg_speed avg_cadence max_cadence = Ok r
  ↔ (∀ s, s ∈ [avg_speed; avg_cadence; max_cadence] →
          truthy s && not_zero_text s = true →
          xml_compatible (str_arg s) = true)
    ∧ r = Element t a x
            (cs ++ opt (truthy avg_speed || truthy avg_cadence
                        || truthy max_cadence)
                       (extensions avg_speed avg_cadence max_cadence)).
Proof.
  unfold add_extensions, extensions, lx_children.
  destruct (truthy avg_speed || truthy avg_cadence || truthy max_cadence)
    eqn:Hany.
  - split.
    + intros (lx1 & H1%sub_text_if_nonzero_Ok & Hr)%bind_Ok.
      destruct H1 as [Hs1 ->].
      apply bind_Ok in Hr as (lx2 & [Hs2 ->]%sub_text_if_nonzero_Ok & Hr).
      apply bind_Ok in Hr as (lx3 & [Hs3 ->]%sub_text_if_nonzero_Ok & Hr).
      injection Hr as <-. split.
      * intros s Hin. repeat (apply elem_of_cons in Hin as [->|Hin]; [done |]).
        by apply not_elem_of_nil in Hin.
      * cbn [opt append app]. by rewrite <- !app_assoc.
    + intros [Hall ->].
      rewrite (proj2 (sub_text_if_nonzero_Ok _ _ _ _ _ avg_speed _)
                 (conj (Hall avg_speed ltac:(set_solver)) eq_refl)).
      cbn [mbind result_bind].
      rewrite (proj2 (sub_text_if_nonzero_Ok _ _ _ _ _ avg_cadence _)
                 (conj (Hall avg_cadence ltac:(set_solver)) eq_refl)).
      cbn [mbind result_bind].
      rewrite (proj2 (sub_text_if_nonzero_Ok _ _ _ _ _ max_cadence _)
                 (conj (Hall max_cadence ltac:(set_solver)) eq_refl)).
      cbn [mbind result_bind opt append app]. by rewrite <- !app_assoc.
  - assert (∀ s, s ∈ [avg_speed; avg_cadence; max_cadence] →
                 truthy s = false) as Hnone.
    { apply orb_false_elim in Hany as [[Ha Hb]%orb_false_elim Hc].
      intros s Hin. repeat (apply elem_of_cons in Hin as [->|Hin]; [done |]).
      by apply not_elem_of_nil in Hin. }
    cbn [opt]. rewrite app_nil_r. split.
    + intros [= <-]. split; [| done]. intros s Hin.
      by rewrite (Hnone s Hin).
    + by intros [_ ->].
Qed.

Lemma children_tagged_app t tg a x cs1 cs2 :
  children_tagged t (Element tg a x (cs1 ++ cs2))
  = children_tagged t (Element tg a x cs1)
    ++ children_tagged t (Element tg a x cs2).
Proof. unfold children_tagged. simpl. apply filter_app. Qed.

(** ** The lap builder *)

Section LapProperties.
Context `{PyLib}.

(** A lap that was built has the children of its blocks, in the order of
    the blocks; every conversion it needed went through and every text
    it was given is one that XML can hold. *)
Lemma create_lap_built start_time duration distance calories avg_hr max_hr
    avg_speed max_speed avg_cadence max_cadence lap :
  create_lap start_time duration distance calories avg_hr max_hr
    avg_speed max_speed avg_cadence max_cadence = Ok lap →
  xml_compatible start_time = true
  ∧ (truthy distance = true → xml_compatible (str_arg distance) = true)
  ∧ (truthy max_speed = true → xml_compatible (str_arg max_speed) = true)
  ∧ (∀ s, s ∈ [avg_speed; avg_cadence; max_cadence] →
          truthy s && not_zero_text s = true →
          xml_compatible (str_arg s) = true)
  ∧ ∃ secs kcal ahr mhr,
      (truthy duration = true → seconds_of (str_arg duration) = Ok secs)
      ∧ (truthy calories = true → calories_of (str_arg calories) = Ok kcal)
      ∧ (truthy avg_hr && not_zero_text avg_hr = true →
         heart_rate_of (str_arg avg_hr) = Ok ahr)
      ∧ (truthy max_hr && not_zero_text avg_hr = true →
         heart_rate_of (str_arg max_hr) = Ok mhr)
      ∧ lap = Element "Lap" [("StartTime", start_time)] None
                (lap_children secs kcal ahr mhr duration distance calories
                   avg_hr max_hr avg_speed max_speed avg_cadence
                   max_cadence).
Proof.
  unfold create_lap, lap_children. intros Hc.
  apply bind_Ok in Hc as (st & [Hst ->]%xml_text_Ok & Hc). cbv zeta in Hc.
  apply bind_Ok in Hc as (lap1 & H1 & Hc).
  apply bind_Ok in Hc as (lap2 & H2 & Hc).
  apply bind_Ok in Hc as (lap3 & H3 & Hc).
  apply bind_Ok in Hc as (lap4 & H4 & Hc).
  apply bind_Ok in Hc as (lap5 & H5 & Hc).
  apply bind_Ok in Hc as (lap6 & H6 & Hc).
  apply bind_Ok in Hc as (lap7 & [_ ->]%set_sub_text_Ok & Hc).
  apply bind_Ok in Hc as (lap8 & [_ ->]%set_sub_text_Ok & Hc).
  assert (∃ secs, (truthy duration = true →
                   seconds_of (str_arg duration) = Ok secs)
                  ∧ lap1 = Element "Lap" [("StartTime", start_time)] None
                             (opt (truthy duration)
                                  (leaf "TotalTimeSeconds" secs)))
    as (secs & Hsecs & ->).
  { unfold seconds_of. destruct (truthy duration).
    - apply bind_Ok in H1 as (d & Hd & H1).
      apply bind_Ok in H1 as (x & Hx & [_ ->]%set_sub_text_Ok).
      exists (str_of_float x). rewrite Hd. simpl. rewrite Hx. done.
    - exists ""%string. split; [done | by injection H1 as <-]. }
  apply sub_text_if_Ok in H2 as [Hdist ->].
  apply sub_text_if_Ok in H3 as [Hspeed ->].
  match type of H4 with
  | context [Element "Lap" _ None ?cs] => set (cs1 := cs) in *
  end.
  assert (∃ kcal, (truthy calories = true →
                   calories_of (str_arg calories) = Ok kcal)
                  ∧ lap4 = Element "Lap" [("StartTime", start_time)] None
                             (cs1 ++ opt (truthy calories)
                                         (leaf "Calories" kcal)))
    as (kcal & Hkcal & ->).
  { unfold calories_of. destruct (truthy calories).
    - apply bind_Ok in H4 as (c & Hc' & H4).
      apply bind_Ok in H4 as (n & Hn & [_ ->]%set_sub_text_Ok).
      exists (str_of_int n). rewrite Hc'. simpl. rewrite Hn. done.
    - exists ""%string. split; [done |]. injection H4 as <-.
      simpl. by rewrite app_nil_r. }
  match type of H5 with
  | context [Element "Lap" _ None ?cs] => set (cs2 := cs) in *
  end.
  assert (∃ ahr, (truthy avg_hr && not_zero_text avg_hr = true →
                  heart_rate_of (str_arg avg_hr) = Ok ahr)
                 ∧ lap5 = Element "Lap" [("StartTime", start_time)] None
                            (cs2 ++ opt (truthy avg_hr && not_zero_text avg_hr)
                                        (bpm "AverageHeartRateBpm" ahr)))
    as (ahr & Hahr & ->).
  { unfold heart_rate_of. destruct (truthy avg_hr && not_zero_text avg_hr).
    - apply bind_Ok in H5 as (x & Hx & H5).
      apply bind_Ok in H5 as (n & Hn & H5). rewrite add_bpm_eq in H5.
      exists n. rewrite Hx. simpl. split; [done | by injection H5 as <-].
    - exists 0. split; [done |]. injection H5 as <-.
      simpl. by rewrite app_nil_r. }
  match type of H6 with
  | context [Element "Lap" _ None ?cs] => set (cs3 := cs) in *
  end.
  assert (∃ mhr, (truthy max_hr && not_zero_text avg_hr = true →
                  heart_rate_of (str_arg max_hr) = Ok mhr)
                 ∧ lap6 = Element "Lap" [("StartTime", start_time)] None
                        (cs3 ++ opt (truthy max_hr && not_zero_text avg_hr)
                               (bpm "MaximumHeartRateBpm" mhr)))
    as (mhr & Hmhr & ->).
  { unfold heart_rate_of. destruct (truthy max_hr && not_zero_text avg_hr).
    - apply bind_Ok in H6 as (x & Hx & H6).
      apply bind_Ok in H6 as (n & Hn & H6). rewrite add_bpm_eq in H6.
      exists n. rewrite Hx. simpl. split; [done | by injection H6 as <-].
    - exists 0. split; [done |]. injection H6 as <-.
      simpl. by rewrite app_nil_r. }
  rewrite !sub_text_Element in Hc.
  apply add_extensions_Ok in Hc as [Hext ->].
  do 4 (split; [assumption |]).
  exists secs, kcal, ahr, mhr. do 4 (split; [assumption |]).
  f_equal. subst cs3 cs2 cs1. by rewrite <- !app_assoc.
Qed.

Lemma create_lap_inv start_time duration distance calories avg_hr max_hr
    avg_speed max_speed avg_cadence max_cadence lap :
  create_lap start_time duration distance calories avg_hr max_hr
    avg_speed max_speed avg_cadence max_cadence = Ok lap →
  ∃ secs kcal ahr mhr,
    (truthy duration = true → seconds_of (str_arg duration) = Ok secs)
    ∧ (truthy calories = true → calories_of (str_arg calories) = Ok kcal)
    ∧ (truthy avg_hr && not_zero_text avg_hr = true →
       heart_rate_of (str_arg avg_hr) = Ok ahr)
    ∧ (truthy max_hr && not_zero_text avg_hr = true →
       heart_rate_of (str_arg max_hr) = Ok mhr)
    ∧ lap = Element "Lap" [("StartTime", start_time)] None
              (lap_children secs kcal ahr mhr duration distance calories
                 avg_hr max_hr avg_speed max_speed avg_cadence max_cadence).
Proof. by intros (_ & _ & _ & _ & Hlap)%create_lap_built. Qed.




Lemma filter_opt {A} (P : A → Prop) `{!∀ x, Decision (P x)} (c : bool)
    (x : A) :
  filter P (opt c x) = opt (c && bool_decide (P x)) x.
Proof.
  destruct c; simpl; [| done].
  rewrite filter_cons, filter_nil. unfold opt.
  by destruct (decide (P x)) as [Hp|Hp];
    [rewrite bool_decide_eq_true_2 | rewrite bool_decide_eq_false_2].
Qed.

Lemma opt_nonempty {A} (c : bool) (x : A) : opt c x ≠ [] ↔ c = true.
Proof. by destruct c. Qed.

Lemma children_tagged_lap t a secs kcal ahr mhr duration distance calories
    avg_hr max_hr avg_speed max_speed avg_cadence max_cadence :
  children_tagged t
    (Element "Lap" a None
       (lap_children secs kcal ahr mhr duration distance calories
          avg_hr max_hr avg_speed max_speed avg_cadence max_cadence))
  = opt (truthy duration && bool_decide ("TotalTimeSeconds" = t))
        (leaf "TotalTimeSeconds" secs)
    ++ opt (truthy distance && bool_decide ("DistanceMeters" = t))
           (leaf "DistanceMeters" (str_arg distance))
    ++ opt (truthy max_speed && bool_decide ("MaximumSpeed" = t))
           (leaf "MaximumSpeed" (str_arg max_speed))
    ++ opt (truthy calories && bool_decide ("Calories" = t))
           (leaf "Calories" kcal)
    ++ opt (truthy avg_hr && not_zero_text avg_hr
            && bool_decide ("AverageHeartRateBpm" = t))
           (bpm "AverageHeartRateBpm" ahr)
    ++ opt (truthy max_hr && not_zero_text avg_hr
            && bool_decide ("MaximumHeartRateBpm" = t))
           (bpm "MaximumHeartRateBpm" mhr)
    ++ opt (bool_decide ("Intensity" = t)) (leaf "Intensity" "Active")
    ++ opt (bool_decide ("TriggerMethod" = t))
           (leaf "TriggerMethod" "Manual")
    ++ opt ((truthy avg_speed || truthy avg_cadence || truthy max_cadence)
            && bool_decide ("Extensions" = t))
           (extensions avg_speed avg_cadence max_cadence).
Proof.
  unfold children_tagged, lap_children. cbn [children].
  change [leaf "Intensity" "Active"; leaf "TriggerMethod" "Manual"]
    with (opt true (leaf "Intensity" "Active")
          ++ opt true (leaf "TriggerMethod" "Manual")).
  rewrite !filter_app, !filter_opt, <- !app_assoc. reflexivity.
Qed.

Ltac tag_decide :=
  repeat match goal with
    | |- context [bool_decide (?a = ?b)] =>
        first [ rewrite (bool_decide_eq_true_2 (a = b)) by reflexivity
              | rewrite (bool_decide_eq_false_2 (a = b)) by discriminate ]
    end;
  rewrite ?andb_true_r, ?andb_false_r; cbn [opt app];
  rewrite ?app_nil_r.

Lemma not_zero_text_true (s : option string) :
  not_zero_text s = true ↔ s ≠ Some "0.0".
Proof.
  unfold not_zero_text. by rewrite negb_true_iff, bool_decide_eq_false.
Qed.

Lemma truthy_and_not_zero (s : option string) :
  truthy s && not_zero_text s = true ↔ truthy s = true ∧ s ≠ Some "0.0".
Proof. by rewrite andb_true_iff, not_zero_text_true. Qed.

(** Which inputs decide the presence of the two heart-rate children. *)
Lemma create_lap_heart_rate start_time duration distance calories avg_hr
    max_hr avg_speed max_speed avg_cadence max_cadence lap :
  create_lap start_time duration distance calories avg_hr max_hr
    avg_speed max_speed avg_cadence max_cadence = Ok lap →
  (has_child "AverageHeartRateBpm" lap
   ↔ truthy avg_hr = true ∧ avg_hr ≠ Some "0.0")
  ∧ (has_child "MaximumHeartRateBpm" lap
     ↔ truthy max_hr = true ∧ avg_hr ≠ Some "0.0").
Proof.
  intros (secs & kcal & ahr & mhr & _ & _ & _ & _ & ->)%create_lap_inv.
  unfold has_child. rewrite !children_tagged_lap. split.
  - tag_decide. rewrite opt_nonempty. apply truthy_and_not_zero.
  - tag_decide. rewrite opt_nonempty.
    by rewrite andb_true_iff, not_zero_text_true.
Qed.

Lemma has_path_extension (t : string) (c : bool) (s : string) a
    secs kcal ahr mhr duration distance calories
    avg_hr max_hr avg_speed max_speed avg_cadence max_cadence :
  children_tagged t
    (Element (ns3_tag "LX") [] None
       (lx_children avg_speed avg_cadence max_cadence)) = opt c (leaf t s) →
  has_path ["Extensions"; ns3_tag "LX"; t]
    (Element "Lap" a None
       (lap_children secs kcal ahr mhr duration distance calories
          avg_hr max_hr avg_speed max_speed avg_cadence max_cadence))
  ↔ c = true.
Proof.
  intros Hlx. unfold has_path. cbn [descend].
  rewrite children_tagged_lap. tag_decide.
  destruct (truthy avg_speed || truthy avg_cadence || truthy max_cadence)
    eqn:Hany; cbn [opt mbind list_bind app].
  - unfold extensions at 1.
    change (children_tagged (ns3_tag "LX")
              (Element "Extensions" [] None
                 [Element (ns3_tag "LX") [] None
                    (lx_children avg_speed avg_cadence max_cadence)]))
      with [Element (ns3_tag "LX") [] None
              (lx_children avg_speed avg_cadence max_cadence)].
    cbn [mbind list_bind app]. rewrite Hlx, !app_nil_r.
    destruct c; simpl; [done |]. naive_solver.
  - split; [done |]. intros ->.
    assert (children_tagged t
              (Element (ns3_tag "LX") [] None
                 (lx_children avg_speed avg_cadence max_cadence)) = [])
      as Hnil.
    { apply orb_false_elim in Hany as [[Ha Hb]%orb_false_elim Hc].
      unfold lx_children. by rewrite Ha, Hb, Hc. }
    rewrite Hnil in Hlx. discriminate.
Qed.

Lemma children_tagged_lx t avg_speed avg_cadence max_cadence :
  children_tagged t
    (Element (ns3_tag "LX") [] None
       (lx_children avg_speed avg_cadence max_cadence))
  = opt (truthy avg_speed && not_zero_text avg_speed
         && bool_decide (ns3_tag "AvgSpeed" = t))
        (leaf (ns3_tag "AvgSpeed") (str_arg avg_speed))
    ++ opt (truthy avg_cadence && not_zero_text avg_cadence
            && bool_decide (ns3_tag "AvgRunCadence" = t))
           (leaf (ns3_tag "AvgRunCadence") (str_arg avg_cadence))
    ++ opt (truthy max_cadence && not_zero_text max_cadence
            && bool_decide (ns3_tag "MaxRunCadence" = t))
           (leaf (ns3_tag "MaxRunCadence") (str_arg max_cadence)).
Proof.
  unfold children_tagged, lx_children. cbn [children].
  by rewrite !filter_app, !filter_opt.
Qed.


(** C5, as amended.  Every field whose input is absent (None or the
    empty text) is left out of the lap record.  The mean heart rate and
    the three extension values are also left out when their input is
    the text "0.0".  Duration, distance, maximum speed and calories are
    emitted whenever their input is non-empty, whatever number the text
    denotes.  An absent maximum heart rate is left out. *)
Theorem create_lap_omits_absent start_time duration distance calories
    avg_hr max_hr avg_speed max_speed avg_cadence max_cadence lap :
  create_lap start_time duration distance calories avg_hr max_hr
    avg_speed max_speed avg_cadence max_cadence = Ok lap →
  (has_child "TotalTimeSeconds" lap ↔ truthy duration = true)
  ∧ (has_child "DistanceMeters" lap ↔ truthy distance = true)
  ∧ (has_child "MaximumSpeed" lap ↔ truthy max_speed = true)
  ∧ (has_child "Calories" lap ↔ truthy calories = true)
  ∧ (has_child "AverageHeartRateBpm" lap
     ↔ truthy avg_hr = true ∧ avg_hr ≠ Some "0.0")
  ∧ (truthy max_hr = false → ¬ has_child "MaximumHeartRateBpm" lap)
  ∧ (has_path ["Extensions"; ns3_tag "LX"; ns3_tag "AvgSpeed"] lap
     ↔ truthy avg_speed = true ∧ avg_speed ≠ Some "0.0")
  ∧ (has_path ["Extensions"; ns3_tag "LX"; ns3_tag "AvgRunCadence"] lap
     ↔ truthy avg_cadence = true ∧ avg_cadence ≠ Some "0.0")
  ∧ (has_path ["Extensions"; ns3_tag "LX"; ns3_tag "MaxRunCadence"] lap
     ↔ truthy max_cadence = true ∧ max_cadence ≠ Some "0.0").
Proof.
  intros Hlap. pose proof (create_lap_heart_rate _ _ _ _ _ _ _ _ _ _ _ Hlap)
    as [Havg Hmax].
  apply create_lap_inv in Hlap
    as (secs & kcal & ahr & mhr & _ & _ & _ & _ & ->).
  repeat split_and; try exact Havg.
  1-4: unfold has_child; rewrite children_tagged_lap; tag_decide;
       apply opt_nonempty.
  - intros Hno Hc. apply Hmax in Hc as [Ht _]. congruence.
  - rewrite <- truthy_and_not_zero. eapply has_path_extension.
    rewrite children_tagged_lx. tag_decide. reflexivity.
  - rewrite <- truthy_and_not_zero. eapply has_path_extension.
    rewrite children_tagged_lx. tag_decide. reflexivity.
  - rewrite <- truthy_and_not_zero. eapply has_path_extension.
    rewrite children_tagged_lx. tag_decide. reflexivity.
Qed.

End LapProperties.

(** ** The document assembler *)

Lemma track_fold (track : element) (trackpoints : list (option element)) :
  foldl (λ track trackpoint,
           match trackpoint with
           | Some p => append track p
           | None => track
           end) track trackpoints
  = Element (tag track) (attrib track) (text track)
      (children track ++ omap id trackpoints).
Proof.
  revert track. induction trackpoints as [|[p|] tps IH]; intros track.
  - destruct track. simpl. by rewrite app_nil_r.
  - simpl. rewrite IH. destruct track. simpl. by rewrite <- app_assoc.
  - simpl. by rewrite IH.
Qed.

Lemma descend_snoc (path : list string) (t : string) (e : element) :
  descend (path ++ [t]) e = descend path e ≫= children_tagged t.
Proof.
  revert e. induction path as [|t' path IH]; intros e; simpl.
  - rewrite app_nil_r. generalize (children_tagged t e). intros l.
    induction l as [|c cs IHc]; [done |]. rewrite bind_cons, IHc. done.
  - generalize (children_tagged t' e). intros l.
    induction l as [|c cs IHc]; [done |].
    by rewrite !bind_cons, bind_app, IH, IHc.
Qed.

(** C6.  For every lap and every list of track points, the document has
    one activity whose last child is the lap that was passed in with, at
    the end of its children, one track element holding exactly the track
    points of the list in their order when there is at least one track
    point, and nothing when there is none: a track is never empty.  For a
    lap element without a track of its own, such as the lap builder
    makes, the lap of the document thus has no track element for an empty
    list and exactly one otherwise. *)
Theorem build_xml_track (a_id ex_type : string) (lap : element)
    (trackpoints : list (option element)) :
  let points := omap id trackpoints in
  let tracks := if decide (points = []) then []
                else [Element "Track" [] None points] in
  let doc := build_xml a_id ex_type lap trackpoints in
  descend ["Activities"; "Activity"] doc
  = [Element "Activity" [("Sport", ex_type)] None
       [leaf "Id" a_id;
        Element (tag lap) (attrib lap) (text lap) (children lap ++ tracks)]]
  ∧ Forall (λ track, children track = points ∧ points ≠ []) tracks
  ∧ (tag lap = "Lap" → children_tagged "Track" lap = [] →
     descend ["Activities"; "Activity"; "Lap"; "Track"] doc = tracks).
Proof.
  intros points tracks doc. subst doc. unfold build_xml.
  rewrite track_fold. cbn [tag attrib text children app]. fold points.
  destruct lap as [t a x cs].
  assert ((if decide (0 < len (Element "Track" [] None points))%nat
           then append (Element t a x cs) (Element "Track" [] None points)
           else Element t a x cs)
          = Element t a x (cs ++ tracks)) as ->.
  { subst tracks. unfold len. cbn [children].
    destruct points as [|p ps]; simpl; [by rewrite app_nil_r | done]. }
  cbn [tag attrib text children].
  split; [reflexivity |]. split.
  - subst tracks. destruct (decide (points = [])); [constructor |].
    by repeat constructor.
  - intros -> Hno.
    assert (descend ["Activities"; "Activity"; "Lap"]
              (append_to_first create_root
                 (append (create_activity a_id ex_type)
                    (Element "Lap" a x (cs ++ tracks))))
            = [Element "Lap" a x (cs ++ tracks)]) as Hlap by reflexivity.
    change ["Activities"; "Activity"; "Lap"; "Track"]
      with (["Activities"; "Activity"; "Lap"] ++ ["Track"]).
    rewrite descend_snoc, Hlap. cbn [mbind list_bind].
    rewrite app_nil_r, children_tagged_app, Hno.
    subst tracks. by destruct (decide (points = [])).
Qed.

(** ** The nearest-timestamp search *)

(** [min] with a key that never raises returns the first of the elements
    whose key is the least: everything before it has a larger key. *)
Lemma min_from_first {A} (key : A → result Z) (f : A → Z) (l : list A)
    (best : A) :
  (∀ x, key x = Ok (f x)) →
  ∃ r l1 l2,
    min_from key best (f best) l = Ok r
    ∧ best :: l = l1 ++ r :: l2
    ∧ (∀ x, x ∈ l1 → f r < f x)
    ∧ (∀ x, x ∈ l2 → f r ≤ f x).
Proof.
  intros Hkey. revert best.
  induction l as [|x l IH]; intros best; simpl.
  - exists best, [], []. split; [done |]. split; [done |].
    split; intros y Hy; by apply not_elem_of_nil in Hy.
  - rewrite Hkey. simpl. destruct (decide (f x < f best)) as [Hlt|Hge].
    + destruct (IH x) as (r & l1 & l2 & Hr & Hsplit & Hbefore & Hafter).
      exists r, (best :: l1), l2. rewrite Hr, Hsplit.
      repeat split; [| done].
      intros y [->|Hy]%elem_of_cons; [| by apply Hbefore].
      assert (x ∈ l1 ++ r :: l2) as Hx by (rewrite <- Hsplit; left).
      apply elem_of_app in Hx as [Hx|Hx]; [specialize (Hbefore x Hx); lia |].
      apply elem_of_cons in Hx as [->|Hx]; [lia |].
      specialize (Hafter x Hx). lia.
    + destruct (IH best) as (r & l1 & l2 & Hr & Hsplit & Hbefore & Hafter).
      rewrite Hr. destruct l1 as [|b l1]; simpl in Hsplit.
      * injection Hsplit as <- <-. exists best, [], (x :: l).
        repeat split; [by intros ? ?%not_elem_of_nil |].
        intros y [->|Hy]%elem_of_cons; [lia | by apply Hafter].
      * injection Hsplit as <- ->. exists r, (best :: x :: l1), l2.
        repeat split; [| done].
        assert (f r < f best) as Hrb by (apply Hbefore; left).
        intros y [->|[->|Hy]%elem_of_cons]%elem_of_cons; [done | lia |].
        apply Hbefore. by right.
Qed.

Lemma py_min_first {A} (key : A → result Z) (f : A → Z) (l : list A) :
  (∀ x, key x = Ok (f x)) →
  l ≠ [] →
  ∃ r l1 l2,
    py_min key l = Ok r
    ∧ l = l1 ++ r :: l2
    ∧ (∀ x, x ∈ l1 → f r < f x)
    ∧ (∀ x, x ∈ l2 → f r ≤ f x).
Proof.
  intros Hkey Hne. destruct l as [|x l]; [done |]. simpl.
  rewrite Hkey. simpl. by apply min_from_first.
Qed.

(** The search on any non-empty list: a time stamp of the list at the
    least distance from the target. *)
Lemma find_nearest_time_min (ts : Z) (timestamps : list Z) :
  timestamps ≠ [] →
  ∃ r, find_nearest_time (Some ts) timestamps = Ok r
       ∧ r ∈ timestamps
       ∧ ∀ x, x ∈ timestamps → Z.abs (r - ts) ≤ Z.abs (x - ts).
Proof.
  intros Hne.
  destruct (py_min_first (distance_to (Some ts)) (λ x, Z.abs (x - ts))
              timestamps) as (r & l1 & l2 & Hr & -> & Hbefore & Hafter);
    [done | done |].
  exists r. split; [exact Hr |]. split; [set_solver |].
  intros x [Hx|[->|Hx]%elem_of_cons]%elem_of_app.
  - specialize (Hbefore x Hx). simpl in Hbefore. lia.
  - done.
  - by apply Hafter.
Qed.

(** C10.  On a non-empty list of time stamps in ascending order the search
    returns a time stamp of the list whose distance to the target is the
    least, and of two time stamps at that same distance it returns the
    smaller one. *)
Theorem find_nearest_time_sorted (ts : Z) (timestamps : list Z) :
  timestamps ≠ [] →
  Sorted Z.le timestamps →
  ∃ r, find_nearest_time (Some ts) timestamps = Ok r
       ∧ r ∈ timestamps
       ∧ (∀ x, x ∈ timestamps → Z.abs (r - ts) ≤ Z.abs (x - ts))
       ∧ (∀ x, x ∈ timestamps →
               Z.abs (x - ts) = Z.abs (r - ts) → r ≤ x).
Proof.
  intros Hne Hsorted.
  destruct (py_min_first (distance_to (Some ts)) (λ x, Z.abs (x - ts))
              timestamps) as (r & l1 & l2 & Hr & -> & Hbefore & Hafter);
    [done | done |].
  exists r. split; [exact Hr |]. split; [set_solver |]. split.
  - intros x [Hx|[->|Hx]%elem_of_cons]%elem_of_app.
    + specialize (Hbefore x Hx). simpl in Hbefore. lia.
    + done.
    + by apply Hafter.
  - apply Sorted_StronglySorted in Hsorted; [| apply _].
    apply StronglySorted_app in Hsorted as (_ & _ & Htail).
    apply StronglySorted_cons in Htail as [Hle _].
    rewrite Forall_forall in Hle.
    intros x [Hx|[->|Hx]%elem_of_cons]%elem_of_app Heq.
    + specialize (Hbefore x Hx). simpl in Hbefore. lia.
    + done.
    + by apply Hle.
Qed.

(** ** The outer dictionary *)

Lemma dict_set_keys {V} (d : list (Z * V)) (k : Z) (v : V) :
  (dict_set d k v).*1 = add_key d.*1 k.
Proof.
  unfold add_key. induction d as [|[k' v'] d IH].
  - destruct (decide (k ∈ (@nil (Z * V)).*1)) as [Hin|_]; [| done].
    by apply not_elem_of_nil in Hin.
  - cbn [dict_set]. destruct (decide (k' = k)) as [->|Hne].
    + rewrite !fmap_cons. cbn [fst]. rewrite decide_True; [done | left].
    + rewrite !fmap_cons, IH. cbn [fst].
      destruct (decide (k ∈ d.*1)) as [Hin|Hnin].
      * rewrite decide_True; [done | by right].
      * rewrite decide_False; [done |].
        intros [?|?]%elem_of_cons; [congruence | done].
Qed.

Lemma elem_of_dict_set {V} (d : list (Z * V)) (k : Z) (v : V) (kv : Z * V) :
  kv ∈ dict_set d k v → kv = (k, v) ∨ kv ∈ d.
Proof.
  induction d as [|[k' v'] d IH]; simpl.
  - intros ->%list_elem_of_singleton. by left.
  - destruct (decide (k' = k)) as [->|Hne].
    + intros [->|Hin]%elem_of_cons; [by left | right; by right].
    + intros [->|Hin]%elem_of_cons; [right; left |].
      destruct (IH Hin) as [->|?]; [by left | right; by right].
Qed.

Lemma dict_update_keys (d : list (Z * gmap string value)) (k : Z)
    (u : gmap string value) :
  (dict_update d k u).*1 = d.*1.
Proof.
  unfold dict_update. induction d as [|[k' e] d IH]; [done |].
  rewrite !fmap_cons, IH. f_equal. by destruct (decide _).
Qed.

Lemma elem_of_dict_update (d : list (Z * gmap string value)) (k : Z)
    (u : gmap string value) (k' : Z) (e' : gmap string value) :
  (k', e') ∈ dict_update d k u →
  ∃ e, (k', e) ∈ d ∧ e' = if decide (k' = k) then u ∪ e else e.
Proof.
  unfold dict_update. intros ([k0 e] & Heq & Hin)%list_elem_of_fmap.
  simpl in Heq. destruct (decide (k0 = k)) as [->|Hne].
  - injection Heq as -> ->. exists e. by rewrite decide_True.
  - injection Heq as -> ->. exists e. by rewrite decide_False.
Qed.

Lemma dict_get_update (d : list (Z * gmap string value)) (k k' : Z)
    (u : gmap string value) :
  dict_get (dict_update d k u) k'
  = (λ e, if decide (k' = k) then u ∪ e else e) <$> dict_get d k'.
Proof.
  unfold dict_update. induction d as [|[k0 e] d IH]; [done |].
  rewrite fmap_cons. simpl. destruct (decide (k0 = k)) as [->|Hne]; simpl.
  - destruct (decide (k = k')) as [->|Hne']; [| exact IH].
    simpl. by rewrite decide_True.
  - destruct (decide (k0 = k')) as [->|Hne']; [| exact IH].
    simpl. by rewrite decide_False.
Qed.


Lemma dict_has_true {V} (d : list (Z * V)) (k : Z) :
  dict_has d k = true ↔ k ∈ d.*1.
Proof. unfold dict_has. apply bool_decide_eq_true. Qed.

(** ** The payload of a sample *)

Lemma payload_keys_only (entry : gmap string Z) (f : string) (v : value) :
  payload entry !! f = Some v → f ∈ payload_keys ∧ value_truthy v = true.
Proof.
  unfold payload. intros Hin%elem_of_list_to_map_2.
  apply list_elem_of_omap in Hin as (key & Hkey & Hsome).
  destruct (with_heart_rate entry !! key) as [w|]; [| done].
  destruct (value_truthy w) eqn:Hw; [| done].
  injection Hsome as <- <-. done.
Qed.

Lemma payload_not_field (entry : gmap string Z) (f : string) :
  f ∉ payload_keys → payload entry !! f = None.
Proof.
  intros Hf. destruct (payload entry !! f) as [v|] eqn:Hv; [| done].
  by apply payload_keys_only in Hv as [? _].
Qed.

Lemma payload_union_other (entry : gmap string Z) (e : gmap string value)
    (f : string) :
  f ∉ payload_keys → (payload entry ∪ e) !! f = e !! f.
Proof.
  intros Hf. by rewrite lookup_union_r by by apply payload_not_field.
Qed.

Lemma lookup_filtered_fields (W : gmap string value) (l : list string)
    (f : string) :
  NoDup l →
  (list_to_map
     (omap (λ key, match W !! key with
                   | Some v => if value_truthy v then Some (key, v) else None
                   | None => None
                   end) l) : gmap string value) !! f
  = if decide (f ∈ l)
    then W !! f ≫= λ v, if value_truthy v then Some v else None
    else None.
Proof.
  induction 1 as [|k l Hk _ IH]; [done |].
  cbn [omap list_omap].
  destruct (decide (f = k)) as [->|Hne].
  - rewrite decide_True by left.
    destruct (W !! k) as [v|] eqn:Hv; simpl.
    + destruct (value_truthy v).
      * cbn [list_to_map foldr uncurry]. by rewrite lookup_insert_eq.
      * rewrite IH. by rewrite decide_False.
    + rewrite IH. by rewrite decide_False.
  - assert ((list_to_map
               (omap (λ key, match W !! key with
                             | Some v => if value_truthy v then Some (key, v)
                                         else None
                             | None => None
                             end) (k :: l)) : gmap string value) !! f
            = (list_to_map
                 (omap (λ key, match W !! key with
                               | Some v => if value_truthy v
                                           then Some (key, v) else None
                               | None => None
                               end) l) : gmap string value) !! f) as Hskip.
    { cbn [omap list_omap]. destruct (W !! k) as [v|]; [| done].
      destruct (value_truthy v); [| done].
      cbn [list_to_map foldr uncurry]. by rewrite lookup_insert_ne. }
    cbn [omap list_omap] in Hskip. rewrite Hskip, IH.
    destruct (decide (f ∈ l)) as [Hin|Hnin].
    + rewrite decide_True; [done | by right].
    + rewrite decide_False; [done |].
      intros [?|?]%elem_of_cons; done.
Qed.

(** What the payload of a sample holds. *)
Lemma payload_lookup (entry : gmap string Z) (f : string)
    (v : value) :
  payload entry !! f = Some v
  ↔ f ∈ payload_keys ∧ ∃ z, entry !! f = Some z ∧ z ≠ 0 ∧ v = VInt z.
Proof.
  unfold payload. rewrite lookup_filtered_fields
    by (unfold payload_keys; repeat constructor; set_solver).
  destruct (decide (f ∈ payload_keys)) as [Hin|Hnin];
    [| split; [done | by intros [? _]]].
  assert (with_heart_rate entry !! f
          = Some (from_option VInt VNone (entry !! f))
            ∨ (with_heart_rate entry !! f = None ∧ entry !! f = None))
    as Hw.
  { unfold with_heart_rate. destruct (decide (f = "heart_rate")) as [->|Hne].
    - left. by rewrite lookup_insert_eq.
    - rewrite lookup_insert_ne by done. rewrite lookup_fmap.
      destruct (entry !! f); simpl; [by left | by right]. }
  destruct Hw as [-> | [-> Hnone]]; simpl.
  - destruct (entry !! f) as [z|]; simpl.
    + destruct (decide (z = 0)) as [->|Hz].
      * rewrite bool_decide_eq_true_2 by done. simpl.
        split; [done | intros (_ & z & [= <-] & ? & _); done].
      * rewrite bool_decide_eq_false_2 by done. simpl. split.
        -- intros [= <-]. split; [done |]. by exists z.
        -- intros (_ & z' & [= <-] & _ & ->). done.
    + split; [done | intros (_ & z & ? & _); done].
  - rewrite Hnone. split; [done | intros (_ & z & ? & _); done].
Qed.


(** ** The track-point builder *)

Lemma item_Ok {V} (data : gmap string V) (key : string) (v : V) :
  item data key = Ok v ↔ data !! key = Some v.
Proof. unfold item. destruct (data !! key); naive_solver. Qed.

Lemma as_text_Ok (v : value) (t : option string) :
  as_text v = Ok t
  ↔ (v = VNone ∧ t = None)
    ∨ ∃ s, v = VStr s ∧ xml_compatible s = true ∧ t = Some s.
Proof.
  unfold as_text, xml_text. destruct v as [|n|s].
  - split; [intros [= <-]; by left | by intros [[_ ->]|(? & ? & _)]].
  - split; [done | intros [[? _]|(? & ? & _)]; done].
  - destruct (xml_compatible s) eqn:Hs; simpl.
    + split; [intros [= <-]; right; by exists s |].
      by intros [[? _]|(? & [= <-] & _ & ->)].
    + split; [done | intros [[? _]|(? & [= <-] & ? & _)]; congruence].
Qed.

Lemma as_text_Raise (v : value) (e : exn) :
  as_text v = Raise e
  ↔ ((∃ n, v = VInt n) ∧ e = TypeError)
    ∨ ((∃ s, v = VStr s ∧ xml_compatible s = false) ∧ e = ValueError).
Proof.
  unfold as_text, xml_text. destruct v as [|n|s].
  - split; [done | intros [[[? ?] _]|[(? & ? & _) _]]; done].
  - split; [intros [= <-]; left; eauto |].
    by intros [[_ ->]|[(? & ? & _) _]].
  - destruct (xml_compatible s) eqn:Hs; simpl.
    + split; [done |].
      intros [[[? ?] _]|[(? & [= <-] & ?) _]]; congruence.
    + split; [intros [= <-]; right; eauto |].
      by intros [[[? ?] _]|[_ ->]].
Qed.

Lemma set_sub_text_Raise (parent : element) (t s : string) (e : exn) :
  set_sub_text parent t s = Raise e
  ↔ xml_compatible s = false ∧ e = ValueError.
Proof.
  unfold set_sub_text, xml_text.
  destruct (xml_compatible s); simpl; naive_solver.
Qed.

Lemma elem_of_option_list {A} (o : option A) (x : A) :
  x ∈ option_list o ↔ o = Some x.
Proof.
  destruct o as [y|]; simpl.
  - rewrite list_elem_of_singleton. naive_solver.
  - split; [by intros ?%not_elem_of_nil | done].
Qed.

Lemma elem_of_written_values (data : gmap string value) (v : value) :
  v ∈ written_values data
  ↔ (position_keys data
     ∧ (data !! "latitude" = Some v ∨ data !! "longitude" = Some v))
    ∨ data !! "heart_rate" = Some v
    ∨ data !! "cadence" = Some v.
Proof.
  unfold written_values. rewrite !elem_of_app.
  destruct (decide (position_keys data)) as [Hpos|Hpos].
  - rewrite elem_of_app, !elem_of_option_list. naive_solver.
  - rewrite !elem_of_option_list, elem_of_nil. naive_solver.
Qed.

Lemma time_text_Ok (data : gmap string value) (time : option string) :
  item data "time" ≫= as_text = Ok time → time_text data.
Proof.
  intros (v & Hv%item_Ok & Ht%as_text_Ok)%bind_Ok.
  unfold time_text. rewrite Hv. naive_solver.
Qed.

(** The builder returns on data with a time that is a text or [None],
    with a latitude if it has the keys of a position, and with values
    whose text XML can hold. *)
Lemma create_trackpoint_returned (data : gmap string value)
    (r : option element) :
  create_trackpoint data = Ok r →
  time_text data
  ∧ (position_keys data → is_Some (data !! "latitude"))
  ∧ ∀ v, v ∈ written_values data → xml_compatible (str_of_value v) = true.
Proof.
  unfold create_trackpoint.
  intros (time & Htime & Hr)%bind_Ok. cbv zeta in Hr.
  apply bind_Ok in Hr as (tp1 & H1 & Hr).
  apply bind_Ok in Hr as (tp2 & H2 & Hr).
  apply bind_Ok in Hr as (tp3 & H3 & _).
  split.
  { by eapply time_text_Ok. }
  assert (position_keys data →
          ∃ lat lon, data !! "latitude" = Some lat
                     ∧ data !! "longitude" = Some lon
                     ∧ xml_compatible (str_of_value lat) = true
                     ∧ xml_compatible (str_of_value lon) = true) as Hpos.
  { intros Hpos. rewrite decide_True in H1 by exact Hpos.
    apply bind_Ok in H1 as (lat & Hlat%item_Ok & H1).
    apply bind_Ok in H1 as (p1 & [Hxlat _]%set_sub_text_Ok & H1).
    apply bind_Ok in H1 as (lon & Hlon%item_Ok & H1).
    apply bind_Ok in H1 as (p2 & [Hxlon _]%set_sub_text_Ok & _).
    by exists lat, lon. }
  assert (∀ v, data !! "heart_rate" = Some v →
               xml_compatible (str_of_value v) = true) as Hhr.
  { intros v Hv. rewrite decide_True in H2 by (by exists v).
    apply bind_Ok in H2 as (v' & Hv'%item_Ok & H2).
    apply bind_Ok in H2 as (p1 & [Hx _]%set_sub_text_Ok & _). congruence. }
  assert (∀ v, data !! "cadence" = Some v →
               xml_compatible (str_of_value v) = true) as Hcad.
  { intros v Hv. rewrite decide_True in H3 by (by exists v).
    apply bind_Ok in H3 as (v' & Hv'%item_Ok & [Hx _]%set_sub_text_Ok).
    congruence. }
  split.
  - intros (lat & _ & Hlat & _)%Hpos. by exists lat.
  - intros v [[(lat & lon & Hlat & Hlon & ? & ?)%Hpos [Hv|Hv]]|[Hv|Hv]]
      %elem_of_written_values; [congruence | congruence | auto | auto].
Qed.

(** How the builder raises, in the order of its steps. *)
Lemma create_trackpoint_raised (data : gmap string value) (e : exn) :
  create_trackpoint data = Raise e →
  (data !! "time" = None ∧ e = KeyError)
  ∨ ((∃ n, data !! "time" = Some (VInt n)) ∧ e = TypeError)
  ∨ ((∃ s, data !! "time" = Some (VStr s) ∧ xml_compatible s = false)
     ∧ e = ValueError)
  ∨ (time_text data ∧ position_keys data ∧ data !! "latitude" = None
     ∧ e = KeyError)
  ∨ (time_text data
     ∧ (position_keys data → is_Some (data !! "latitude"))
     ∧ (∃ v, v ∈ written_values data
             ∧ xml_compatible (str_of_value v) = false)
     ∧ e = ValueError).
Proof.
  unfold create_trackpoint.
  intros [Htime | (time & Htime & Hr)]%bind_Raise.
  { apply bind_Raise in Htime as [Htime | (v & Hv%item_Ok & Ht)].
    - unfold item in Htime. destruct (data !! "time"); [done |].
      injection Htime as <-. by left.
    - apply as_text_Raise in Ht as [[[n ->] ->] | [(s & -> & Hs) ->]].
      + right. left. eauto.
      + right. right. left. eauto. }
  apply time_text_Ok in Htime. cbv zeta in Hr.
  do 3 right.
  apply bind_Raise in Hr as [H1 | (tp1 & H1 & Hr)].
  { destruct (decide (is_Some (data !! "altitude")
                      ∧ is_Some (data !! "longitude"))) as [Hpos|Hpos];
      [| done].
    apply bind_Raise in H1 as [Hlat | (lat & Hlat%item_Ok & H1)].
    { unfold item in Hlat. destruct (data !! "latitude") eqn:Hl; [done |].
      injection Hlat as <-. by left. }
    right. split; [done |]. split; [by exists lat |].
    apply bind_Raise in H1 as [[Hx ->]%set_sub_text_Raise
                              | (p1 & _ & H1)].
    { split; [| done]. exists lat. split; [| done].
      apply elem_of_written_values. left. auto. }
    apply bind_Raise in H1 as [Hlon | (lon & Hlon%item_Ok & H1)].
    { unfold item in Hlon. destruct Hpos as [_ [lon Hl]].
      by rewrite Hl in Hlon. }
    apply bind_Raise in H1 as [[Hx ->]%set_sub_text_Raise
                              | (p2 & _ & H1)]; [| done].
    split; [| done]. exists lon. split; [| done].
    apply elem_of_written_values. left. auto. }
  assert (position_keys data → is_Some (data !! "latitude")) as Hlat.
  { intros Hpos. rewrite decide_True in H1 by exact Hpos.
    apply bind_Ok in H1 as (lat & Hlat%item_Ok & _). by exists lat. }
  right. split; [done |]. split; [done |].
  apply bind_Raise in Hr as [H2 | (tp2 & H2 & Hr)].
  { destruct (decide (is_Some (data !! "heart_rate"))) as [Hhr|Hhr];
      [| done].
    apply bind_Raise in H2 as [Hv | (v & Hv%item_Ok & H2)].
    { unfold item in Hv. destruct Hhr as [v Hv']. by rewrite Hv' in Hv. }
    apply bind_Raise in H2 as [[Hx ->]%set_sub_text_Raise
                              | (p1 & _ & H2)]; [| done].
    split; [| done]. exists v. split; [| done].
    apply elem_of_written_values. auto. }
  apply bind_Raise in Hr as [H3 | (tp3 & H3 & Hr)]; [| done].
  destruct (decide (is_Some (data !! "cadence"))) as [Hc|Hc]; [| done].
  apply bind_Raise in H3 as [Hv | (v & Hv%item_Ok & H3)].
  { unfold item in Hv. destruct Hc as [v Hv']. by rewrite Hv' in Hv. }
  apply set_sub_text_Raise in H3 as [Hx ->].
  split; [| done]. exists v. split; [| done].
  apply elem_of_written_values. auto.
Qed.

(** The children of a track point, block by block; there is a track
    point when one of the three blocks was entered. *)
Lemma create_trackpoint_Ok (data : gmap string value) (r : option element) :
  create_trackpoint data = Ok r →
  ∃ time lat lon hr c (bp bh bc : bool),
    (bp = true ↔ position_keys data)
    ∧ (bh = true ↔ is_Some (data !! "heart_rate"))
    ∧ (bc = true ↔ is_Some (data !! "cadence"))
    ∧ r = if bp || bh || bc
          then Some (Element "Trackpoint" [] None
                       (opt true (Element "Time" [] time [])
                        ++ opt bp (position_element lat lon)
                        ++ opt bh (heart_rate_element hr)
                        ++ opt bc (leaf "Cadence" (str_of_value c))))
          else None.
Proof.
  unfold create_trackpoint, item, position_keys.
  intros (time & _ & Hr)%bind_Ok. cbv zeta in Hr.
  apply bind_Ok in Hr as (tp1 & H1 & Hr).
  apply bind_Ok in Hr as (tp2 & H2 & Hr).
  apply bind_Ok in Hr as (tp3 & H3 & Hr).
  injection Hr as <-.
  set (tp0 := Element "Trackpoint" [] None [Element "Time" [] time []]).
  assert (∃ lat lon (bp : bool),
            (bp = true ↔ is_Some (data !! "altitude")
                          ∧ is_Some (data !! "longitude"))
            ∧ tp1 = Element "Trackpoint" [] None
                      (children tp0 ++ opt bp (position_element lat lon)))
    as (lat & lon & bp & Hbp & ->).
  { destruct (decide (is_Some (data !! "altitude")
                      ∧ is_Some (data !! "longitude"))) as [Hpos|Hpos].
    - apply bind_Ok in H1 as (lat & _ & H1).
      apply bind_Ok in H1 as (p1 & [_ ->]%set_sub_text_Ok & H1).
      apply bind_Ok in H1 as (lon & _ & H1).
      apply bind_Ok in H1 as (p2 & [_ ->]%set_sub_text_Ok & H1).
      injection H1 as <-. by exists lat, lon, true.
    - injection H1 as <-. exists VNone, VNone, false.
      split; [by split |]. by rewrite app_nil_r. }
  assert (∃ hr (bh : bool),
            (bh = true ↔ is_Some (data !! "heart_rate"))
            ∧ tp2 = Element "Trackpoint" [] None
                      ((children tp0 ++ opt bp (position_element lat lon))
                       ++ opt bh (heart_rate_element hr)))
    as (hr & bh & Hbh & ->).
  { destruct (decide (is_Some (data !! "heart_rate"))) as [Hhr|Hhr].
    - apply bind_Ok in H2 as (hr & _ & H2).
      apply bind_Ok in H2 as (p1 & [_ ->]%set_sub_text_Ok & H2).
      injection H2 as <-. by exists hr, true.
    - injection H2 as <-. exists VNone, false.
      split; [by split |]. by rewrite app_nil_r. }
  assert (∃ c (bc : bool),
            (bc = true ↔ is_Some (data !! "cadence"))
            ∧ tp3 = Element "Trackpoint" [] None
                      (((children tp0 ++ opt bp (position_element lat lon))
                        ++ opt bh (heart_rate_element hr))
                       ++ opt bc (leaf "Cadence" (str_of_value c))))
    as (c & bc & Hbc & ->).
  { destruct (decide (is_Some (data !! "cadence"))) as [Hc|Hc].
    - apply bind_Ok in H3 as (c & _ & [_ ->]%set_sub_text_Ok).
      by exists c, true.
    - injection H3 as <-. exists VNone, false.
      split; [by split |]. by rewrite app_nil_r. }
  exists time, lat, lon, hr, c, bp, bh, bc. do 3 (split; [done |]).
  by destruct bp, bh, bc.
Qed.

(** ** The telemetry merger *)

Lemma elem_of_add_keys (l ks : list Z) (t : Z) :
  t ∈ foldl add_key ks l ↔ t ∈ ks ∨ t ∈ l.
Proof.
  revert ks. induction l as [|x l IH]; intros ks; simpl.
  - split; [by left | intros [?|?%not_elem_of_nil]; done].
  - rewrite IH. unfold add_key. destruct (decide (x ∈ ks)) as [Hin|Hnin].
    + set_solver.
    + set_solver.
Qed.

(** First occurrences of an ascending list ascend strictly. *)
Lemma add_keys_sorted (l ks : list Z) :
  StronglySorted Z.lt ks →
  StronglySorted Z.le l →
  (∀ k x, k ∈ ks → x ∈ l → k ≤ x) →
  StronglySorted Z.lt (foldl add_key ks l).
Proof.
  revert ks. induction l as [|x l IH]; intros ks Hks Hl Hle; [done |].
  simpl. apply StronglySorted_cons in Hl as [Hx Hl].
  rewrite Forall_forall in Hx.
  unfold add_key. destruct (decide (x ∈ ks)) as [Hin|Hnin].
  - apply IH; [done | done |]. intros k y Hk Hy. apply Hle; [done | by right].
  - apply IH; [| done |].
    + apply StronglySorted_app. split; [| split; [done | repeat constructor]].
      intros k y Hk Hy. apply list_elem_of_singleton in Hy. subst y.
      assert (k ≤ x) by (apply Hle; [done | left]).
      assert (k ≠ x) by (by intros ->). lia.
    + intros k y [Hk|Hk]%elem_of_app Hy.
      * apply Hle; [done | by right].
      * apply list_elem_of_singleton in Hk. subst k. by apply Hx.
Qed.

Lemma min_from_elem {A} (key : A → result Z) (l : list A) (best r : A)
    (kbest : Z) :
  min_from key best kbest l = Ok r → r = best ∨ r ∈ l.
Proof.
  revert best kbest. induction l as [|x l IH]; intros best kbest; simpl.
  - intros [= ->]. by left.
  - intros (k & _ & Hr)%bind_Ok. destruct (decide (k < kbest)).
    + apply IH in Hr as [->|?]; right; [left | by right].
    + apply IH in Hr as [->|?]; [by left | right; by right].
Qed.

Lemma py_min_elem {A} (key : A → result Z) (l : list A) (r : A) :
  py_min key l = Ok r → r ∈ l.
Proof.
  destruct l as [|x l]; simpl; [done |].
  intros (k & _ & Hr)%bind_Ok.
  apply min_from_elem in Hr as [->|?]; [left | by right].
Qed.

Ltac not_payload_key :=
  let Hin := fresh "Hin" in
  intros Hin;
  repeat (apply elem_of_cons in Hin as [Hin|Hin]; [discriminate Hin |]);
  by apply not_elem_of_nil in Hin.

Section MergerProperties.
Context `{PyLib}.

Lemma add_location_inv merged_data entry merged' :
  add_location merged_data entry = Ok merged' →
  ∃ t e, entry !! "start_time" = Some t
         ∧ merged' = dict_set merged_data t e
         ∧ entry_shape (t, e).
Proof.
  unfold add_location.
  intros (t & Ht%item_Ok & Hrest)%bind_Ok.
  apply bind_Ok in Hrest as (time & Htime & Hrest).
  apply bind_Ok in Hrest as (lat & Hlat & Hrest).
  apply bind_Ok in Hrest as (lon & Hlon & Hrest).
  injection Hrest as <-. eexists t, _. split; [done |].
  split; [reflexivity |]. exists time. simpl.
  split; [done |]. do 4 (split; [by simplify_map_eq |]).
  intros f v Hf Hv.
  destruct (decide (f = "latitude")) as [->|]; [simplify_map_eq; eauto |].
  destruct (decide (f = "longitude")) as [->|]; [simplify_map_eq; eauto |].
  destruct (decide (f = "altitude")) as [->|]; [| by simplify_map_eq].
  simplify_map_eq. destruct (entry !! "altitude"); simpl; eauto.
Qed.

Lemma add_location_ok merged_data entry :
  position_fix entry → returns (add_location merged_data entry).
Proof.
  intros (t & Ht & [time Htime] & [lat Hlat] & [lon Hlon]).
  unfold add_location, item. rewrite Ht. simpl. rewrite Htime. simpl.
  rewrite Hlat. simpl. rewrite Hlon. simpl. apply returns_Ok.
Qed.

Lemma entry_shape_set merged_data t e :
  Forall entry_shape merged_data → entry_shape (t, e) →
  Forall entry_shape (dict_set merged_data t e).
Proof.
  rewrite !Forall_forall. intros Hall He kv [->|Hin]%elem_of_dict_set;
    [done | by apply Hall].
Qed.

Lemma entry_shape_update merged_data k entry :
  Forall entry_shape merged_data →
  Forall entry_shape (dict_update merged_data k (payload entry)).
Proof.
  rewrite !Forall_forall.
  intros Hall [k' e'] (e & Hin & ->)%elem_of_dict_update.
  specialize (Hall _ Hin). destruct (decide (k' = k)) as [->|Hne]; [| done].
  destruct Hall as (time & Hf & Ht & Hlat & Hlon & Halt & Hint).
  exists time. simpl in *. split; [done |].
  rewrite !payload_union_other by not_payload_key.
  do 4 (split; [done |]). intros f v Hne Hv.
  apply lookup_union_Some_raw in Hv as [Hv | [_ Hv]]; [| by eapply Hint].
  apply payload_lookup in Hv as (_ & z & _ & _ & ->). eauto.
Qed.

(** The first loop: the keys are the time stamps of the series in the
    order of their first occurrence. *)
Lemma locations_inv locationdata merged_data merged' :
  for_each add_location merged_data locationdata = Ok merged' →
  map_result (λ d, item d "start_time") locationdata
  = Ok (fix_times locationdata)
  ∧ merged'.*1 = foldl add_key merged_data.*1 (fix_times locationdata)
  ∧ (Forall entry_shape merged_data → Forall entry_shape merged').
Proof.
  revert merged_data.
  induction locationdata as [|entry P IH]; intros merged_data;
    cbn [for_each map_result].
  - intros [= ->]. done.
  - intros (m1 & Hstep & Hrest)%bind_Ok.
    apply add_location_inv in Hstep as (t & e & Ht & -> & He).
    apply IH in Hrest as (Hmap & Hkeys & Hshape).
    rewrite (proj2 (item_Ok _ _ _) Ht), Hmap.
    assert (fix_times (entry :: P) = t :: fix_times P) as ->
      by (unfold fix_times; simpl; by rewrite Ht).
    split; [done |]. split.
    + by rewrite Hkeys, dict_set_keys.
    + intros Hall. by apply Hshape, entry_shape_set.
Qed.

Lemma locations_ok locationdata merged_data :
  Forall position_fix locationdata →
  returns (for_each add_location merged_data locationdata).
Proof.
  intros Hall. revert merged_data.
  induction Hall as [|entry P Hentry _ IH]; intros merged_data; simpl.
  - apply returns_Ok.
  - destruct (add_location_ok merged_data entry Hentry) as [m1 ->].
    apply IH.
Qed.

Lemma resolve_time_key merged_data timestamps ts k :
  (∀ t, t ∈ timestamps → t ∈ merged_data.*1) →
  resolve_time merged_data timestamps ts = Ok k →
  k ∈ merged_data.*1.
Proof.
  intros Hsub. unfold resolve_time, find_nearest_time.
  destruct ts as [t|].
  - destruct (dict_has merged_data t) eqn:Hhas.
    + intros [= <-]. by apply dict_has_true.
    + intros ?%py_min_elem. by apply Hsub.
  - intros ?%py_min_elem. by apply Hsub.
Qed.

(** One sample that went through was attached to an existing entry. *)
Lemma add_live_inv timestamps merged_data entry merged' :
  (∀ t, t ∈ timestamps → t ∈ merged_data.*1) →
  add_live timestamps merged_data entry = Ok merged' →
  ∃ k, resolve_time merged_data timestamps (sample_time entry) = Ok k
       ∧ k ∈ merged_data.*1
       ∧ merged' = dict_update merged_data k (payload entry).
Proof.
  intros Hsub. unfold add_live.
  intros (k & Hk & Hrest)%bind_Ok.
  apply bind_Ok in Hrest as (time & _ & Hrest).
  pose proof (resolve_time_key _ _ _ _ Hsub Hk) as Hin.
  rewrite (proj2 (dict_has_true _ _) Hin) in Hrest.
  injection Hrest as <-. by exists k.
Qed.

Lemma format_time_key merged_data k :
  Forall entry_shape merged_data → k ∈ merged_data.*1 →
  returns (format_time k).
Proof.
  rewrite Forall_forall. intros Hall ([k' e] & -> & Hin)%list_elem_of_fmap.
  destruct (Hall _ Hin) as (time & Hf & _). by exists time.
Qed.

(** One sample with a time stamp goes through and is attached to the
    entry of its own time stamp or to a nearest one. *)
Lemma add_live_ok timestamps merged_data entry t :
  timestamps ≠ [] →
  (∀ u, u ∈ timestamps ↔ u ∈ merged_data.*1) →
  Forall entry_shape merged_data →
  sample_time entry = Some t →
  ∃ k, add_live timestamps merged_data entry
       = Ok (dict_update merged_data k (payload entry))
       ∧ k ∈ merged_data.*1
       ∧ nearest timestamps t k.
Proof.
  intros Hne Hkeys Hshape Hts.
  assert (∃ k, resolve_time merged_data timestamps (Some t) = Ok k
               ∧ nearest timestamps t k) as (k & Hk & Hnear).
  { unfold resolve_time. destruct (dict_has merged_data t) eqn:Hhas.
    - exists t. split; [done |]. apply dict_has_true in Hhas.
      split; [by apply Hkeys |]. intros u _. lia.
    - destruct (find_nearest_time_min t timestamps Hne)
        as (k & Hk & Hin & Hmin).
      exists k. by repeat split. }
  assert (k ∈ merged_data.*1) as Hin by (apply Hkeys, Hnear).
  destruct (format_time_key _ _ Hshape Hin) as [time Htime].
  exists k. split; [| done]. unfold add_live.
  rewrite Hts, Hk. simpl. rewrite Htime. simpl.
  by rewrite (proj2 (dict_has_true _ _) Hin).
Qed.

Lemma merge_unfold locationdata livedata merged0 :
  for_each add_location [] locationdata = Ok merged0 →
  merge_location_and_live_data locationdata livedata
  = for_each (add_live (merge_sort Z.le (fix_times locationdata)))
      merged0 livedata.
Proof.
  intros H0. unfold merge_location_and_live_data. rewrite H0.
  apply locations_inv in H0 as (-> & _). done.
Qed.

Lemma elem_of_sorted_times (l : list Z) (t : Z) :
  t ∈ merge_sort Z.le l ↔ t ∈ l.
Proof. by rewrite merge_sort_Permutation. Qed.

(** What the first loop leaves for the second one. *)
Lemma locations_keys locationdata merged0 :
  for_each add_location [] locationdata = Ok merged0 →
  (∀ t, t ∈ merge_sort Z.le (fix_times locationdata) ↔ t ∈ merged0.*1)
  ∧ Forall entry_shape merged0.
Proof.
  intros (_ & Hkeys & Hshape)%locations_inv. split; [| by apply Hshape].
  intros t. rewrite elem_of_sorted_times, Hkeys, elem_of_add_keys.
  simpl. set_solver.
Qed.

Lemma field_kept (merged_data : list (Z * gmap string value)) k' u k e f :
  dict_get merged_data k = Some e → is_Some (e !! f) →
  ∃ e', dict_get (dict_update merged_data k' u) k = Some e'
        ∧ is_Some (e' !! f).
Proof.
  intros Hget Hf. rewrite dict_get_update, Hget. simpl.
  eexists. split; [done |]. destruct (decide (k = k')); [| done].
  apply lookup_union_is_Some. by right.
Qed.

(** The second loop on samples that all have a time stamp: it comes
    back, the keys stay, and a field that an entry has is never lost. *)
Lemma live_loop_ok timestamps livedata merged_data :
  timestamps ≠ [] →
  (∀ u, u ∈ timestamps ↔ u ∈ merged_data.*1) →
  Forall entry_shape merged_data →
  Forall (λ entry, is_Some (sample_time entry)) livedata →
  ∃ merged',
    for_each (add_live timestamps) merged_data livedata = Ok merged'
    ∧ merged'.*1 = merged_data.*1
    ∧ Forall entry_shape merged'
    ∧ ∀ k e f, dict_get merged_data k = Some e → is_Some (e !! f) →
               ∃ e', dict_get merged' k = Some e' ∧ is_Some (e' !! f).
Proof.
  intros Hne Hkeys Hshape Hall. revert merged_data Hkeys Hshape.
  induction Hall as [|entry S [t Ht] _ IH]; intros merged_data Hkeys Hshape.
  - exists merged_data. simpl. repeat split; [done |]. eauto.
  - destruct (add_live_ok _ _ _ _ Hne Hkeys Hshape Ht)
      as (k & Hstep & Hin & _).
    cbn [for_each]. rewrite Hstep. simpl.
    destruct (IH (dict_update merged_data k (payload entry)))
      as (merged' & Hrun & Hk & Hs & Hkeep).
    { intros u. by rewrite dict_update_keys. }
    { by apply entry_shape_update. }
    exists merged'. split; [done |]. split.
    { by rewrite Hk, dict_update_keys. }
    split; [done |]. intros k0 e f Hget Hf.
    destruct (field_kept merged_data k (payload entry) k0 e f Hget Hf)
      as (e1 & Hget1 & Hf1).
    by apply (Hkeep k0 e1 f).
Qed.

(** The second loop, whenever it comes back: same keys, same shape. *)
Lemma live_loop_inv timestamps livedata merged_data merged' :
  (∀ t, t ∈ timestamps → t ∈ merged_data.*1) →
  for_each (add_live timestamps) merged_data livedata = Ok merged' →
  merged'.*1 = merged_data.*1
  ∧ (Forall entry_shape merged_data → Forall entry_shape merged').
Proof.
  revert merged_data.
  induction livedata as [|entry S IH]; intros merged_data Hsub;
    cbn [for_each].
  - intros [= ->]. done.
  - intros (m1 & Hstep & Hrest)%bind_Ok.
    apply add_live_inv in Hstep as (k & _ & _ & ->); [| done].
    apply IH in Hrest as [Hk Hs].
    + rewrite Hk, dict_update_keys. split; [done |].
      intros Hall. by apply Hs, entry_shape_update.
    + intros t. rewrite dict_update_keys. apply Hsub.
Qed.

(** The merged dictionary: its keys are the time stamps of the position
    fixes in the order of their first occurrence, and every entry has a
    time and a position. *)
Lemma merge_inv locationdata livedata merged :
  merge_location_and_live_data locationdata livedata = Ok merged →
  merged.*1 = foldl add_key [] (fix_times locationdata)
  ∧ Forall entry_shape merged.
Proof.
  intros Hm.
  destruct (for_each add_location [] locationdata) as [merged0|e] eqn:H0;
    [| by unfold merge_location_and_live_data in Hm; rewrite H0 in Hm].
  rewrite (merge_unfold _ _ _ H0) in Hm.
  pose proof (locations_keys _ _ H0) as [Hkeys Hshape].
  apply locations_inv in H0 as (_ & Hk0 & _).
  apply live_loop_inv in Hm as [Hk Hs]; [| intros t; apply Hkeys].
  split; [by rewrite Hk | by apply Hs].
Qed.

(** ** Track points of merged entries *)

Lemma format_time_xml (ts : Z) (time : string) :
  format_time ts = Ok time → xml_compatible time = true.
Proof.
  unfold format_time. intros (x & _ & Hx)%bind_Ok.
  by apply utc_strftime_xml in Hx.
Qed.

Lemma str_of_value_xml (v : value) :
  v = VNone ∨ (∃ n, v = VInt n) → xml_compatible (str_of_value v) = true.
Proof. intros [-> | [n ->]]; [done | apply str_of_int_xml]. Qed.

Lemma create_trackpoint_shape (kv : Z * gmap string value) :
  entry_shape kv →
  ∃ time p, format_time kv.1 = Ok time
            ∧ create_trackpoint kv.2 = Ok (Some p)
            ∧ children_tagged "Time" p = [leaf "Time" time]
            ∧ has_child "Position" p
            ∧ (0 < len p)%nat.
Proof.
  destruct kv as [k data]. simpl.
  intros (time & Hf & Ht & [lat Hlat] & [lon Hlon] & [alt Halt] & Hint).
  simpl in *. exists time.
  assert (∀ f v, f ≠ "time" → data !! f = Some v →
                 xml_compatible (str_of_value v) = true) as Hx
    by (intros f v Hne Hv; by eapply str_of_value_xml, Hint).
  unfold create_trackpoint, item, as_text.
  rewrite Ht. cbn [mbind result_bind].
  rewrite (proj2 (xml_text_Ok time time)) by (by apply format_time_xml in Hf).
  cbn [mbind result_bind fmap result_fmap].
  rewrite decide_True by (split; eauto).
  rewrite Hlat. cbn [mbind result_bind].
  rewrite set_sub_text_xml by (by apply (Hx "latitude")).
  cbn [mbind result_bind]. rewrite Hlon. cbn [mbind result_bind].
  rewrite set_sub_text_xml by (by apply (Hx "longitude")).
  cbn [mbind result_bind].
  destruct (decide (is_Some (data !! "heart_rate"))) as [[hr Hhr]|_];
    [rewrite Hhr; cbn [mbind result_bind];
     rewrite set_sub_text_xml by (by apply (Hx "heart_rate"));
     cbn [mbind result_bind] |];
    (destruct (decide (is_Some (data !! "cadence"))) as [[c Hc]|_];
     [rewrite Hc; cbn [mbind result_bind];
      rewrite set_sub_text_xml by (by apply (Hx "cadence"));
      cbn [mbind result_bind] |]);
    (eexists; split; [done |]; split; [reflexivity |];
     split; [reflexivity |]; split; [by compute | unfold len; simpl; lia]).
Qed.

Lemma collect_trackpoint_Some trackpoints data p :
  create_trackpoint data = Ok (Some p) → (0 < len p)%nat →
  collect_trackpoint trackpoints data = Ok (trackpoints ++ [Some p]).
Proof.
  intros Hp Hlen. unfold collect_trackpoint. rewrite Hp. simpl.
  by rewrite decide_True.
Qed.

Lemma collect_trackpoints_ok (merged : list (Z * gmap string value))
    (trackpoints : list (option element)) :
  Forall entry_shape merged →
  ∃ new,
    for_each collect_trackpoint trackpoints merged.*2
    = Ok (trackpoints ++ new)
    ∧ Forall2 (λ kv trackpoint,
                 ∃ time p, format_time kv.1 = Ok time
                           ∧ create_trackpoint kv.2 = Ok (Some p)
                           ∧ trackpoint = Some p
                           ∧ children_tagged "Time" p = [leaf "Time" time])
        merged new.
Proof.
  intros Hall. revert trackpoints.
  induction Hall as [|kv merged Hkv _ IH]; intros trackpoints.
  - exists []. simpl. by rewrite app_nil_r.
  - destruct (create_trackpoint_shape kv Hkv)
      as (time & p & Hf & Hp & Htime & _ & Hlen).
    destruct (IH (trackpoints ++ [Some p])) as (new & Hrun & Hnew).
    exists (Some p :: new). rewrite fmap_cons. cbn [for_each].
    rewrite (collect_trackpoint_Some _ _ _ Hp Hlen). simpl. rewrite Hrun.
    rewrite <- app_assoc. split; [done |].
    constructor; [| done]. by exists time, p.
Qed.

(** ** What the specification claims about the merger *)

Lemma fix_times_nonempty locationdata :
  locationdata ≠ [] → Forall position_fix locationdata →
  merge_sort Z.le (fix_times locationdata) ≠ [].
Proof.
  intros Hne Hall Hnil.
  destruct Hall as [|entry P (t & Ht & _) _]; [done |].
  assert (t ∈ merge_sort Z.le (fix_times (entry :: P))) as Hin.
  { apply elem_of_sorted_times. unfold fix_times. simpl. rewrite Ht. left. }
  rewrite Hnil in Hin. by apply not_elem_of_nil in Hin.
Qed.

Lemma nearest_sorted_times (l : list Z) (t k : Z) :
  nearest (merge_sort Z.le l) t k → nearest l t k.
Proof.
  intros [Hin Hmin]. split; [by apply elem_of_sorted_times |].
  intros u Hu. by apply Hmin, elem_of_sorted_times.
Qed.


(** C2, as amended.  When the time stamps of the position-fix series
    ascend (equal neighbours allowed) and the merger returns, the keys
    of the merged dictionary ascend strictly in the order in which the
    caller iterates over it, and the caller gets one track point for each
    entry, in that order, whose time is the formatted key. *)
Theorem merge_ascending (locationdata livedata : list (gmap string Z))
    (merged : list (Z * gmap string value)) :
  Sorted Z.le (fix_times locationdata) →
  merge_location_and_live_data locationdata livedata = Ok merged →
  StronglySorted Z.lt merged.*1
  ∧ ∃ trackpoints,
      for_each collect_trackpoint [] merged.*2 = Ok trackpoints
      ∧ Forall2 (λ kv trackpoint,
                   ∃ time p, format_time kv.1 = Ok time
                             ∧ trackpoint = Some p
                             ∧ children_tagged "Time" p
                               = [leaf "Time" time])
          merged trackpoints.
Proof.
  intros Hsorted (Hkeys & Hshape)%merge_inv. split.
  - rewrite Hkeys. apply add_keys_sorted.
    + constructor.
    + apply Sorted_StronglySorted; [apply _ | done].
    + by intros k x ?%not_elem_of_nil.
  - destruct (collect_trackpoints_ok merged [] Hshape)
      as (trackpoints & Hrun & Hall).
    exists trackpoints. split; [exact Hrun |].
    eapply Forall2_impl; [exact Hall |].
    intros kv tp (time & p & ? & _ & ? & ?). by exists time, p.
Qed.


Lemma add_live_raises timestamps merged_data entry :
  sample_time entry = None →
  raises (add_live timestamps merged_data entry).
Proof.
  intros Hts. unfold add_live, resolve_time, find_nearest_time.
  rewrite Hts. destruct timestamps as [|x l]; simpl.
  - by exists ValueError.
  - by exists TypeError.
Qed.

Lemma for_each_raises {A S} (body : S → A → result S) (l : list A) (x : A)
    (s : S) :
  x ∈ l → (∀ s', raises (body s' x)) → raises (for_each body s l).
Proof.
  intros Hin Hx. revert s.
  induction l as [|y l IH]; intros s; [by apply not_elem_of_nil in Hin |].
  cbn [for_each]. apply elem_of_cons in Hin as [<-|Hin].
  - destruct (Hx s) as [e ->]. by exists e.
  - destruct (body s y) as [s'|e]; [by apply IH | by exists e].
Qed.

(** C8, as amended.  When a sample of the series has no time stamp
    under either key the merger does not skip it: it raises an error
    and returns no merged data, whatever the other samples are. *)
Theorem merge_raises_without_timestamp
    (locationdata livedata : list (gmap string Z)) (entry : gmap string Z) :
  entry ∈ livedata →
  sample_time entry = None →
  raises (merge_location_and_live_data locationdata livedata).
Proof.
  intros Hin Hts. unfold merge_location_and_live_data.
  destruct (for_each add_location [] locationdata) as [merged0|e];
    [| by exists e].
  simpl. destruct (map_result _ locationdata) as [starts|e];
    [| by exists e].
  simpl. apply (for_each_raises _ _ entry); [done |].
  intros merged'. by apply add_live_raises.
Qed.

End MergerProperties.

(** ** The pipeline driver *)

Section DriverProperties.
Context `{PyLib}.

Lemma dataset_field exercise field :
  dataset exercise → field ∈ dataset_fields → is_Some (exercise !! field).
Proof. unfold dataset. rewrite Forall_forall. auto. Qed.

Ltac field_in :=
  repeat first [apply list_elem_of_here | apply list_elem_of_further].

(** On a row with a start time whose lap can be built, the driver's
    preparation returns [None] when there are no position fixes. *)
Lemma prepare_without_fixes files exercise uuid :
  dataset exercise →
  returns (row_lap exercise) →
  exercise !! "datauuid" = Some uuid →
  no_position_fixes files uuid →
  prepare_exercise_data files exercise = Ok None.
Proof.
  intros Hrow [lap Hlap] Huuid (filename & Hpath & Hfile).
  destruct (dataset_field _ "start_time" Hrow) as [st Hst]; [field_in |].
  destruct (dataset_field _ "exercise_type" Hrow) as [et Het]; [field_in |].
  destruct (dataset_field _ "duration" Hrow) as [du Hdu]; [field_in |].
  destruct (dataset_field _ "distance" Hrow) as [di Hdi]; [field_in |].
  destruct (dataset_field _ "total_calorie" Hrow) as [ca Hca]; [field_in |].
  destruct (dataset_field _ "mean_heart_rate" Hrow) as [ah Hah];
    [field_in |].
  destruct (dataset_field _ "max_heart_rate" Hrow) as [mh Hmh];
    [field_in |].
  destruct (dataset_field _ "mean_speed" Hrow) as [sp Hsp]; [field_in |].
  destruct (dataset_field _ "max_speed" Hrow) as [ms Hms]; [field_in |].
  destruct (dataset_field _ "mean_cadence" Hrow) as [ac Hac]; [field_in |].
  destruct (dataset_field _ "max_cadence" Hrow) as [mc Hmc]; [field_in |].
  unfold row_lap in Hlap.
  rewrite Hst, Hdu, Hdi, Hca, Hah, Hmh, Hsp, Hms, Hac, Hmc in Hlap.
  cbn [default from_option id] in Hlap.
  unfold prepare_exercise_data, item.
  rewrite Hst, Het, Hdu, Hdi, Hca, Hah, Hmh, Hsp, Hms, Hac, Hmc, Huuid.
  cbn [mbind result_bind fmap result_fmap]. rewrite Hlap.
  cbn [mbind result_bind]. unfold fetch_json_data. rewrite Hpath.
  cbn [mbind result_bind].
  by destruct Hfile as [-> | ->].
Qed.

(** C7, as amended.  Take an exercise summary with a non-empty start
    time for which the lap builder returns, and whose position-fix
    document is empty or absent.  The driver writes no document for it,
    prints that it skips the exercise, and goes on with the remaining
    exercises of the batch. *)
Theorem missing_fixes_skip (files : gmap string (list (gmap string Z)))
    (exercise : gmap string string) (rest : list (gmap string string))
    (uuid : string) :
  dataset exercise →
  truthy (exercise !! "start_time") = true →
  returns (row_lap exercise) →
  exercise !! "datauuid" = Some uuid →
  no_position_fixes files uuid →
  prepare_exercise_data files exercise = Ok None
  ∧ export_exercise files exercise = Ok [Progress; Skipping uuid]
  ∧ export_all files (exercise :: rest)
    = ([Progress; Skipping uuid] ++ (export_all files rest).1,
       (export_all files rest).2).
Proof.
  intros Hrow Hstart Hlap Huuid Hno.
  pose proof (prepare_without_fixes _ _ _ Hrow Hlap Huuid Hno) as Hprep.
  assert (export_exercise files exercise = Ok [Progress; Skipping uuid])
    as Hone.
  { unfold export_exercise. rewrite decide_False.
    - rewrite Hprep. cbn [mbind result_bind]. unfold item.
      by rewrite Huuid.
    - intros [Hnone|Hempty].
      + by rewrite Hnone in Hstart.
      + by rewrite Hempty in Hstart. }
  split; [exact Hprep |]. split; [exact Hone |].
  cbn [export_all]. rewrite Hone. by destruct (export_all files rest).
Qed.

End DriverProperties.

(** * The pipeline on concrete inputs *)

(** The reference routines give plain text, so that they make up an
    instance of the library. *)
Lemma plain_frac_digits (fuel : nat) (r d : Z) :
  plain (Exact.frac_digits fuel r d) = true.
Proof.
  revert r. induction fuel as [|fuel IH]; intros r; simpl; [done |].
  case_decide; [done |]. by rewrite plain_app, plain_pretty_Z, IH.
Qed.

Lemma plain_show (x : Exact.frac) : plain (Exact.show x) = true.
Proof.
  unfold Exact.show. cbv zeta.
  rewrite !plain_app, plain_pretty_Z.
  repeat case_decide; rewrite ?plain_frac_digits; reflexivity.
Qed.

Lemma plain_pad (width : nat) (n : Z) : plain (Exact.pad width n) = true.
Proof.
  unfold Exact.pad. cbv zeta. rewrite plain_app, plain_pretty_Z, andb_true_r.
  generalize (width - String.length (pretty n))%nat. intros k.
  assert (∀ l, Forall (λ s, plain s = true) l →
               plain (String.concat "" l) = true) as Hconcat.
  { induction l as [|s l IH]; [done |]. intros [Hs Hl]%Forall_cons.
    cbn [String.concat]. destruct l as [|s' l]; [done |].
    rewrite !plain_app, Hs. by apply IH. }
  apply Hconcat, Forall_replicate. reflexivity.
Qed.

Lemma plain_strftime (x : Exact.frac) (s : string) :
  Exact.strftime x = Ok s → plain s = true.
Proof.
  unfold Exact.strftime. cbv zeta. case_decide; [| done].
  destruct (Exact.civil_from_days _) as [[y m] d].
  intros [= <-]. by rewrite !plain_app, !plain_pad, plain_pretty_Z.
Qed.

Definition Exact_lib : PyLib := {|
  float := Exact.frac;
  float_of_str := Exact.parse_float;
  int_of_str := Exact.parse_int;
  truediv := Exact.div;
  round0 := Exact.round_even;
  int_of_float := Exact.trunc;
  str_of_float := Exact.show;
  utc_strftime := Exact.strftime;
  str_of_float_xml := λ x, plain_xml _ (plain_show x);
  utc_strftime_xml := λ x s Hs, plain_xml _ (plain_strftime x s Hs);
|}.

Section Closed.
#[local] Existing Instance Exact_lib.
Import Examples.

Example lap_of_row :
  row_lap row
  = Ok (Element "Lap" [("StartTime", "2024-05-01T10:00:00Z")] None
          [leaf "TotalTimeSeconds" "60.0"; leaf "DistanceMeters" "100.5";
           leaf "MaximumSpeed" "3.0"; leaf "Calories" "12";
           bpm "AverageHeartRateBpm" 70; bpm "MaximumHeartRateBpm" 150;
           leaf "Intensity" "Active"; leaf "TriggerMethod" "Manual";
           Element "Extensions" [] None
             [Element (ns3_tag "LX") [] None
                [leaf (ns3_tag "AvgSpeed") "2.5"]]]).
Proof. reflexivity. Qed.

Example sport_examples :
  convert_activity_type "1002" = "Running"
  ∧ convert_activity_type "11007" = "Biking"
  ∧ convert_activity_type "9999" = "Other".
Proof. by repeat split. Qed.


(** A text that XML cannot hold, here a distance or a time with the
    control character [U+0001], makes the two builders raise. *)
Example builders_refuse_control_characters :
  create_lap "2024-05-01T10:00:00Z" (Some "60000")
    (Some (String (Ascii.ascii_of_N 1) "")) (Some "12.4") (Some "")
    (Some "") (Some "") (Some "") (Some "") (Some "")
  = Raise ValueError
  ∧ create_trackpoint
      {[ "time" := VStr (String (Ascii.ascii_of_N 1) "");
         "heart_rate" := VInt 140 ]}
    = Raise ValueError.
Proof. split; reflexivity. Qed.

Example nearest_tie :
  find_nearest_time (Some 2500) [1000; 2000; 3000] = Ok 2000.
Proof. reflexivity. Qed.

(** C4.  With a mean heart rate of "70.0" and a maximum heart rate of
    "0.0" the lap carries a maximum heart rate of 0, although the input
    is the zero sentinel; with a mean of "0.0" and a maximum of "150.0"
    the lap carries no maximum heart rate, although the input is
    present and not the sentinel.  The guard of the maximum tests the
    mean. *)
Theorem create_lap_max_hr_guard :
  (∃ lap, create_lap "2024-05-01T10:00:00Z" (Some "60000") (Some "100.5")
            (Some "12.4") (Some "70.0") (Some "0.0")
            (Some "") (Some "") (Some "") (Some "") = Ok lap
          ∧ children_tagged "MaximumHeartRateBpm" lap
            = [Element "MaximumHeartRateBpm" [] None [leaf "Value" "0"]])
  ∧ (∃ lap, create_lap "2024-05-01T10:00:00Z" (Some "60000") (Some "100.5")
              (Some "12.4") (Some "0.0") (Some "150.0")
              (Some "") (Some "") (Some "") (Some "") = Ok lap
            ∧ children_tagged "MaximumHeartRateBpm" lap = []).
Proof. split; eexists; split; reflexivity. Qed.

(** C5 fails as stated: a duration of "0", a distance of "0.0" and a
    maximum speed of "0.0" are emitted as zero. *)
Lemma create_lap_emits_zero :
  create_lap "2024-05-01T10:00:00Z" (Some "0") (Some "0.0") (Some "")
    (Some "") (Some "") (Some "") (Some "0.0") (Some "") (Some "")
  = Ok (Element "Lap" [("StartTime", "2024-05-01T10:00:00Z")] None
          [leaf "TotalTimeSeconds" "0.0"; leaf "DistanceMeters" "0.0";
           leaf "MaximumSpeed" "0.0";
           leaf "Intensity" "Active"; leaf "TriggerMethod" "Manual"]).
Proof. reflexivity. Qed.

Lemma create_lap_omits_absent_witness :
  let lap :=
    Element "Lap" [("StartTime", "2024-05-01T10:00:00Z")] None
      [leaf "TotalTimeSeconds" "0.0"; leaf "DistanceMeters" "0.0";
       leaf "MaximumSpeed" "0.0";
       leaf "Intensity" "Active"; leaf "TriggerMethod" "Manual"] in
  (has_child "TotalTimeSeconds" lap ↔ truthy (Some "0") = true)
  ∧ (has_child "DistanceMeters" lap ↔ truthy (Some "0.0") = true)
  ∧ (has_child "MaximumSpeed" lap ↔ truthy (Some "0.0") = true)
  ∧ (has_child "Calories" lap ↔ truthy (Some "") = true)
  ∧ (has_child "AverageHeartRateBpm" lap
     ↔ truthy (Some "") = true ∧ Some ""%string ≠ Some "0.0"%string)
  ∧ (truthy (Some "") = false → ¬ has_child "MaximumHeartRateBpm" lap)
  ∧ (has_path ["Extensions"; ns3_tag "LX"; ns3_tag "AvgSpeed"] lap
     ↔ truthy (Some "") = true ∧ Some ""%string ≠ Some "0.0"%string)
  ∧ (has_path ["Extensions"; ns3_tag "LX"; ns3_tag "AvgRunCadence"] lap
     ↔ truthy (Some "") = true ∧ Some ""%string ≠ Some "0.0"%string)
  ∧ (has_path ["Extensions"; ns3_tag "LX"; ns3_tag "MaxRunCadence"] lap
     ↔ truthy (Some "") = true ∧ Some ""%string ≠ Some "0.0"%string).
Proof.
  apply (create_lap_omits_absent "2024-05-01T10:00:00Z" (Some "0")
           (Some "0.0") (Some "") (Some "") (Some "") (Some "")
           (Some "0.0") (Some "") (Some "")).
  reflexivity.
Defined.


Lemma build_xml_track_witness :
  let lap := Element "Lap" [("StartTime", "2024-05-01T10:00:00Z")] None
               [leaf "Intensity" "Active"; leaf "TriggerMethod" "Manual"] in
  let p := Element "Trackpoint" [] None
             [leaf "Time" "2024-05-01T10:00:00.000Z";
              leaf "Cadence" "80"] in
  let doc := build_xml "2024-05-01T10:00:00Z" "Running" lap
               [Some p; None] in
  (tag lap = "Lap" ∧ children_tagged "Track" lap = [])
  ∧ descend ["Activities"; "Activity"; "Lap"; "Track"] doc
    = [Element "Track" [] None [p]].
Proof.
  intros lap p doc. split; [split; reflexivity |].
  apply (build_xml_track "2024-05-01T10:00:00Z" "Running" lap
           [Some p; None]); reflexivity.
Defined.

Lemma find_nearest_time_sorted_witness :
  ∃ r, find_nearest_time (Some 2500) [1000; 2000; 3000] = Ok r
       ∧ r ∈ [1000; 2000; 3000]
       ∧ (∀ x, x ∈ [1000; 2000; 3000] →
               Z.abs (r - 2500) ≤ Z.abs (x - 2500))
       ∧ (∀ x, x ∈ [1000; 2000; 3000] →
               Z.abs (x - 2500) = Z.abs (r - 2500) → r ≤ x).
Proof.
  apply (find_nearest_time_sorted 2500 [1000; 2000; 3000]).
  - discriminate.
  - repeat constructor; lia.
Defined.

Example merge_example :
  merge_location_and_live_data fixes samples = Ok merged_fixes.
Proof. reflexivity. Qed.

Lemma fixes_position_fix : Forall position_fix fixes.
Proof.
  repeat constructor;
    (eexists; split; [reflexivity |]; split; [by eexists |];
     split; by eexists).
Defined.



(** C2 fails as stated: for a series whose later fix comes first the
    merged dictionary, and the track of the document made from it, keep
    that order. *)
Lemma merge_keeps_unsorted_order :
  (∃ merged, merge_location_and_live_data fixes_unsorted [] = Ok merged
             ∧ merged.*1 = [1714557602000; 1714557600000]
             ∧ ¬ Sorted Z.le merged.*1)
  ∧ ∃ doc, prepare_exercise_data {[ location_file := fixes_unsorted ]} row
           = Ok (Some doc)
           ∧ descend ["Activities"; "Activity"; "Lap"; "Track";
                      "Trackpoint"; "Time"] doc
             = [leaf "Time" "2024-05-01T10:00:02.000Z";
                leaf "Time" "2024-05-01T10:00:00.000Z"].
Proof.
  split.
  - eexists. split; [reflexivity |]. split; [reflexivity |].
    intros Hs. apply Sorted_inv in Hs as [_ Hhd].
    apply HdRel_inv in Hhd. simpl in Hhd. lia.
  - eexists. split; [vm_compute; reflexivity | reflexivity].
Qed.

Lemma merge_ascending_witness :
  StronglySorted Z.lt merged_fixes.*1
  ∧ ∃ trackpoints,
      for_each collect_trackpoint [] merged_fixes.*2 = Ok trackpoints
      ∧ Forall2 (λ kv trackpoint,
                   ∃ time p, format_time kv.1 = Ok time
                             ∧ trackpoint = Some p
                             ∧ children_tagged "Time" p
                               = [leaf "Time" time])
          merged_fixes trackpoints.
Proof.
  apply (merge_ascending fixes samples merged_fixes).
  - repeat constructor; lia.
  - reflexivity.
Defined.


(** C8 fails as stated: with one position fix and one sample that has
    no time stamp the merger raises a [TypeError]. *)
Lemma merge_untimed_sample :
  sample_time sample_untimed = None
  ∧ merge_location_and_live_data fixes [sample_untimed] = Raise TypeError
  ∧ ¬ returns (merge_location_and_live_data fixes [sample_untimed]).
Proof.
  split; [reflexivity |]. split; [reflexivity |]. by intros [merged ?].
Qed.

Lemma merge_raises_without_timestamp_witness :
  raises (merge_location_and_live_data fixes
            (samples ++ [sample_untimed])).
Proof.
  apply (merge_raises_without_timestamp fixes (samples ++ [sample_untimed])
           sample_untimed).
  - apply elem_of_app. right. left.
  - reflexivity.
Defined.

(** C7 fails as stated: a row without a start time is passed over
    without a word, and a row whose calories cannot be parsed ends the
    batch before the next row is looked at; neither row has a
    position-fix document. *)
Lemma driver_silent_or_aborting :
  no_position_fixes ∅ "abc"
  ∧ export_all ∅ [<["start_time" := ""]> row] = ([Progress], None)
  ∧ (Skipping "abc" ∉ (export_all ∅ [<["start_time" := ""]> row]).1)
  ∧ export_all ∅ [<["total_calorie" := "abc"]> row; row]
    = ([Progress], Some ValueError).
Proof.
  split; [exists location_file; split; [reflexivity | by left] |].
  split; [reflexivity |]. split; [| reflexivity].
  intros Hin. apply list_elem_of_singleton in Hin. discriminate Hin.
Qed.

Lemma row_dataset : dataset row.
Proof. repeat constructor; by eexists. Defined.

Lemma missing_fixes_skip_witness :
  prepare_exercise_data ∅ row = Ok None
  ∧ export_exercise ∅ row = Ok [Progress; Skipping "abc"]
  ∧ export_all ∅ [row; row]
    = ([Progress; Skipping "abc"] ++ (export_all ∅ [row]).1,
       (export_all ∅ [row]).2).
Proof.
  apply (missing_fixes_skip ∅ row [row] "abc").
  - exact row_dataset.
  - reflexivity.
  - eexists. reflexivity.
  - reflexivity.
  - exists location_file. split; [reflexivity | by left].
Defined.

End Closed.

(** * Further properties of the code *)

(** ** The activity type mapper *)

(** X1.  The mapper returns one of the three sports that a TCX file can
    name: "Running" for the code "1002" and for no other, "Biking" for the
    code "11007" and for no other, and "Other" for every other text. *)
Theorem convert_activity_type_sports (sport_type : string) :
  convert_activity_type sport_type ∈ ["Running"; "Biking"; "Other"]
  ∧ (convert_activity_type sport_type = "Running" ↔ sport_type = "1002")
  ∧ (convert_activity_type sport_type = "Biking" ↔ sport_type = "11007")
  ∧ (convert_activity_type sport_type = "Other"
     ↔ sport_type ≠ "1002" ∧ sport_type ≠ "11007").
Proof.
  unfold convert_activity_type, sport_map.
  destruct (decide (sport_type = "1002")) as [->|H1].
  { split; [set_solver |]. repeat split; try done; by intros []. }
  destruct (decide (sport_type = "11007")) as [->|H2].
  { split; [set_solver |]. repeat split; try done; by intros []. }
  rewrite lookup_insert_ne by done. rewrite lookup_singleton_ne by done.
  split; [set_solver |]. by repeat split.
Qed.

(** ** The nearest-timestamp search on any list *)

(** X2.  Whatever the order of the list, the search returns the first of its
    time stamps at the least distance from the target: every time stamp
    before it is strictly farther, none after it is nearer. *)
Theorem find_nearest_time_first (ts : Z) (timestamps : list Z) :
  timestamps ≠ [] →
  ∃ r before after,
    find_nearest_time (Some ts) timestamps = Ok r
    ∧ timestamps = before ++ r :: after
    ∧ (∀ x, x ∈ before → Z.abs (r - ts) < Z.abs (x - ts))
    ∧ (∀ x, x ∈ after → Z.abs (r - ts) ≤ Z.abs (x - ts)).
Proof.
  intros Hne.
  destruct (py_min_first (distance_to (Some ts)) (λ x, Z.abs (x - ts))
              timestamps) as (r & l1 & l2 & Hr & Hsplit & Hbefore & Hafter);
    [done | done |].
  by exists r, l1, l2.
Qed.

(** X3.  The search fails in two ways only: with a [ValueError] on the empty
    list, whatever the target, and with a [TypeError] when the list is not
    empty and the target is [None]. *)
Theorem find_nearest_time_raises (ts : option Z) (timestamps : list Z)
    (e : exn) :
  find_nearest_time ts timestamps = Raise e
  ↔ (timestamps = [] ∧ e = ValueError)
    ∨ (timestamps ≠ [] ∧ ts = None ∧ e = TypeError).
Proof.
  destruct timestamps as [|x l].
  - simpl. split; [intros [= <-]; by left | intros [[_ ->]|[? _]]; done].
  - destruct ts as [t|].
    + destruct (py_min_first (distance_to (Some t)) (λ x, Z.abs (x - t))
                  (x :: l)) as (r & _ & _ & Hr & _); [done | done |].
      unfold find_nearest_time. rewrite Hr.
      split; [done | intros [[? _]|(_ & ? & _)]; done].
    + simpl. split; [intros [= <-]; by right | intros [[? _]|(_ & _ & ->)]; done].
Qed.

(** ** The payload of a sample *)

(** X4.  The payload of a sample holds exactly its fields among distance,
    cadence, heart rate and speed whose value is not zero: a field that
    is absent or zero is not passed on. *)
Theorem payload_nonzero_fields (entry : gmap string Z) (f : string)
    (v : value) :
  payload entry !! f = Some v
  ↔ f ∈ payload_keys ∧ ∃ z, entry !! f = Some z ∧ z ≠ 0 ∧ v = VInt z.
Proof. apply payload_lookup. Qed.

(** ** The merger beyond its claims *)

Lemma dict_get_set_eq {V} (d : list (Z * V)) (k : Z) (v : V) :
  dict_get (dict_set d k v) k = Some v.
Proof.
  induction d as [|[k' v'] d IH]; simpl.
  - by rewrite decide_True.
  - destruct (decide (k' = k)) as [->|Hne]; simpl.
    + by rewrite decide_True.
    + by rewrite decide_False.
Qed.

Lemma dict_get_set_ne {V} (d : list (Z * V)) (k k' : Z) (v : V) :
  k ≠ k' → dict_get (dict_set d k v) k' = dict_get d k'.
Proof.
  intros Hne. induction d as [|[k0 v0] d IH]; simpl.
  - by rewrite decide_False.
  - destruct (decide (k0 = k)) as [->|Hne0]; simpl.
    + by rewrite !decide_False.
    + destruct (decide (k0 = k')); [done | exact IH].
Qed.

Lemma add_keys_NoDup (l ks : list Z) : NoDup ks → NoDup (foldl add_key ks l).
Proof.
  revert ks. induction l as [|x l IH]; intros ks Hks; [done |].
  simpl. apply IH. unfold add_key.
  destruct (decide (x ∈ ks)); [done |].
  apply NoDup_app. split; [done |]. split; [| apply NoDup_singleton].
  intros y Hy ->%list_elem_of_singleton. done.
Qed.

Lemma add_keys_length (l ks : list Z) :
  (length (foldl add_key ks l) ≤ length ks + length l)%nat.
Proof.
  revert ks. induction l as [|x l IH]; intros ks; simpl; [lia |].
  etrans; [apply IH |]. unfold add_key.
  destruct (decide (x ∈ ks)); [lia |]. rewrite length_app. simpl. lia.
Qed.

Lemma omap_length_le {A B} (f : A → option B) (l : list A) :
  (length (omap f l) ≤ length l)%nat.
Proof.
  induction l as [|x l IH]; [done |].
  change (omap f (x :: l))
    with (match f x with Some y => y :: omap f l | None => omap f l end).
  destruct (f x); cbn [length]; lia.
Qed.

Section MergerFurther.
Context `{PyLib}.

(** X5.  Without position fixes the merger returns the empty dictionary for an
    empty sample series and raises a [ValueError] for any other: the
    entry of lines 301-302 for a sample without a fix is never made. *)
Theorem merge_without_fixes (livedata : list (gmap string Z)) :
  merge_location_and_live_data [] livedata
  = match livedata with
    | [] => Ok []
    | _ :: _ => Raise ValueError
    end.
Proof.
  unfold merge_location_and_live_data.
  cbn [for_each map_result mbind result_bind].
  change (merge_sort Z.le []) with (@nil Z).
  destruct livedata as [|entry S]; [reflexivity |].
  cbn [for_each]. unfold add_live, resolve_time.
  by destruct (sample_time entry).
Qed.

(** X6.  The keys of the merged dictionary are the time stamps of the position
    fixes, each once, in the order of their first occurrence: a sample
    never adds an entry, so there are at most as many entries as fixes. *)
Theorem merge_keys (locationdata livedata : list (gmap string Z))
    (merged : list (Z * gmap string value)) :
  merge_location_and_live_data locationdata livedata = Ok merged →
  merged.*1 = foldl add_key [] (fix_times locationdata)
  ∧ NoDup merged.*1
  ∧ (∀ t, t ∈ merged.*1 ↔ t ∈ fix_times locationdata)
  ∧ (length merged ≤ length locationdata)%nat.
Proof.
  intros [Hkeys _]%merge_inv. split; [done |]. split; [| split].
  - rewrite Hkeys. apply add_keys_NoDup. constructor.
  - intros t. rewrite Hkeys, elem_of_add_keys. set_solver.
  - rewrite <- (length_fmap fst), Hkeys.
    etrans; [apply add_keys_length |]. simpl.
    unfold fix_times. apply omap_length_le.
Qed.

Lemma locations_other locationdata merged_data merged' (t : Z) :
  for_each add_location merged_data locationdata = Ok merged' →
  (∀ later, later ∈ locationdata → later !! "start_time" ≠ Some t) →
  dict_get merged' t = dict_get merged_data t.
Proof.
  revert merged_data.
  induction locationdata as [|entry P IH]; intros merged_data; cbn [for_each].
  - by intros [= ->].
  - intros (m1 & Hstep & Hrest)%bind_Ok Hlater.
    apply add_location_inv in Hstep as (t' & e & Ht' & -> & _).
    rewrite (IH _ Hrest) by (intros later Hin; apply Hlater; by right).
    apply dict_get_set_ne. intros ->. by apply (Hlater entry); [left |].
Qed.

Lemma live_loop_keeps timestamps livedata merged_data merged' :
  (∀ t, t ∈ timestamps → t ∈ merged_data.*1) →
  for_each (add_live timestamps) merged_data livedata = Ok merged' →
  ∀ k e f, f ∉ payload_keys → dict_get merged_data k = Some e →
           ∃ e', dict_get merged' k = Some e' ∧ e' !! f = e !! f.
Proof.
  revert merged_data.
  induction livedata as [|entry S IH]; intros merged_data Hsub;
    cbn [for_each].
  - intros [= ->] k e f _ Hget. by exists e.
  - intros (m1 & Hstep & Hrest)%bind_Ok k e f Hf Hget.
    apply add_live_inv in Hstep as (k0 & _ & _ & ->); [| done].
    assert (∃ e1, dict_get (dict_update merged_data k0 (payload entry)) k
                  = Some e1 ∧ e1 !! f = e !! f) as (e1 & Hget1 & Hf1).
    { rewrite dict_get_update, Hget. simpl. eexists. split; [done |].
      destruct (decide (k = k0)); [| done]. by apply payload_union_other. }
    destruct (IH _ (λ t Ht, eq_ind_r (λ l, t ∈ l) (Hsub t Ht)
                              (dict_update_keys _ _ _))
                Hrest k e1 f Hf Hget1) as (e' & Hget' & Hf').
    exists e'. split; [done | congruence].
Qed.

(** X7.  The position of a merged entry is the position of the last fix with
    its time stamp, also when earlier fixes have the same time stamp, and
    no sample changes it or the time of the entry. *)
Theorem merge_last_fix_wins (before after livedata : list (gmap string Z))
    (entry : gmap string Z) (merged : list (Z * gmap string value))
    (t lat lon : Z) :
  merge_location_and_live_data (before ++ entry :: after) livedata
  = Ok merged →
  entry !! "start_time" = Some t →
  entry !! "latitude" = Some lat →
  entry !! "longitude" = Some lon →
  (∀ later, later ∈ after → later !! "start_time" ≠ Some t) →
  ∃ e time,
    dict_get merged t = Some e
    ∧ format_time t = Ok time
    ∧ e !! "time" = Some (VStr time)
    ∧ e !! "latitude" = Some (VInt lat)
    ∧ e !! "longitude" = Some (VInt lon)
    ∧ e !! "altitude" = Some (from_option VInt VNone (entry !! "altitude")).
Proof.
  intros Hm Ht Hlat Hlon Hlater.
  destruct (for_each add_location [] (before ++ entry :: after))
    as [merged0|err] eqn:H0;
    [| by unfold merge_location_and_live_data in Hm; rewrite H0 in Hm].
  rewrite (merge_unfold _ _ _ H0) in Hm.
  pose proof (locations_keys _ _ H0) as [Hkeys _].
  rewrite for_each_app in H0.
  apply bind_Ok in H0 as (m1 & _ & H0). cbn [for_each] in H0.
  apply bind_Ok in H0 as (m2 & Hstep & H0).
  unfold add_location in Hstep.
  rewrite (proj2 (item_Ok _ _ _) Ht) in Hstep. cbn [mbind result_bind] in Hstep.
  apply bind_Ok in Hstep as (time & Htime & Hstep).
  rewrite (proj2 (item_Ok _ _ _) Hlat), (proj2 (item_Ok _ _ _) Hlon) in Hstep.
  cbn [mbind result_bind] in Hstep. injection Hstep as <-.
  pose proof (locations_other _ _ _ t H0 Hlater) as Hget.
  rewrite dict_get_set_eq in Hget.
  assert (∀ f, f ∉ payload_keys →
               ∃ e', dict_get merged t = Some e'
                     ∧ e' !! f
                       = ({[ "time" := VStr time; "latitude" := VInt lat;
                             "longitude" := VInt lon;
                             "altitude" := from_option VInt VNone
                                             (entry !! "altitude") ]}
                          : gmap string value) !! f) as Hkeep.
  { intros f Hf.
    apply (live_loop_keeps _ _ _ _ (λ u Hu, proj1 (Hkeys u) Hu) Hm t _ f Hf
             Hget). }
  destruct (Hkeep "time") as (e & He & Htm); [not_payload_key |].
  destruct (Hkeep "latitude") as (e1 & He1 & Hla); [not_payload_key |].
  destruct (Hkeep "longitude") as (e2 & He2 & Hlo); [not_payload_key |].
  destruct (Hkeep "altitude") as (e3 & He3 & Hal); [not_payload_key |].
  assert (e1 = e) as -> by congruence.
  assert (e2 = e) as -> by congruence.
  assert (e3 = e) as -> by congruence.
  exists e, time. split; [done |]. split; [done |].
  rewrite Htm, Hla, Hlo, Hal. by simplify_map_eq.
Qed.

(** X8.  A sample stamped [0] under the primary key and without the alternate
    key counts as a sample without a time stamp: the merger raises, also
    when a position fix is stamped [0]. *)
Theorem merge_zero_start_time (locationdata livedata : list (gmap string Z))
    (entry : gmap string Z) :
  entry ∈ livedata →
  entry !! "start_time" = Some 0 →
  entry !! "StartTime" = None →
  raises (merge_location_and_live_data locationdata livedata).
Proof.
  intros Hin H0 Halt. unfold merge_location_and_live_data.
  destruct (for_each add_location [] locationdata) as [merged0|e];
    [| by exists e].
  simpl. destruct (map_result _ locationdata) as [starts|e]; [| by exists e].
  simpl. apply (for_each_raises _ _ entry); [done |].
  intros merged'. apply add_live_raises.
  unfold sample_time. by rewrite H0, Halt.
Qed.

(** X9.  The fields of a merged entry are among the time, the three position
    fields and the four payload fields: the merger passes nothing else of
    a sample on. *)
Theorem merge_entry_fields (locationdata livedata : list (gmap string Z))
    (merged : list (Z * gmap string value)) (k : Z)
    (e : gmap string value) (f : string) :
  merge_location_and_live_data locationdata livedata = Ok merged →
  (k, e) ∈ merged →
  is_Some (e !! f) →
  f ∈ ["time"; "latitude"; "longitude"; "altitude"] ++ payload_keys.
Proof.
  set (known := ["time"; "latitude"; "longitude"; "altitude"] ++ payload_keys).
  set (inv := λ m : list (Z * gmap string value),
         ∀ k e f, (k, e) ∈ m → is_Some (e !! f) → f ∈ known).
  assert (∀ P m m', for_each add_location m P = Ok m' → inv m → inv m')
    as Hloc.
  { induction P as [|entry P IH]; intros m m'; cbn [for_each].
    - by intros [= ->].
    - intros (m1 & Hstep & Hrest)%bind_Ok Hinv. apply (IH _ _ Hrest).
      unfold add_location in Hstep.
      apply bind_Ok in Hstep as (t & _ & Hstep).
      apply bind_Ok in Hstep as (time & _ & Hstep).
      apply bind_Ok in Hstep as (lat & _ & Hstep).
      apply bind_Ok in Hstep as (lon & _ & Hstep).
      injection Hstep as <-.
      intros k' e' f' [[= -> ->]|Hin]%elem_of_dict_set; [| by eapply Hinv].
      intros [v Hv]. subst known.
      destruct (decide (f' = "time")) as [->|]; [set_solver |].
      destruct (decide (f' = "latitude")) as [->|]; [set_solver |].
      destruct (decide (f' = "longitude")) as [->|]; [set_solver |].
      destruct (decide (f' = "altitude")) as [->|]; [set_solver |].
      by simplify_map_eq. }
  assert (∀ T S m m', (∀ t, t ∈ T → t ∈ m.*1) →
                      for_each (add_live T) m S = Ok m' → inv m → inv m')
    as Hlive.
  { intros T. induction S as [|entry S IH]; intros m m' Hsub; cbn [for_each].
    - by intros [= ->].
    - intros (m1 & Hstep & Hrest)%bind_Ok Hinv.
      apply add_live_inv in Hstep as (k0 & _ & _ & ->); [| done].
      apply (IH _ _ (λ t Ht, eq_ind_r (λ l, t ∈ l) (Hsub t Ht)
                               (dict_update_keys _ _ _)) Hrest).
      intros k' e' f' (e0 & Hin & ->)%elem_of_dict_update Hsome.
      destruct (decide (k' = k0)); [| by eapply Hinv].
      apply lookup_union_is_Some in Hsome as [[v Hv]|Hsome];
        [| by eapply Hinv].
      apply payload_keys_only in Hv as [Hv _]. subst known.
      apply elem_of_app. by right. }
  intros Hm Hin Hsome.
  destruct (for_each add_location [] locationdata) as [merged0|err] eqn:H0;
    [| by unfold merge_location_and_live_data in Hm; rewrite H0 in Hm].
  rewrite (merge_unfold _ _ _ H0) in Hm.
  pose proof (locations_keys _ _ H0) as [Hkeys _].
  assert (inv merged) as Hinv.
  { apply (Hlive _ _ _ _ (λ u Hu, proj1 (Hkeys u) Hu) Hm).
    apply (Hloc _ _ _ H0). by intros ??? ?%not_elem_of_nil. }
  by apply (Hinv k e f).
Qed.

(** X10.  The search of the merger runs on the sorted time stamps, so whatever
    the order of the position fixes a sample goes to the entry of its own
    time stamp or of a nearest fix time stamp, and of several nearest ones
    to the earliest. *)
Theorem merge_tie_to_earliest (locationdata earlier later : list (gmap string Z))
    (entry : gmap string Z) (merged : list (Z * gmap string value))
    (t : Z) :
  merge_location_and_live_data locationdata (earlier ++ entry :: later)
  = Ok merged →
  sample_time entry = Some t →
  ∃ before k,
    merge_location_and_live_data locationdata earlier = Ok before
    ∧ merge_location_and_live_data locationdata (earlier ++ [entry])
      = Ok (dict_update before k (payload entry))
    ∧ nearest (fix_times locationdata) t k
    ∧ ∀ u, u ∈ fix_times locationdata →
           Z.abs (u - t) = Z.abs (k - t) → k ≤ u.
Proof.
  intros Hm Hts.
  destruct (for_each add_location [] locationdata) as [merged0|err] eqn:H0;
    [| by unfold merge_location_and_live_data in Hm; rewrite H0 in Hm].
  rewrite !(merge_unfold _ _ _ H0). rewrite (merge_unfold _ _ _ H0) in Hm.
  pose proof (locations_keys _ _ H0) as [Hkeys _].
  set (T := merge_sort Z.le (fix_times locationdata)) in *.
  rewrite for_each_app in Hm. apply bind_Ok in Hm as (before & Hrun1 & Hm).
  cbn [for_each] in Hm. apply bind_Ok in Hm as (m1 & Hstep & _).
  pose proof (live_loop_inv _ _ _ _ (λ u Hu, proj1 (Hkeys u) Hu) Hrun1)
    as [Hk1 _].
  assert (∀ u, u ∈ T → u ∈ before.*1) as Hsub
    by (intros u Hu; rewrite Hk1; by apply Hkeys).
  pose proof Hstep as Hstep'.
  apply add_live_inv in Hstep as (k & Hk & Hin & ->); [| done].
  exists before, k. split; [done |]. split.
  { rewrite for_each_app, Hrun1. cbn [mbind result_bind for_each].
    by rewrite Hstep'. }
  rewrite Hts in Hk. unfold resolve_time in Hk.
  destruct (dict_has before t) eqn:Hhas.
  - injection Hk as <-. apply dict_has_true in Hhas.
    assert (t ∈ fix_times locationdata) as Htin.
    { apply elem_of_sorted_times. fold T. apply Hkeys. by rewrite <- Hk1. }
    split; [split; [done | intros u _; lia] |]. intros u _ Hu. lia.
  - destruct (decide (T = [])) as [HT|HT];
      [by rewrite HT in Hk |].
    destruct (py_min_first (distance_to (Some t)) (λ x, Z.abs (x - t)) T)
      as (r & l1 & l2 & Hr & Hsplit & Hbefore & Hafter); [done | done |].
    unfold find_nearest_time in Hk. rewrite Hr in Hk. injection Hk as ->.
    assert (StronglySorted Z.le T) as Hsorted
      by (apply StronglySorted_merge_sort; apply _).
    rewrite Hsplit in Hsorted.
    apply StronglySorted_app in Hsorted as (_ & _ & Htail).
    apply StronglySorted_cons in Htail as [Hle _].
    rewrite Forall_forall in Hle.
    assert (∀ u, u ∈ fix_times locationdata ↔ u ∈ l1 ++ k :: l2) as Hmem.
    { intros u. rewrite <- Hsplit. symmetry. apply elem_of_sorted_times. }
    split; [split |].
    + apply Hmem. set_solver.
    + intros u [Hu|[->|Hu]%elem_of_cons]%Hmem%elem_of_app.
      * specialize (Hbefore u Hu). simpl in Hbefore. lia.
      * done.
      * by apply Hafter.
    + intros u [Hu|[->|Hu]%elem_of_cons]%Hmem%elem_of_app Heq.
      * specialize (Hbefore u Hu). simpl in Hbefore. lia.
      * done.
      * by apply Hle.
Qed.

End MergerFurther.

(** ** The track-point builder beyond its claims *)

(** X11.  The track-point builder raises in these cases only: a
    [KeyError] when the data has no time; a [TypeError] when the time is a
    number; a [ValueError] when the time is a text that XML cannot hold;
    then, the time being a text that it can hold or [None], a [KeyError]
    when the data has an altitude and a longitude but no latitude (the
    test of line 168 asks for the altitude where line 170 reads the
    latitude), and otherwise a [ValueError] when the text of one of the
    values that it writes (latitude and longitude of a position, heart
    rate, cadence) is one that XML cannot hold. *)
Theorem create_trackpoint_raises (data : gmap string value) (e : exn) :
  create_trackpoint data = Raise e
  ↔ (data !! "time" = None ∧ e = KeyError)
    ∨ ((∃ n, data !! "time" = Some (VInt n)) ∧ e = TypeError)
    ∨ ((∃ s, data !! "time" = Some (VStr s) ∧ xml_compatible s = false)
       ∧ e = ValueError)
    ∨ (time_text data ∧ position_keys data ∧ data !! "latitude" = None
       ∧ e = KeyError)
    ∨ (time_text data
       ∧ (position_keys data → is_Some (data !! "latitude"))
       ∧ (∃ v, v ∈ written_values data
               ∧ xml_compatible (str_of_value v) = false)
       ∧ e = ValueError).
Proof.
  split; [apply create_trackpoint_raised |].
  intros Hcase.
  destruct (create_trackpoint data) as [r|e'] eqn:Hrun.
  - apply create_trackpoint_returned in Hrun as (Htime & Hlat & Hall).
    unfold time_text in *.
    destruct Hcase as [[Ht _] | [[[n Ht] _] | [[(s & Ht & Hs) _]
                     | [(_ & Hpos & Hnone & _) | (_ & _ & (v & Hv & Hx) & _)]]]].
    + destruct Htime as [?|(? & ? & _)]; congruence.
    + destruct Htime as [?|(? & ? & _)]; congruence.
    + destruct Htime as [?|(? & ? & ?)]; congruence.
    + destruct (Hlat Hpos) as [lat ?]. congruence.
    + rewrite (Hall v Hv) in Hx. done.
  - apply create_trackpoint_raised in Hrun. f_equal.
    unfold time_text in *.
    destruct Hcase as [[Ht ->] | [[[n Ht] ->] | [[(s & Ht & Hs) ->]
                     | [(Ht & Hpos & Hnone & ->) | (Ht & Hlat & _ & ->)]]]];
      destruct Hrun as [[Ht' ->] | [[[n' Ht'] ->] | [[(s' & Ht' & Hs') ->]
                     | [(Ht' & Hpos' & Hnone' & ->) | (Ht' & Hlat' & _ & ->)]]]];
      try done;
      repeat match goal with
        | H : _ ∨ _ |- _ => destruct H
        | H : ∃ _, _ |- _ => destruct H
        | H : _ ∧ _ |- _ => destruct H
        end;
      try congruence;
      match goal with
      | Hl : position_keys data → is_Some _, Hp : position_keys data |- _ =>
          destruct (Hl Hp) as [lat ?]; congruence
      end.
Qed.

(** The children of a track point, block by block. *)
Lemma create_trackpoint_Some (data : gmap string value) (p : element) :
  create_trackpoint data = Ok (Some p) →
  ∃ time lat lon hr c (bp bh bc : bool),
    (bp = true ↔ is_Some (data !! "altitude") ∧ is_Some (data !! "longitude"))
    ∧ (bh = true ↔ is_Some (data !! "heart_rate"))
    ∧ (bc = true ↔ is_Some (data !! "cadence"))
    ∧ p = Element "Trackpoint" [] None
            (opt true (Element "Time" [] time [])
             ++ opt bp (position_element lat lon)
             ++ opt bh (heart_rate_element hr)
             ++ opt bc (leaf "Cadence" (str_of_value c))).
Proof.
  intros (time & lat & lon & hr & c & bp & bh & bc & Hp & Hh & Hc & Heq)
    %create_trackpoint_Ok.
  exists time, lat, lon, hr, c, bp, bh, bc. do 3 (split; [done |]).
  destruct (bp || bh || bc); [by injection Heq | done].
Qed.

(** X12.  A track point has the tag [Trackpoint]; its children are a time,
    then a position, a heart rate and a cadence, in this order, each of
    the last three present exactly when the data has its keys; the
    position holds a latitude and a longitude and nothing else.  Distance,
    speed and altitude are never written. *)
Theorem create_trackpoint_children (data : gmap string value) (p : element) :
  create_trackpoint data = Ok (Some p) →
  tag p = "Trackpoint"
  ∧ sublist (tag <$> children p)
      ["Time"; "Position"; "HeartRateBpm"; "Cadence"]
  ∧ head (tag <$> children p) = Some "Time"
  ∧ (has_child "Position" p
     ↔ is_Some (data !! "altitude") ∧ is_Some (data !! "longitude"))
  ∧ (has_child "HeartRateBpm" p ↔ is_Some (data !! "heart_rate"))
  ∧ (has_child "Cadence" p ↔ is_Some (data !! "cadence"))
  ∧ ∀ position, position ∈ children_tagged "Position" p →
                tag <$> children position
                = ["LatitudeDegrees"; "LongitudeDegrees"].
Proof.
  intros (time & lat & lon & hr & c & bp & bh & bc & Hp & Hh & Hc & ->)
    %create_trackpoint_Some.
  split; [reflexivity |]. split.
  { destruct bp, bh, bc;
      cbv [opt app fmap list_fmap tag children position_element
           heart_rate_element leaf];
      repeat first [apply sublist_nil | apply sublist_skip
                    | apply sublist_cons]. }
  split; [reflexivity |].
  rewrite <- Hp, <- Hh, <- Hc. unfold has_child, children_tagged.
  cbn [children]. rewrite !filter_app, !filter_opt.
  repeat split; try (destruct bp, bh, bc; by compute).
  intros position Hin. destruct bp, bh, bc; compute in Hin;
    repeat (apply elem_of_cons in Hin as [->|Hin]; [reflexivity |]);
    by apply not_elem_of_nil in Hin.
Qed.

(** ** The lap builder beyond its claims *)

Lemma sublist_opt_cons {A} (c : bool) (x : A) (l k : list A) :
  sublist l k → sublist (opt c x ++ l) (x :: k).
Proof.
  intros Hl. destruct c; simpl; [by apply sublist_skip | by apply sublist_cons].
Qed.

Section LapFurther.
Context `{PyLib}.

(** X13.  A lap has the tag [Lap] and the start time as its only attribute; its
    children follow the order of the schema, none occurs twice, and the
    intensity "Active" and the trigger method "Manual" are always among
    them. *)
Theorem create_lap_schema_order start_time duration distance calories avg_hr
    max_hr avg_speed max_speed avg_cadence max_cadence lap :
  create_lap start_time duration distance calories avg_hr max_hr
    avg_speed max_speed avg_cadence max_cadence = Ok lap →
  tag lap = "Lap"
  ∧ attrib lap = [("StartTime", start_time)]
  ∧ sublist (tag <$> children lap) lap_schema
  ∧ NoDup (tag <$> children lap)
  ∧ children_tagged "Intensity" lap = [leaf "Intensity" "Active"]
  ∧ children_tagged "TriggerMethod" lap = [leaf "TriggerMethod" "Manual"].
Proof.
  intros (secs & kcal & ahr & mhr & _ & _ & _ & _ & ->)%create_lap_inv.
  split; [reflexivity |]. split; [reflexivity |].
  assert (sublist (tag <$> children
                     (Element "Lap" [("StartTime", start_time)] None
                        (lap_children secs kcal ahr mhr duration distance
                           calories avg_hr max_hr avg_speed max_speed
                           avg_cadence max_cadence))) lap_schema) as Hsub;
    [| split; [exact Hsub |]; split;
       [eapply sublist_NoDup; [| exact Hsub];
        apply (bool_decide_unpack _); by vm_compute |]].
  - cbn [children]. unfold lap_children, lap_schema.
    rewrite !fmap_app.
    assert (∀ (c : bool) (x : element), tag <$> opt c x = opt c (tag x))
      as Hopt by (by intros [] ?).
    rewrite !Hopt. cbn [tag leaf bpm sub_text append extensions fmap list_fmap].
    repeat apply sublist_opt_cons.
    do 2 apply sublist_skip.
    destruct (truthy avg_speed || truthy avg_cadence || truthy max_cadence);
      repeat constructor.
  - rewrite !children_tagged_lap.
    repeat match goal with
      | |- context [bool_decide (?a = ?b)] =>
          first [ rewrite (bool_decide_eq_true_2 (a = b)) by reflexivity
                | rewrite (bool_decide_eq_false_2 (a = b)) by discriminate ]
      end.
    rewrite ?andb_false_r. by cbn [opt app].
Qed.

(** X14.  The extension block is there exactly when one of the three values is
    a non-empty text, and it holds one [LX] element with the values that
    are not "0.0": when "0.0" is all there is, the [LX] element is
    empty. *)
Theorem create_lap_extensions start_time duration distance calories avg_hr
    max_hr avg_speed max_speed avg_cadence max_cadence lap :
  create_lap start_time duration distance calories avg_hr max_hr
    avg_speed max_speed avg_cadence max_cadence = Ok lap →
  children_tagged "Extensions" lap
  = opt (truthy avg_speed || truthy avg_cadence || truthy max_cadence)
        (Element "Extensions" [] None
           [Element (ns3_tag "LX") [] None
              (opt (truthy avg_speed && not_zero_text avg_speed)
                   (leaf (ns3_tag "AvgSpeed") (str_arg avg_speed))
               ++ opt (truthy avg_cadence && not_zero_text avg_cadence)
                      (leaf (ns3_tag "AvgRunCadence") (str_arg avg_cadence))
               ++ opt (truthy max_cadence && not_zero_text max_cadence)
                      (leaf (ns3_tag "MaxRunCadence")
                            (str_arg max_cadence)))]).
Proof.
  intros (secs & kcal & ahr & mhr & _ & _ & _ & _ & ->)%create_lap_inv.
  rewrite children_tagged_lap.
  repeat match goal with
    | |- context [bool_decide (?a = ?b)] =>
        first [ rewrite (bool_decide_eq_true_2 (a = b)) by reflexivity
              | rewrite (bool_decide_eq_false_2 (a = b)) by discriminate ]
    end.
  rewrite ?andb_false_r, ?andb_true_r. by cbn [opt app].
Qed.

End LapFurther.

(** ** The driver beyond its claims *)

(** The document as a tree. *)
Lemma build_xml_tree (a_id ex_type : string) (lap : element)
    (trackpoints : list (option element)) :
  build_xml a_id ex_type lap trackpoints
  = Element "TrainingCenterDatabase" (attrib create_root) None
      [Element "Activities" [] None
         [Element "Activity" [("Sport", ex_type)] None
            [leaf "Id" a_id;
             Element (tag lap) (attrib lap) (text lap)
               (children lap
                ++ if decide (omap id trackpoints = []) then []
                   else [Element "Track" [] None (omap id trackpoints)])]]].
Proof.
  unfold build_xml. rewrite track_fold.
  cbn [tag attrib text children app].
  destruct lap as [t a x cs]. unfold len. cbn [children tag attrib text].
  destruct (omap id trackpoints) as [|p ps]; simpl; [| done].
  by rewrite app_nil_r.
Qed.

Section DriverFurther.
Context `{PyLib}.

(** What a preparation that returned went through. *)
Lemma prepare_inv files exercise r :
  prepare_exercise_data files exercise = Ok r →
  ∃ start et du di ca ah mh sp ms ac mc lap uuid fixes,
    exercise !! "start_time" = Some start
    ∧ exercise !! "exercise_type" = Some et
    ∧ create_lap (replace_space start ++ "Z")%string (Some du) (Some di)
        (Some ca) (Some ah) (Some mh) (Some sp) (Some ms) (Some ac)
        (Some mc) = Ok lap
    ∧ exercise !! "datauuid" = Some uuid
    ∧ fetch_json_data files uuid "location_data" = Ok fixes
    ∧ ((fixes = [] ∧ r = None)
       ∨ (fixes ≠ []
          ∧ ∃ samples merged trackpoints,
              fetch_json_data files uuid "live_data" = Ok samples
              ∧ merge_location_and_live_data fixes samples = Ok merged
              ∧ for_each collect_trackpoint [] merged.*2 = Ok trackpoints
              ∧ r = Some (build_xml (replace_space start ++ "Z")%string
                            (convert_activity_type et) lap trackpoints))).
Proof.
  unfold prepare_exercise_data. intros Hp.
  destruct (exercise !! "start_time") as [start|]; [| done].
  cbn [mbind result_bind] in Hp.
  apply bind_Ok in Hp as (sport & Het & Hp).
  assert (∃ et, exercise !! "exercise_type" = Some et
                ∧ sport = convert_activity_type et) as (et & Het' & ->).
  { unfold item in Het. destruct (exercise !! "exercise_type") as [et|];
      [| done]. injection Het as <-. by exists et. }
  apply bind_Ok in Hp as (du & _ & Hp).
  apply bind_Ok in Hp as (di & _ & Hp).
  apply bind_Ok in Hp as (ca & _ & Hp).
  apply bind_Ok in Hp as (ah & _ & Hp).
  apply bind_Ok in Hp as (mh & _ & Hp).
  apply bind_Ok in Hp as (sp & _ & Hp).
  apply bind_Ok in Hp as (ms & _ & Hp).
  apply bind_Ok in Hp as (ac & _ & Hp).
  apply bind_Ok in Hp as (mc & _ & Hp).
  apply bind_Ok in Hp as (lap & Hlap & Hp).
  apply bind_Ok in Hp as (uuid & Huuid%item_Ok & Hp).
  apply bind_Ok in Hp as (fixes & Hfix & Hp).
  exists start, et, du, di, ca, ah, mh, sp, ms, ac, mc, lap, uuid, fixes.
  do 5 (split; [done |]).
  destruct (decide (fixes = [])) as [->|Hne].
  - left. injection Hp as <-. done.
  - right. split; [done |].
    apply bind_Ok in Hp as (samples & Hlive & Hp).
    apply bind_Ok in Hp as (merged & Hmerge & Hp).
    apply bind_Ok in Hp as (tps & Htps & Hp).
    injection Hp as <-. by exists samples, merged, tps.
Qed.

(** X15.  The preparation returns [None] for one reason only: the exercise
    has no position fixes.  It never drops an exercise because no track
    point was left. *)
Theorem prepare_none_only_without_fixes files exercise :
  prepare_exercise_data files exercise = Ok None →
  ∃ uuid, exercise !! "datauuid" = Some uuid
          ∧ fetch_json_data files uuid "location_data" = Ok [].
Proof.
  intros (start & et & du & di & ca & ah & mh & sp & ms & ac & mc & lap
          & uuid & fixes & _ & _ & _ & Huuid & Hfix & Hcase)%prepare_inv.
  exists uuid. split; [done |].
  destruct Hcase as [[-> _]|(_ & samples & merged & tps & _ & _ & _ & ?)];
    done.
Qed.

Lemma trackpoints_times (merged : list (Z * gmap string value))
    (trackpoints : list (option element)) :
  Forall2 (λ kv trackpoint,
             ∃ time p, format_time kv.1 = Ok time
                       ∧ create_trackpoint kv.2 = Ok (Some p)
                       ∧ trackpoint = Some p
                       ∧ children_tagged "Time" p = [leaf "Time" time])
    merged trackpoints →
  filter (λ c, tag c = "Trackpoint") (omap id trackpoints)
  = omap id trackpoints
  ∧ length (omap id trackpoints) = length merged
  ∧ Forall2 (λ k time_leaf,
               ∃ time, format_time k = Ok time
                       ∧ time_leaf = leaf "Time" time)
      merged.*1 (omap id trackpoints ≫= children_tagged "Time").
Proof.
  induction 1 as [|kv tp merged tps (time & p & Hf & Hp & -> & Htime) _ IH].
  - done.
  - destruct IH as (IH1 & IH2 & IH3).
    change (omap id (Some p :: tps)) with (p :: omap id tps).
    apply create_trackpoint_Some in Hp as Hshape.
    destruct Hshape as (? & ? & ? & ? & ? & ? & ? & ? & _ & _ & _ & Hshape).
    assert (tag p = "Trackpoint") as Htag by (by rewrite Hshape).
    split; [| split].
    + rewrite filter_cons, decide_True by done. by rewrite IH1.
    + simpl. by rewrite IH2.
    + rewrite bind_cons, Htime, fmap_cons. simpl.
      constructor; [by exists time | done].
Qed.

(** X16.  The document of an exercise: the sport of its type, the start time
    (with a T for the space and a closing Z) as the id of the activity and
    the start of the lap, and one track point for each distinct time
    stamp of the position fixes, in the order of first occurrence, with
    that time stamp formatted as its time. *)
Theorem prepare_document files exercise doc :
  prepare_exercise_data files exercise = Ok (Some doc) →
  ∃ start et uuid fixes,
    exercise !! "start_time" = Some start
    ∧ exercise !! "exercise_type" = Some et
    ∧ exercise !! "datauuid" = Some uuid
    ∧ fetch_json_data files uuid "location_data" = Ok fixes
    ∧ fixes ≠ []
    ∧ attrib <$> descend ["Activities"; "Activity"] doc
      = [[("Sport", convert_activity_type et)]]
    ∧ descend ["Activities"; "Activity"; "Id"] doc
      = [leaf "Id" (replace_space start ++ "Z")%string]
    ∧ attrib <$> descend ["Activities"; "Activity"; "Lap"] doc
      = [[("StartTime", (replace_space start ++ "Z")%string)]]
    ∧ foldl add_key [] (fix_times fixes) ≠ []
    ∧ length (descend ["Activities"; "Activity"; "Lap"; "Track";
                       "Trackpoint"] doc)
      = length (foldl add_key [] (fix_times fixes))
    ∧ Forall2 (λ k time_leaf,
                 ∃ time, format_time k = Ok time
                         ∧ time_leaf = leaf "Time" time)
        (foldl add_key [] (fix_times fixes))
        (descend ["Activities"; "Activity"; "Lap"; "Track"; "Trackpoint";
                  "Time"] doc).
Proof.
  intros (start & et & du & di & ca & ah & mh & sp & ms & ac & mc & lap
          & uuid & fixes & Hst & Het & Hlap & Huuid & Hfix & Hcase)
    %prepare_inv.
  destruct Hcase as [[_ ?]|(Hne & samples & merged & tps & _ & Hm & Htps & Hdoc)];
    [done |].
  injection Hdoc as ->.
  exists start, et, uuid, fixes. do 5 (split; [done |]).
  apply create_lap_inv in Hlap
    as (secs & kcal & ahr & mhr & _ & _ & _ & _ & ->).
  assert (foldl add_key [] (fix_times fixes) ≠ []) as Hsome.
  { unfold merge_location_and_live_data in Hm.
    apply bind_Ok in Hm as (m0 & (Hmap & _)%locations_inv & _).
    destruct fixes as [|entry P]; [done |]. cbn [map_result] in Hmap.
    apply bind_Ok in Hmap as (t & _ & Hmap).
    apply bind_Ok in Hmap as (ts & _ & Hmap).
    assert (t :: ts = fix_times (entry :: P)) as Heq by congruence.
    intros Hnil.
    assert (t ∈ foldl add_key [] (fix_times (entry :: P))) as Hin.
    { apply elem_of_add_keys. right.
      generalize dependent (fix_times (entry :: P)). intros l _ <- _. left. }
    rewrite Hnil in Hin. by apply not_elem_of_nil in Hin. }
  apply merge_inv in Hm as [Hkeys Hshape].
  destruct (collect_trackpoints_ok merged [] Hshape) as (new & Hrun & Hall).
  rewrite Hrun in Htps. injection Htps as <-. cbn [app].
  apply trackpoints_times in Hall as (Hfilter & Hlen & Htimes).
  set (points := omap id new) in *.
  set (time := (replace_space start ++ "Z")%string).
  set (cs := lap_children _ _ _ _ _ _ _ _ _ _ _ _ _).
  assert (children_tagged "Track"
            (Element "Lap" [("StartTime", time)] None cs) = []) as Hno.
  { subst cs. rewrite children_tagged_lap.
    repeat match goal with
      | |- context [bool_decide (?a = ?b)] =>
          rewrite (bool_decide_eq_false_2 (a = b)) by discriminate
      end.
    rewrite ?andb_false_r. by cbn [opt app]. }
  rewrite build_xml_tree. cbn [tag attrib text children]. fold points.
  set (tracks := if decide (points = []) then []
                 else [Element "Track" [] None points]).
  set (doc := Element "TrainingCenterDatabase" _ _ _).
  assert (descend ["Activities"; "Activity"] doc
          = [Element "Activity" [("Sport", convert_activity_type et)] None
               [leaf "Id" time;
                Element "Lap" [("StartTime", time)] None (cs ++ tracks)]])
    as Hact by reflexivity.
  assert (descend ["Activities"; "Activity"; "Lap"] doc
          = [Element "Lap" [("StartTime", time)] None (cs ++ tracks)])
    as Hlap by reflexivity.
  assert (descend ["Activities"; "Activity"; "Lap"; "Track"; "Trackpoint"]
            doc = points) as Hpoints.
  { change ["Activities"; "Activity"; "Lap"; "Track"; "Trackpoint"]
      with ((["Activities"; "Activity"; "Lap"] ++ ["Track"])
            ++ ["Trackpoint"]).
    rewrite !descend_snoc, Hlap.
    assert (children_tagged "Track"
              (Element "Lap" [("StartTime", time)] None (cs ++ tracks))
            = tracks) as Htracks.
    { rewrite children_tagged_app, Hno. subst tracks.
      by destruct (decide (points = [])). }
    rewrite bind_cons. change (@nil element ≫= children_tagged "Track")
      with (@nil element).
    rewrite app_nil_r, Htracks. subst tracks.
    destruct (decide (points = [])) as [Hnil|_]; [by rewrite Hnil |].
    rewrite bind_cons.
    change (@nil element ≫= children_tagged "Trackpoint")
      with (@nil element).
    rewrite app_nil_r. exact Hfilter. }
  split; [by rewrite Hact |]. split; [reflexivity |].
  split; [by rewrite Hlap |]. split; [done |]. split.
  - by rewrite Hpoints, Hlen, <- Hkeys, length_fmap.
  - change ["Activities"; "Activity"; "Lap"; "Track"; "Trackpoint"; "Time"]
      with (["Activities"; "Activity"; "Lap"; "Track"; "Trackpoint"]
            ++ ["Time"]).
    rewrite descend_snoc, Hpoints, <- Hkeys. exact Htimes.
Qed.

(** X17.  The batch in two parts: when the first part runs through, the log is
    the log of the first part followed by that of the second; when an
    exception ends the first part, the second part is not touched. *)
Theorem export_all_app files (first second : list (gmap string string)) :
  export_all files (first ++ second)
  = match export_all files first with
    | (events, None) =>
        (events ++ (export_all files second).1,
         (export_all files second).2)
    | (events, Some e) => (events, Some e)
    end.
Proof.
  induction first as [|exercise first IH]; cbn [app export_all].
  - by destruct (export_all files second).
  - destruct (export_exercise files exercise) as [events|e]; [| done].
    rewrite IH. destruct (export_all files first) as [later [e|]]; [done |].
    destruct (export_all files second) as [more e'].
    cbn [fst snd]. by rewrite app_assoc.
Qed.

Lemma export_exercise_inv files exercise events :
  export_exercise files exercise = Ok events →
  events = [Progress]
  ∨ (∃ uuid, exercise !! "datauuid" = Some uuid
             ∧ prepare_exercise_data files exercise = Ok None
             ∧ events = [Progress; Skipping uuid])
  ∨ (∃ uuid xml,
       exercise !! "datauuid" = Some uuid
       ∧ prepare_exercise_data files exercise = Ok (Some xml)
       ∧ events = [Progress;
                   WriteFile ("exports/" ++ uuid ++ ".tcx")%string xml;
                   Exported uuid ("exports/" ++ uuid ++ ".tcx")%string]).
Proof.
  unfold export_exercise.
  destruct (decide (exercise !! "start_time" = None
                    ∨ exercise !! "start_time" = Some "")) as [_|_].
  - intros [= <-]. by left.
  - intros (xml & Hprep & Hrest)%bind_Ok.
    apply bind_Ok in Hrest as (uuid & Huuid%item_Ok & Hrest).
    destruct xml as [xml|]; injection Hrest as <-; right.
    + right. by exists uuid, xml.
    + left. by exists uuid.
Qed.

(** X18.  Every file that the batch writes is the document of one of its
    exercises, under the name of that exercise in [exports/], and it is
    announced right after; every skip that it prints is for an exercise
    without position fixes. *)
Theorem export_all_events files (exercises : list (gmap string string)) :
  (∀ filename xml,
     WriteFile filename xml ∈ (export_all files exercises).1 →
     ∃ exercise uuid,
       exercise ∈ exercises
       ∧ exercise !! "datauuid" = Some uuid
       ∧ filename = ("exports/" ++ uuid ++ ".tcx")%string
       ∧ prepare_exercise_data files exercise = Ok (Some xml)
       ∧ Exported uuid filename ∈ (export_all files exercises).1)
  ∧ (∀ uuid,
       Skipping uuid ∈ (export_all files exercises).1 →
       ∃ exercise,
         exercise ∈ exercises
         ∧ exercise !! "datauuid" = Some uuid
         ∧ fetch_json_data files uuid "location_data" = Ok []).
Proof.
  induction exercises as [|exercise rest [IHw IHs]]; cbn [export_all].
  - split; [intros ?? Hin | intros ? Hin]; by apply not_elem_of_nil in Hin.
  - destruct (export_exercise files exercise) as [events|e] eqn:Hone.
    2: { split; [intros ?? Hin | intros ? Hin];
         apply list_elem_of_singleton in Hin; discriminate Hin. }
    destruct (export_all files rest) as [later err]. cbn [fst] in *.
    apply export_exercise_inv in Hone
      as [-> | [(uuid & Huuid & Hprep & ->) | (uuid & xml & Huuid & Hprep & ->)]].
    + split.
      * intros filename xml [Hin|Hin]%elem_of_app.
        { apply list_elem_of_singleton in Hin. discriminate Hin. }
        destruct (IHw _ _ Hin) as (ex & u & ? & ? & ? & ? & ?).
        exists ex, u. repeat split; try done; [by right |].
        apply elem_of_app. by right.
      * intros u [Hin|Hin]%elem_of_app.
        { apply list_elem_of_singleton in Hin. discriminate Hin. }
        destruct (IHs _ Hin) as (ex & ? & ? & ?).
        exists ex. repeat split; try done. by right.
    + split.
      * intros filename xml [Hin|Hin]%elem_of_app.
        { repeat (apply elem_of_cons in Hin as [Hin|Hin];
                  [discriminate Hin |]).
          by apply not_elem_of_nil in Hin. }
        destruct (IHw _ _ Hin) as (ex & u & ? & ? & ? & ? & ?).
        exists ex, u. repeat split; try done; [by right |].
        apply elem_of_app. by right.
      * intros u [Hin|Hin]%elem_of_app.
        { apply elem_of_cons in Hin as [Hin|Hin]; [discriminate Hin |].
          apply list_elem_of_singleton in Hin. injection Hin as ->.
          exists exercise. split; [left |]. split; [done |].
          apply prepare_inv in Hprep
            as (? & ? & ? & ? & ? & ? & ? & ? & ? & ? & ? & ? & u' & fixes
                & _ & _ & _ & Hu' & Hfix & Hcase).
          rewrite Huuid in Hu'. injection Hu' as <-.
          by destruct Hcase as [[-> _]|(_ & ? & ? & ? & _ & _ & _ & ?)]. }
        destruct (IHs _ Hin) as (ex & ? & ? & ?).
        exists ex. repeat split; try done. by right.
    + split.
      * intros filename xml' [Hin|Hin]%elem_of_app.
        { apply elem_of_cons in Hin as [Hin|Hin]; [discriminate Hin |].
          apply elem_of_cons in Hin as [Hin|Hin].
          - injection Hin as -> ->. exists exercise, uuid.
            split; [left |]. do 3 (split; [done |]).
            apply elem_of_app. left. set_solver.
          - apply list_elem_of_singleton in Hin. discriminate Hin. }
        destruct (IHw _ _ Hin) as (ex & u & ? & ? & ? & ? & ?).
        exists ex, u. repeat split; try done; [by right |].
        apply elem_of_app. by right.
      * intros u [Hin|Hin]%elem_of_app.
        { repeat (apply elem_of_cons in Hin as [Hin|Hin];
                  [discriminate Hin |]).
          by apply not_elem_of_nil in Hin. }
        destruct (IHs _ Hin) as (ex & ? & ? & ?).
        exists ex. repeat split; try done. by right.
Qed.

End DriverFurther.

(** ** The telemetry files and the exercise list *)

Lemma string_app_length (s1 s2 : string) :
  String.length (s1 ++ s2) = (String.length s1 + String.length s2)%nat.
Proof. induction s1 as [|c s1 IH]; simpl; [done | by rewrite IH]. Qed.

Lemma string_app_inv_tail (s1 s2 t : string) :
  (s1 ++ t = s2 ++ t)%string → s1 = s2.
Proof.
  revert s2. induction s1 as [|c s1 IH]; intros [|c' s2] Heq; simpl in Heq.
  - done.
  - apply (f_equal String.length) in Heq.
    rewrite !string_app_length in Heq. simpl in Heq. lia.
  - apply (f_equal String.length) in Heq.
    rewrite !string_app_length in Heq. simpl in Heq. lia.
  - injection Heq as -> Heq. f_equal. by apply IH.
Qed.

(** X19.  The path of a telemetry file is there for every non-empty uuid and
    only for those; two exercises never share a file of one kind, and the
    position fixes and the samples of one exercise are in two files. *)
Theorem json_path_distinct (uuid uuid' data_type : string) :
  (returns (json_path uuid data_type) ↔ uuid ≠ "")
  ∧ (uuid ≠ "" → json_path uuid data_type = json_path uuid' data_type →
     uuid = uuid')
  ∧ (uuid ≠ "" →
     json_path uuid "location_data" ≠ json_path uuid "live_data").
Proof.
  split; [| split].
  - destruct uuid; simpl; split; try done.
    + by intros [? ?].
    + intros _. by eexists.
  - intros Hne. destruct uuid as [|c u]; [done |].
    destruct uuid' as [|c' u']; [done |]. simpl.
    intros [= -> _ Heq]. f_equal.
    by apply string_app_inv_tail in Heq.
  - intros Hne. destruct uuid as [|c u]; [done |]. simpl.
    intros [= Heq].
    assert (∀ s a b, (s ++ a = s ++ b)%string → a = b) as Hhead.
    { induction s as [|x s IH]; simpl; [done |]. intros a b [= ?]. auto. }
    apply Hhead in Heq. discriminate Heq.
Qed.

Lemma map_result_Forall2 {A B} (f : A → result B) (l : list A) (k : list B) :
  map_result f l = Ok k ↔ Forall2 (λ x y, f x = Ok y) l k.
Proof.
  revert k. induction l as [|x l IH]; intros k; cbn [map_result].
  - split; [intros [= <-]; constructor | by intros ->%Forall2_nil_inv_l].
  - split.
    + intros (y & Hy & Hrest)%bind_Ok.
      apply bind_Ok in Hrest as (ys & Hys%IH & [= <-]). by constructor.
    + intros (y & ys & Hy & Hys%IH & ->)%Forall2_cons_inv_l.
      by rewrite Hy, Hys.
Qed.

Lemma map_result_Raise {A B} (f : A → result B) (l : list A) (e : exn) :
  map_result f l = Raise e → ∃ x, x ∈ l ∧ f x = Raise e.
Proof.
  induction l as [|x l IH]; cbn [map_result]; [done |].
  destruct (f x) as [y|e'] eqn:Hx; simpl.
  - destruct (map_result f l) as [ys|e'']; simpl; [done |].
    intros [= ->]. destruct IH as (x' & ? & ?); [done |].
    exists x'. split; [by right | done].
  - intros [= ->]. exists x. split; [left | done].
Qed.

(** The fields of a row, one after the other. *)
Lemma add_fields_inv {V} (row : gmap string V) (l : list string)
    (d0 d : gmap string V) :
  NoDup (str_remove column_prefix <$> l) →
  for_each (add_field row) d0 l = Ok d →
  (∀ field, field ∈ l →
            is_Some (row !! field)
            ∧ d !! str_remove column_prefix field = row !! field)
  ∧ (∀ k, k ∉ str_remove column_prefix <$> l → d !! k = d0 !! k).
Proof.
  revert d0. induction l as [|f l IH]; intros d0 Hnd; cbn [for_each].
  - intros [= <-]. split; [by intros ? ?%not_elem_of_nil | done].
  - rewrite fmap_cons in Hnd. apply NoDup_cons in Hnd as [Hf Hnd].
    intros (d1 & Hstep & Hrest)%bind_Ok. unfold add_field, item in Hstep.
    destruct (row !! f) as [v|] eqn:Hv; [| done]. injection Hstep as <-.
    destruct (IH _ Hnd Hrest) as [Hin Hout]. split.
    + intros field [->|Hfield]%elem_of_cons; [| by apply Hin].
      rewrite Hv. split; [done |]. rewrite (Hout _ Hf).
      by rewrite lookup_insert_eq.
    + intros k Hk. rewrite fmap_cons, not_elem_of_cons in Hk.
      destruct Hk as [Hne Hk]. rewrite (Hout _ Hk).
      by rewrite lookup_insert_ne.
Qed.

Lemma add_fields_raises {V} (row : gmap string V) (l : list string)
    (d0 : gmap string V) (e : exn) :
  for_each (add_field row) d0 l = Raise e →
  e = KeyError ∧ ∃ field, field ∈ l ∧ row !! field = None.
Proof.
  revert d0. induction l as [|f l IH]; intros d0; cbn [for_each]; [done |].
  destruct (add_field row d0 f) as [d1|e'] eqn:Hstep.
  - intros (? & field & ? & ?)%IH. split; [done |].
    exists field. split; [by right | done].
  - intros [= <-]. unfold add_field, item in Hstep.
    destruct (row !! f) as [v|] eqn:Hv; [done |]. injection Hstep as <-.
    split; [done |]. exists f. split; [left | done].
Qed.

Lemma dataset_keys :
  str_remove column_prefix <$> fields = dataset_fields.
Proof. reflexivity. Qed.

Lemma dataset_fields_NoDup : NoDup dataset_fields.
Proof. apply (bool_decide_unpack _). by vm_compute. Qed.

(** What a row becomes. *)
Lemma dataset_of_row (row d : gmap string string) :
  dataset_of row = Ok d →
  dataset d
  ∧ dom d = list_to_set dataset_fields
  ∧ ∀ field, field ∈ fields →
             d !! str_remove column_prefix field = row !! field.
Proof.
  intros Hd. unfold dataset_of in Hd.
  apply add_fields_inv in Hd as [Hin Hout];
    [| rewrite dataset_keys; apply dataset_fields_NoDup].
  rewrite dataset_keys in Hout.
  assert (∀ k, k ∈ dataset_fields → is_Some (d !! k)) as Hsome.
  { intros k. rewrite <- dataset_keys.
    intros (field & -> & Hfield)%list_elem_of_fmap.
    destruct (Hin _ Hfield) as [Hrow ->]. done. }
  split; [| split].
  - unfold dataset. by apply Forall_forall.
  - apply set_eq. intros k. rewrite elem_of_dom, elem_of_list_to_set.
    split; [| by apply Hsome].
    intros Hk. destruct (decide (k ∈ dataset_fields)) as [|Hnin]; [done |].
    rewrite (Hout _ Hnin), lookup_empty in Hk. by destruct Hk.
  - intros field Hfield. by destruct (Hin _ Hfield).
Qed.

(** The columns of the rows of [DictReader] are those of the header. *)
Lemma foldl_insert_is_Some {K V W} `{Countable K} (g : W → K) (h : W → V)
    (l : list W) (d : gmap K V) (k : K) :
  is_Some (foldl (λ d w, <[g w := h w]> d) d l !! k)
  ↔ k ∈ g <$> l ∨ is_Some (d !! k).
Proof.
  revert d. induction l as [|w l IH]; intros d; simpl.
  - rewrite elem_of_nil. tauto.
  - rewrite IH, elem_of_cons, lookup_insert_is_Some. 
    destruct (decide (g w = k)); intuition congruence.
Qed.

Lemma dict_row_columns (fieldnames row : list string) (field : string) :
  is_Some (dict_row fieldnames row !! field) ↔ field ∈ fieldnames.
Proof.
  unfold dict_row.
  rewrite (foldl_insert_is_Some id (λ _, None)), list_fmap_id.
  rewrite (foldl_insert_is_Some fst (λ kv, Some kv.2)).
    assert (fst <$> zip fieldnames row = take (length row) fieldnames) as ->.
  { revert row. induction fieldnames as [|x l IH]; intros [|c row]; simpl;
      [done .. |]. by rewrite IH. }
  rewrite <- (take_drop (length row) fieldnames) at 3.
  rewrite elem_of_app, lookup_empty. split; [| tauto].
  intros [?|[?|[? [=]]]]; tauto.
Qed.

Lemma DictReader_columns (fieldnames : list string) (rows : list (list string))
    (row : gmap string (option string)) (field : string) :
  row ∈ DictReader fieldnames rows →
  is_Some (row !! field) ↔ field ∈ fieldnames.
Proof.
  intros (cells & -> & _)%list_elem_of_fmap. apply dict_row_columns.
Qed.

(** The rows that become data sets. *)
Lemma dataset_of_returns {V} (row : gmap string V) :
  returns (dataset_of row)
  ↔ ∀ field, field ∈ fields → is_Some (row !! field).
Proof.
  unfold dataset_of. split.
  - intros [d Hd] field Hfield.
    apply add_fields_inv in Hd as [Hin _];
      [| rewrite dataset_keys; apply dataset_fields_NoDup].
    by destruct (Hin _ Hfield).
  - intros Hall. destruct (for_each _ _ _) as [d|e] eqn:Hd; [by exists d |].
    apply add_fields_raises in Hd as (_ & field & Hfield & Hnone).
    destruct (Hall _ Hfield) as [v Hv]. congruence.
Qed.

Lemma map_result_returns {A B} (f : A → result B) (l : list A) :
  returns (map_result f l) ↔ ∀ x, x ∈ l → returns (f x).
Proof.
  split.
  - intros [k Hk%map_result_Forall2] x Hx.
    apply list_elem_of_lookup in Hx as [i Hi].
    destruct (Forall2_lookup_l _ _ _ i x Hk Hi) as (y & _ & ?).
    by exists y.
  - intros Hall. destruct (map_result f l) as [k|e] eqn:Hk; [by exists k |].
    apply map_result_Raise in Hk as (x & Hx & He).
    destruct (Hall x Hx) as [y Hy]. congruence.
Qed.

(** X20.  Reading the list raises a [FileNotFoundError] when there is no
    exercise file, and a [StopIteration] when the first file has no first
    line to skip.  When the first file is read into rows, the list is
    returned exactly when every row has each of the sixteen columns, and
    a [KeyError] is raised exactly when some row lacks one of them; it
    ends in no other way.  The other exercise files are not looked at.
    A row of [DictReader] has the columns that the header names (lemma
    [DictReader_columns]): a short row has every column of the header,
    with [None] in the cells that it lacks, and raises nothing.  A file
    that cannot be opened, decoded or split into rows is not spoken of. *)
Theorem fetch_exercise_list_fails {V} (exercise_files : list string)
    (reader : string → option (list (gmap string V))) :
  (exercise_files = [] →
   fetch_exercise_list exercise_files reader = inl FileNotFoundError)
  ∧ (∀ filename,
       head exercise_files = Some filename →
       reader filename = None →
       fetch_exercise_list exercise_files reader = inl StopIteration)
  ∧ ∀ filename rows,
      head exercise_files = Some filename →
      reader filename = Some rows →
      ((∃ data, fetch_exercise_list exercise_files reader = inr data)
       ↔ ∀ row field, row ∈ rows → field ∈ fields → is_Some (row !! field))
      ∧ (fetch_exercise_list exercise_files reader = inl (RowError KeyError)
         ↔ ∃ row field, row ∈ rows ∧ field ∈ fields ∧ row !! field = None)
      ∧ ∀ err, fetch_exercise_list exercise_files reader = inl err →
               err = RowError KeyError.
Proof.
  split; [by intros -> |]. split.
  { intros filename Hhead Hnone. destruct exercise_files as [|? ?]; [done |].
    injection Hhead as ->. cbn [fetch_exercise_list]. by rewrite Hnone. }
  intros filename rows Hhead Hrows.
  destruct exercise_files as [|? ?]; [done |]. injection Hhead as ->.
  cbn [fetch_exercise_list]. rewrite Hrows.
  destruct (map_result dataset_of rows) as [data|e] eqn:Hdata.
  - assert (returns (map_result dataset_of rows)) as Hret
        by (rewrite Hdata; by exists data).
    rewrite map_result_returns in Hret.
    split; [| split; [| done]].
    + split; [| by exists data]. intros _ row field Hrow Hfield.
      apply (proj1 (dataset_of_returns row)); [by apply Hret | done].
    + split; [done |]. intros (row & field & Hrow & Hfield & Hnone).
      apply Hret in Hrow. rewrite dataset_of_returns in Hrow.
      destruct (Hrow _ Hfield) as [v Hv]. congruence.
  - apply map_result_Raise in Hdata as (row & Hrow & He).
    apply add_fields_raises in He as (-> & field & Hfield & Hnone).
    split; [| split].
    + split; [by intros [? ?] |]. intros Hall.
      destruct (Hall _ _ Hrow Hfield) as [v Hv]. congruence.
    + split; [| done]. intros _. by exists row, field.
    + by intros err [= <-].
Qed.

(** X21.  The list that was read has one data set for each row of the first
    exercise file, in the order of the rows.  A data set has the sixteen
    fields of an exercise and no other, each with the value of the
    row's column of that name, the prefix of the column taken off, so
    that the driver finds every field that it reads. *)
Theorem fetch_exercise_list_datasets (exercise_files : list string)
    (reader : string → option (list (gmap string string)))
    (data : list (gmap string string)) :
  fetch_exercise_list exercise_files reader = inr data →
  ∃ filename rows,
    head exercise_files = Some filename
    ∧ reader filename = Some rows
    ∧ length data = length rows
    ∧ Forall2 (λ row d,
                 dataset d
                 ∧ dom d = list_to_set dataset_fields
                 ∧ ∀ field, field ∈ fields →
                            d !! str_remove column_prefix field
                            = row !! field)
        rows data.
Proof.
  destruct exercise_files as [|filename others]; [done |].
  cbn [fetch_exercise_list head].
  destruct (reader filename) as [rows|] eqn:Hrows; [| done].
  destruct (map_result dataset_of rows) as [data'|e] eqn:Hdata; [| done].
  intros [= <-]. apply map_result_Forall2 in Hdata.
  exists filename, rows. split; [done |]. split; [done |]. split.
  - symmetry. by eapply Forall2_length.
  - eapply Forall2_impl; [exact Hdata |].
    intros row d Hd. by apply dataset_of_row.
Qed.

Section DriverSuccess.
Context `{PyLib}.

Ltac among_fields :=
  repeat first [apply list_elem_of_here | apply list_elem_of_further].

Lemma merge_returns (locationdata livedata : list (gmap string Z)) :
  locationdata ≠ [] →
  Forall position_fix locationdata →
  Forall (λ entry, is_Some (sample_time entry)) livedata →
  returns (merge_location_and_live_data locationdata livedata).
Proof.
  intros Hne HP HS.
  destruct (locations_ok locationdata [] HP) as [merged0 H0].
  rewrite (merge_unfold _ _ _ H0).
  pose proof (locations_keys _ _ H0) as [Hkeys Hshape].
  destruct (live_loop_ok _ livedata merged0
              (fix_times_nonempty _ Hne HP) Hkeys Hshape HS)
    as (merged & Hrun & _).
  by exists merged.
Qed.

(** X22.  When the lap of a row can be built, the exercise has position fixes,
    each with a time stamp that can be formatted, a latitude and a
    longitude, and each of its samples has a time stamp, the preparation
    returns a document and the driver writes it under the name of the
    exercise and announces it. *)
Theorem prepare_exports_document
    (files : gmap string (list (gmap string Z)))
    (exercise : gmap string string) (uuid : string)
    (fixes samples : list (gmap string Z)) :
  dataset exercise →
  exercise !! "start_time" ≠ Some "" →
  returns (row_lap exercise) →
  exercise !! "datauuid" = Some uuid →
  fetch_json_data files uuid "location_data" = Ok fixes →
  fixes ≠ [] →
  Forall position_fix fixes →
  fetch_json_data files uuid "live_data" = Ok samples →
  Forall (λ entry, is_Some (sample_time entry)) samples →
  ∃ doc,
    prepare_exercise_data files exercise = Ok (Some doc)
    ∧ export_exercise files exercise
      = Ok [Progress; WriteFile ("exports/" ++ uuid ++ ".tcx")%string doc;
            Exported uuid ("exports/" ++ uuid ++ ".tcx")%string].
Proof.
  intros Hrow Hstart [lap Hlap] Huuid Hfix Hne HP Hlive HS.
  destruct (merge_returns fixes samples Hne HP HS) as [merged Hm].
  pose proof (merge_inv _ _ _ Hm) as [_ Hshape].
  destruct (collect_trackpoints_ok merged [] Hshape) as (tps & Htps & _).
  destruct (dataset_field _ "start_time" Hrow) as [st Hst]; [among_fields |].
  destruct (dataset_field _ "exercise_type" Hrow) as [et Het]; [among_fields |].
  destruct (dataset_field _ "duration" Hrow) as [du Hdu]; [among_fields |].
  destruct (dataset_field _ "distance" Hrow) as [di Hdi]; [among_fields |].
  destruct (dataset_field _ "total_calorie" Hrow) as [ca Hca]; [among_fields |].
  destruct (dataset_field _ "mean_heart_rate" Hrow) as [ah Hah];
    [among_fields |].
  destruct (dataset_field _ "max_heart_rate" Hrow) as [mh Hmh];
    [among_fields |].
  destruct (dataset_field _ "mean_speed" Hrow) as [sp Hsp]; [among_fields |].
  destruct (dataset_field _ "max_speed" Hrow) as [ms Hms]; [among_fields |].
  destruct (dataset_field _ "mean_cadence" Hrow) as [ac Hac]; [among_fields |].
  destruct (dataset_field _ "max_cadence" Hrow) as [mc Hmc]; [among_fields |].
  unfold row_lap in Hlap.
  rewrite Hst, Hdu, Hdi, Hca, Hah, Hmh, Hsp, Hms, Hac, Hmc in Hlap.
  cbn [default from_option id] in Hlap.
  assert (prepare_exercise_data files exercise
          = Ok (Some (build_xml (replace_space st ++ "Z")%string
                        (convert_activity_type et) lap tps))) as Hprep.
  { unfold prepare_exercise_data, item.
    rewrite Hst, Het, Hdu, Hdi, Hca, Hah, Hmh, Hsp, Hms, Hac, Hmc, Huuid.
    cbn [mbind result_bind fmap result_fmap]. rewrite Hlap.
    cbn [mbind result_bind]. rewrite Hfix. cbn [mbind result_bind].
    destruct fixes as [|entry P]; [done |].
    rewrite Hlive. cbn [mbind result_bind]. rewrite Hm.
    cbn [mbind result_bind]. rewrite Htps. done. }
  eexists. split; [exact Hprep |].
  unfold export_exercise. rewrite Hprep.
  destruct (decide (exercise !! "start_time" = None
                    ∨ exercise !! "start_time" = Some "")) as [[Hn|He]|_].
  - congruence.
  - done.
  - unfold item. rewrite Huuid. done.
Qed.

End DriverSuccess.

Section DriverAbort.
Context `{PyLib}.

(** X23.  The batch runs through exactly when the turn of every exercise
    returns.  Otherwise it ends with the exception of the first exercise
    whose turn raises: the log is the log of the exercises before it and
    the dot of the failing one, and the exercises after it are not
    looked at. *)
Theorem export_all_aborts (files : gmap string (list (gmap string Z)))
    (exercises : list (gmap string string)) :
  ((export_all files exercises).2 = None
   ↔ Forall (λ exercise, returns (export_exercise files exercise)) exercises)
  ∧ ∀ e, (export_all files exercises).2 = Some e →
         ∃ before failed after,
           exercises = before ++ failed :: after
           ∧ (export_all files before).2 = None
           ∧ export_exercise files failed = Raise e
           ∧ (export_all files exercises).1
             = (export_all files before).1 ++ [Progress]
           ∧ export_all files exercises
             = export_all files (before ++ [failed]).
Proof.
  induction exercises as [|exercise rest [IHnone IHsome]].
  - split; [split; [constructor | done] | done].
  - cbn [export_all].
    destruct (export_exercise files exercise) as [events|e'] eqn:Hone.
    + destruct (export_all files rest) as [later err] eqn:Hrest.
      cbn [fst snd] in *. split.
      * rewrite IHnone, Forall_cons. split; [| by intros [_ ?]].
        intros Hall. split; [by exists events | done].
      * intros e He.
        destruct (IHsome e He) as (before & failed & after & -> & Hb & Hf
                                   & Hlog & Hsame).
        exists (exercise :: before), failed, after.
        split; [done |]. cbn [export_all app]. rewrite Hone.
        destruct (export_all files before) as [log0 err0].
        cbn [fst snd] in *. split; [done |]. split; [done |].
        split; [by rewrite Hlog, app_assoc |].
        by rewrite <- Hsame.
    + cbn [fst snd]. split.
      * split; [done |]. intros [[events Hev] _]%Forall_cons. congruence.
      * intros e [= <-]. exists [], exercise, rest.
        cbn [export_all app fst snd]. rewrite Hone. done.
Qed.

End DriverAbort.

(** ** When the merger and the preparation return *)

Section MergerDomain.
Context `{PyLib}.

Lemma locations_position_fix locationdata merged_data merged' :
  for_each add_location merged_data locationdata = Ok merged' →
  Forall position_fix locationdata.
Proof.
  revert merged_data.
  induction locationdata as [|entry P IH]; intros merged_data; cbn [for_each].
  - constructor.
  - intros (m1 & Hstep & Hrest)%bind_Ok. constructor; [| by eapply IH].
    unfold add_location in Hstep.
    apply bind_Ok in Hstep as (t & Ht%item_Ok & Hstep).
    apply bind_Ok in Hstep as (time & Htime & Hstep).
    apply bind_Ok in Hstep as (lat & Hlat%item_Ok & Hstep).
    apply bind_Ok in Hstep as (lon & Hlon%item_Ok & _).
    exists t. split; [done |]. split; [by exists time |].
    split; by eexists.
Qed.

Lemma live_loop_timed timestamps livedata merged_data merged' :
  for_each (add_live timestamps) merged_data livedata = Ok merged' →
  Forall (λ entry, is_Some (sample_time entry)) livedata.
Proof.
  revert merged_data.
  induction livedata as [|entry S IH]; intros merged_data; cbn [for_each].
  - constructor.
  - intros (m1 & Hstep & Hrest)%bind_Ok. constructor; [| by eapply IH].
    destruct (sample_time entry) as [t|] eqn:Hts; [done |].
    destruct (add_live_raises timestamps merged_data entry Hts) as [e He].
    congruence.
Qed.

(** X24.  The merger returns exactly when every position fix has a time
    stamp that can be formatted, a latitude and a longitude, every sample
    has a time stamp, and there is a position fix if there is a sample.
    In every other case it raises. *)
Theorem merge_returns_iff (locationdata livedata : list (gmap string Z)) :
  returns (merge_location_and_live_data locationdata livedata)
  ↔ Forall position_fix locationdata
    ∧ Forall (λ entry, is_Some (sample_time entry)) livedata
    ∧ (locationdata = [] → livedata = []).
Proof.
  split.
  - intros [merged Hm].
    destruct (for_each add_location [] locationdata) as [merged0|err] eqn:H0;
      [| by unfold merge_location_and_live_data in Hm; rewrite H0 in Hm].
    rewrite (merge_unfold _ _ _ H0) in Hm.
    split; [by eapply locations_position_fix |].
    split; [by eapply live_loop_timed |].
    intros ->. cbn [for_each] in H0. injection H0 as <-.
    destruct livedata as [|entry S]; [done |].
    change (merge_sort Z.le (fix_times [])) with (@nil Z) in Hm.
    cbn [for_each] in Hm. unfold add_live, resolve_time in Hm.
    by destruct (sample_time entry).
  - intros (HP & HS & Hempty).
    destruct (decide (locationdata = [])) as [->|Hne].
    + rewrite (Hempty eq_refl). by exists [].
    + by apply merge_returns.
Qed.

Lemma resolve_time_nearest merged_data timestamps (t k : Z) :
  (∀ u, u ∈ timestamps ↔ u ∈ merged_data.*1) →
  resolve_time merged_data timestamps (Some t) = Ok k →
  nearest timestamps t k.
Proof.
  intros Hkeys. unfold resolve_time.
  destruct (dict_has merged_data t) eqn:Hhas.
  - intros [= <-]. apply dict_has_true in Hhas.
    split; [by apply Hkeys | intros u _; lia].
  - destruct (decide (timestamps = [])) as [->|Hne]; [done |].
    destruct (find_nearest_time_min t timestamps Hne) as (r & -> & Hin & Hmin).
    intros [= <-]. by split.
Qed.

Lemma locations_fields locationdata merged_data merged' :
  for_each add_location merged_data locationdata = Ok merged' →
  (∀ k e f, (k, e) ∈ merged_data → f ∈ payload_keys → e !! f = None) →
  ∀ k e f, (k, e) ∈ merged' → f ∈ payload_keys → e !! f = None.
Proof.
  revert merged_data.
  induction locationdata as [|entry P IH]; intros merged_data; cbn [for_each].
  - by intros [= ->].
  - intros (m1 & Hstep & Hrest)%bind_Ok Hinv. apply (IH _ Hrest).
    unfold add_location in Hstep.
    apply bind_Ok in Hstep as (t & _ & Hstep).
    apply bind_Ok in Hstep as (time & _ & Hstep).
    apply bind_Ok in Hstep as (lat & _ & Hstep).
    apply bind_Ok in Hstep as (lon & _ & Hstep).
    injection Hstep as <-.
    intros k e f [[= -> ->]|Hin]%elem_of_dict_set Hf; [| by eapply Hinv].
    unfold payload_keys in Hf.
    repeat (apply elem_of_cons in Hf as [->|Hf]; [reflexivity |]).
    by apply not_elem_of_nil in Hf.
Qed.

Lemma live_loop_origin timestamps livedata merged_data merged' :
  (∀ u, u ∈ timestamps ↔ u ∈ merged_data.*1) →
  for_each (add_live timestamps) merged_data livedata = Ok merged' →
  ∀ k e f v, (k, e) ∈ merged' → e !! f = Some v →
    (∃ e0, (k, e0) ∈ merged_data ∧ e0 !! f = Some v)
    ∨ (∃ sample t, sample ∈ livedata
                   ∧ sample_time sample = Some t
                   ∧ nearest timestamps t k
                   ∧ payload sample !! f = Some v).
Proof.
  revert merged_data.
  induction livedata as [|entry S IH]; intros merged_data Hkeys;
    cbn [for_each].
  - intros [= ->] k e f v Hin Hv. left. by exists e.
  - intros (m1 & Hstep & Hrest)%bind_Ok k e f v Hin Hv.
    pose proof Hstep as Hstep'.
    apply add_live_inv in Hstep as (k0 & Hk0 & Hin0 & ->);
      [| by intros u ?%Hkeys].
    destruct (IH _ (λ u, eq_ind_r (λ l, u ∈ timestamps ↔ u ∈ l) (Hkeys u)
                           (dict_update_keys _ _ _))
                Hrest k e f v Hin Hv)
      as [(e1 & Hin1 & Hv1) | (sample & t & Hs & Ht & Hnear & Hp)].
    2: { right. exists sample, t. split; [by right | done]. }
    apply elem_of_dict_update in Hin1 as (e0 & Hin1 & ->).
    destruct (decide (k = k0)) as [->|Hne]; [| left; by exists e0].
    apply lookup_union_Some_raw in Hv1 as [Hp | [_ Hold]];
      [| left; by exists e0].
    right. destruct (sample_time entry) as [t|] eqn:Hts.
    + exists entry, t. split; [left |]. split; [done |].
      split; [by eapply resolve_time_nearest | done].
    + destruct (add_live_raises timestamps merged_data entry Hts) as [err He].
      congruence.
Qed.

(** X25.  Every distance, cadence, heart rate and speed of a merged entry
    was written by a sample that went to that entry, a sample whose time
    stamp has the time stamp of the entry at the least distance among the
    fix time stamps.  Nothing is carried over from an entry to the
    following ones: an entry that no sample went to has none of the four
    fields. *)
Theorem merge_payload_origin (locationdata livedata : list (gmap string Z))
    (merged : list (Z * gmap string value)) (k : Z)
    (e : gmap string value) (f : string) (v : value) :
  merge_location_and_live_data locationdata livedata = Ok merged →
  (k, e) ∈ merged →
  f ∈ payload_keys →
  e !! f = Some v →
  ∃ sample t,
    sample ∈ livedata
    ∧ sample_time sample = Some t
    ∧ nearest (fix_times locationdata) t k
    ∧ payload sample !! f = Some v.
Proof.
  intros Hm Hin Hf Hv.
  destruct (for_each add_location [] locationdata) as [merged0|err] eqn:H0;
    [| by unfold merge_location_and_live_data in Hm; rewrite H0 in Hm].
  rewrite (merge_unfold _ _ _ H0) in Hm.
  pose proof (locations_keys _ _ H0) as [Hkeys _].
  destruct (live_loop_origin _ _ _ _ Hkeys Hm k e f v Hin Hv)
    as [(e0 & Hin0 & Hv0) | (sample & t & Hs & Ht & Hnear & Hp)].
  - assert (e0 !! f = None) as Hnone; [| congruence].
    apply (locations_fields _ _ _ H0) with k; [| done | done].
    by intros ??? ?%not_elem_of_nil.
  - exists sample, t. do 2 (split; [done |]).
    split; [by apply nearest_sorted_times | done].
Qed.

End MergerDomain.

Section DriverFailure.
Context `{PyLib}.

Ltac among_fields :=
  repeat first [apply list_elem_of_here | apply list_elem_of_further].

(** X26.  For an exercise with all its fields: when the lap builder
    raises, the preparation raises the same exception; when the lap is
    built and the uuid is empty, the preparation raises an [IndexError];
    when the lap is built, the two telemetry files are read, a missing
    file counting as read, and there are position fixes, the preparation
    raises exactly when the merger raises, and raises the same exception,
    and it returns exactly when the merger returns.  Building the track
    points and the document never fails on what the merger returned.  A
    telemetry file that is there and cannot be read or parsed is not
    spoken of. *)
Theorem prepare_raises (files : gmap string (list (gmap string Z)))
    (exercise : gmap string string) (uuid : string) :
  dataset exercise →
  exercise !! "datauuid" = Some uuid →
  (∀ e, row_lap exercise = Raise e →
        prepare_exercise_data files exercise = Raise e)
  ∧ (returns (row_lap exercise) →
     uuid = "" →
     prepare_exercise_data files exercise = Raise IndexError)
  ∧ ∀ fixes samples,
      returns (row_lap exercise) →
      fetch_json_data files uuid "location_data" = Ok fixes →
      fixes ≠ [] →
      fetch_json_data files uuid "live_data" = Ok samples →
      (∀ e, prepare_exercise_data files exercise = Raise e
            ↔ merge_location_and_live_data fixes samples = Raise e)
      ∧ (returns (prepare_exercise_data files exercise)
         ↔ returns (merge_location_and_live_data fixes samples)).
Proof.
  intros Hrow Huuid.
  destruct (dataset_field _ "start_time" Hrow) as [st Hst]; [among_fields |].
  destruct (dataset_field _ "exercise_type" Hrow) as [et Het];
    [among_fields |].
  destruct (dataset_field _ "duration" Hrow) as [du Hdu]; [among_fields |].
  destruct (dataset_field _ "distance" Hrow) as [di Hdi]; [among_fields |].
  destruct (dataset_field _ "total_calorie" Hrow) as [ca Hca];
    [among_fields |].
  destruct (dataset_field _ "mean_heart_rate" Hrow) as [ah Hah];
    [among_fields |].
  destruct (dataset_field _ "max_heart_rate" Hrow) as [mh Hmh];
    [among_fields |].
  destruct (dataset_field _ "mean_speed" Hrow) as [sp Hsp]; [among_fields |].
  destruct (dataset_field _ "max_speed" Hrow) as [ms Hms]; [among_fields |].
  destruct (dataset_field _ "mean_cadence" Hrow) as [ac Hac];
    [among_fields |].
  destruct (dataset_field _ "max_cadence" Hrow) as [mc Hmc];
    [among_fields |].
  unfold row_lap, prepare_exercise_data, item.
  rewrite Hst, Het, Hdu, Hdi, Hca, Hah, Hmh, Hsp, Hms, Hac, Hmc, Huuid.
  cbn [mbind result_bind fmap result_fmap default from_option id].
  destruct (create_lap _ _ _ _ _ _ _ _ _ _) as [lap|e'] eqn:Hlap;
    cbn [mbind result_bind].
  2: { split; [by intros e [= ->] |]. split; [by intros [? ?] |].
       by intros ?? [? ?]. }
  split; [done |]. split; [intros _ ->; reflexivity |].
  intros fixes samples _ -> Hfixes ->. cbn [mbind result_bind].
  rewrite decide_False by done.
  destruct (merge_location_and_live_data fixes samples)
    as [merged|e'] eqn:Hm; cbn [mbind result_bind].
  - pose proof (merge_inv _ _ _ Hm) as [_ Hshape].
    destruct (collect_trackpoints_ok merged [] Hshape) as (tps & -> & _).
    cbn [mbind result_bind]. split; [done |].
    split; intros _; by eexists.
  - split; [intros e; split; intros [= ->]; reflexivity |].
    split; by intros [? ?].
Qed.

End DriverFailure.

(** * The further properties on concrete inputs *)

Section FurtherClosed.
#[local] Existing Instance Exact_lib.
Import Examples.

Lemma find_nearest_time_first_witness :
  ∃ r before after,
    find_nearest_time (Some 2500) [3000; 1000; 2000] = Ok r
    ∧ [3000; 1000; 2000] = before ++ r :: after
    ∧ (∀ x, x ∈ before → Z.abs (r - 2500) < Z.abs (x - 2500))
    ∧ (∀ x, x ∈ after → Z.abs (r - 2500) ≤ Z.abs (x - 2500)).
Proof.
  apply (find_nearest_time_first 2500 [3000; 1000; 2000]). discriminate.
Defined.

Example merge_repeated_example :
  merge_location_and_live_data fixes_repeated samples = Ok merged_repeated.
Proof. reflexivity. Qed.

Lemma merge_keys_witness :
  merged_repeated.*1 = foldl add_key [] (fix_times fixes_repeated)
  ∧ NoDup merged_repeated.*1
  ∧ (∀ t, t ∈ merged_repeated.*1 ↔ t ∈ fix_times fixes_repeated)
  ∧ (length merged_repeated ≤ length fixes_repeated)%nat.
Proof.
  apply (merge_keys fixes_repeated samples merged_repeated). reflexivity.
Defined.

Lemma merge_last_fix_wins_witness :
  ∃ e time,
    dict_get merged_repeated 1714557600000 = Some e
    ∧ format_time 1714557600000 = Ok time
    ∧ e !! "time" = Some (VStr time)
    ∧ e !! "latitude" = Some (VInt 47)
    ∧ e !! "longitude" = Some (VInt 8)
    ∧ e !! "altitude" = Some VNone.
Proof.
  refine (merge_last_fix_wins
            [ {[ "start_time" := 1714557600000; "latitude" := 46;
                 "longitude" := 7; "altitude" := 400 ]} ]
            [ {[ "start_time" := 1714557602000; "latitude" := 48;
                 "longitude" := 9 ]} ]
            samples
            {[ "start_time" := 1714557600000; "latitude" := 47;
               "longitude" := 8 ]}
            merged_repeated 1714557600000 47 8 _ _ _ _ _).
  - reflexivity.
  - reflexivity.
  - reflexivity.
  - reflexivity.
  - intros later ->%list_elem_of_singleton. discriminate.
Defined.

Lemma merge_zero_start_time_witness :
  raises (merge_location_and_live_data [fix_epoch] [sample_epoch]).
Proof.
  apply (merge_zero_start_time [fix_epoch] [sample_epoch] sample_epoch).
  - left.
  - reflexivity.
  - reflexivity.
Defined.

Lemma merge_entry_fields_witness :
  "heart_rate" ∈ ["time"; "latitude"; "longitude"; "altitude"] ++ payload_keys.
Proof.
  apply (merge_entry_fields fixes samples merged_fixes merged_first.1
           merged_first.2 "heart_rate").
  - reflexivity.
  - left.
  - by eexists.
Defined.

Lemma merge_tie_to_earliest_witness :
  ∃ before k,
    merge_location_and_live_data fixes_unsorted [] = Ok before
    ∧ merge_location_and_live_data fixes_unsorted
        ([] ++ [ {[ "start_time" := 1714557601000; "heart_rate" := 140 ]} ])
      = Ok (dict_update before k
              (payload {[ "start_time" := 1714557601000;
                          "heart_rate" := 140 ]}))
    ∧ nearest (fix_times fixes_unsorted) 1714557601000 k
    ∧ ∀ u, u ∈ fix_times fixes_unsorted →
           Z.abs (u - 1714557601000) = Z.abs (k - 1714557601000) → k ≤ u.
Proof.
  eapply (merge_tie_to_earliest fixes_unsorted [] []
            {[ "start_time" := 1714557601000; "heart_rate" := 140 ]}
            _ 1714557601000).
  - reflexivity.
  - reflexivity.
Defined.

Lemma create_trackpoint_children_witness :
  tag trackpoint_first = "Trackpoint"
  ∧ sublist (tag <$> children trackpoint_first)
      ["Time"; "Position"; "HeartRateBpm"; "Cadence"]
  ∧ head (tag <$> children trackpoint_first) = Some "Time"
  ∧ (has_child "Position" trackpoint_first
     ↔ is_Some (merged_first.2 !! "altitude")
       ∧ is_Some (merged_first.2 !! "longitude"))
  ∧ (has_child "HeartRateBpm" trackpoint_first
     ↔ is_Some (merged_first.2 !! "heart_rate"))
  ∧ (has_child "Cadence" trackpoint_first
     ↔ is_Some (merged_first.2 !! "cadence"))
  ∧ ∀ position, position ∈ children_tagged "Position" trackpoint_first →
                tag <$> children position
                = ["LatitudeDegrees"; "LongitudeDegrees"].
Proof.
  apply (create_trackpoint_children merged_first.2 trackpoint_first).
  reflexivity.
Defined.

Lemma create_lap_schema_order_witness :
  let lap :=
    Element "Lap" [("StartTime", "2024-05-01T10:00:00Z")] None
      [leaf "TotalTimeSeconds" "60.0"; leaf "DistanceMeters" "100.5";
       leaf "MaximumSpeed" "3.0"; leaf "Calories" "12";
       bpm "AverageHeartRateBpm" 70; bpm "MaximumHeartRateBpm" 150;
       leaf "Intensity" "Active"; leaf "TriggerMethod" "Manual";
       Element "Extensions" [] None
         [Element (ns3_tag "LX") [] None
            [leaf (ns3_tag "AvgSpeed") "2.5"]]] in
  tag lap = "Lap"
  ∧ attrib lap = [("StartTime", "2024-05-01T10:00:00Z")]
  ∧ sublist (tag <$> children lap) lap_schema
  ∧ NoDup (tag <$> children lap)
  ∧ children_tagged "Intensity" lap = [leaf "Intensity" "Active"]
  ∧ children_tagged "TriggerMethod" lap = [leaf "TriggerMethod" "Manual"].
Proof.
  apply (create_lap_schema_order "2024-05-01T10:00:00Z" (Some "60000")
           (Some "100.5") (Some "12.4") (Some "70.0") (Some "150.0")
           (Some "2.5") (Some "3.0") (Some "") (Some "")).
  reflexivity.
Defined.

Lemma create_lap_extensions_witness :
  let lap :=
    Element "Lap" [("StartTime", "2024-05-01T10:00:00Z")] None
      [leaf "TotalTimeSeconds" "60.0"; leaf "DistanceMeters" "100.5";
       leaf "Intensity" "Active"; leaf "TriggerMethod" "Manual";
       Element "Extensions" [] None [Element (ns3_tag "LX") [] None []]] in
  children_tagged "Extensions" lap
  = [Element "Extensions" [] None [Element (ns3_tag "LX") [] None []]].
Proof.
  apply (create_lap_extensions "2024-05-01T10:00:00Z" (Some "60000")
           (Some "100.5") (Some "") (Some "") (Some "")
           (Some "0.0") (Some "") (Some "") (Some "")).
  reflexivity.
Defined.

Lemma prepare_none_only_without_fixes_witness :
  ∃ uuid, row !! "datauuid" = Some uuid
          ∧ fetch_json_data ∅ uuid "location_data" = Ok [].
Proof. apply (prepare_none_only_without_fixes ∅ row). reflexivity. Defined.

Lemma prepare_document_witness :
  ∃ doc,
    prepare_exercise_data
      {[ location_file := fixes_repeated; live_file := samples ]} row
    = Ok (Some doc)
    ∧ ∃ start et uuid fixes,
        row !! "start_time" = Some start
        ∧ row !! "exercise_type" = Some et
        ∧ row !! "datauuid" = Some uuid
        ∧ fetch_json_data
            {[ location_file := fixes_repeated; live_file := samples ]}
            uuid "location_data" = Ok fixes
        ∧ fixes ≠ []
        ∧ attrib <$> descend ["Activities"; "Activity"] doc
          = [[("Sport", convert_activity_type et)]]
        ∧ descend ["Activities"; "Activity"; "Id"] doc
          = [leaf "Id" (replace_space start ++ "Z")%string]
        ∧ attrib <$> descend ["Activities"; "Activity"; "Lap"] doc
          = [[("StartTime", (replace_space start ++ "Z")%string)]]
        ∧ foldl add_key [] (fix_times fixes) ≠ []
        ∧ length (descend ["Activities"; "Activity"; "Lap"; "Track";
                           "Trackpoint"] doc)
          = length (foldl add_key [] (fix_times fixes))
        ∧ Forall2 (λ k time_leaf,
                     ∃ time, format_time k = Ok time
                             ∧ time_leaf = leaf "Time" time)
            (foldl add_key [] (fix_times fixes))
            (descend ["Activities"; "Activity"; "Lap"; "Track";
                      "Trackpoint"; "Time"] doc).
Proof.
  eexists. split; [vm_compute; reflexivity |].
  apply (prepare_document
           {[ location_file := fixes_repeated; live_file := samples ]} row).
  reflexivity.
Defined.

Lemma export_all_events_witness :
  (∃ exercise uuid,
     exercise ∈ [row]
     ∧ exercise !! "datauuid" = Some uuid
     ∧ ("exports/abc.tcx" = "exports/" ++ uuid ++ ".tcx")%string
     ∧ (∃ xml, prepare_exercise_data {[ location_file := fixes ]} exercise
               = Ok (Some xml))
     ∧ Exported uuid "exports/abc.tcx"
       ∈ (export_all {[ location_file := fixes ]} [row]).1)
  ∧ ∃ exercise,
      exercise ∈ [row]
      ∧ exercise !! "datauuid" = Some "abc"
      ∧ fetch_json_data ∅ "abc" "location_data" = Ok [].
Proof.
  split.
  - assert (∃ xml, WriteFile "exports/abc.tcx" xml
                   ∈ (export_all {[ location_file := fixes ]} [row]).1)
      as [xml Hin] by (eexists; vm_compute; right; left).
    destruct (proj1 (export_all_events {[ location_file := fixes ]} [row])
                "exports/abc.tcx" xml Hin)
      as (exercise & uuid & Hex & Huuid & Hname & Hprep & Hsaid).
    exists exercise, uuid. eauto 10.
  - apply (proj2 (export_all_events ∅ [row]) "abc"). right. left.
Defined.

Lemma json_path_distinct_witness :
  returns (json_path "abc" "live_data")
  ∧ json_path "abc" "location_data" ≠ json_path "abc" "live_data".
Proof.
  destruct (json_path_distinct "abc" "abd" "live_data") as (Hr & _ & Hd).
  split; [apply Hr; discriminate | apply Hd; discriminate].
Defined.

Example fetch_example :
  fetch_exercise_list [exercise_file; "com.samsung.shealth.exercise.x.csv"]
    (λ filename, if decide (filename = exercise_file)
                 then Some [csv_row] else None)
  = inr [row].
Proof. reflexivity. Qed.

Lemma fetch_exercise_list_fails_witness :
  ∃ data,
    fetch_exercise_list [exercise_file]
      (λ _, Some (DictReader fields [short_row; []]))
    = inr data.
Proof.
  destruct (fetch_exercise_list_fails [exercise_file]
              (λ _, Some (DictReader fields [short_row; []])))
    as (_ & _ & Hrows).
  destruct (Hrows exercise_file _ eq_refl eq_refl) as (Hlist & _ & _).
  apply Hlist. intros row field Hrow Hfield.
  by apply (DictReader_columns fields [short_row; []]).
Defined.

Example short_row_cells :
  DictReader ["uuid"; "duration"] [["abc"]; []; ["abd"; "60"; "x"]]
  = [ {[ "uuid" := Some "abc"; "duration" := None ]};
      {[ "uuid" := Some "abd"; "duration" := Some "60" ]} ].
Proof. reflexivity. Qed.

Example fetch_missing_column :
  fetch_exercise_list [exercise_file]
    (λ _, Some (DictReader ["total_calorie"] [["1"]]))
  = inl (RowError KeyError).
Proof. reflexivity. Qed.

Lemma fetch_exercise_list_datasets_witness :
  ∃ filename rows,
    head [exercise_file] = Some filename
    ∧ (λ _ : string, Some [csv_row]) filename = Some rows
    ∧ length [row] = length rows
    ∧ Forall2 (λ r d,
                 dataset d
                 ∧ dom d = list_to_set dataset_fields
                 ∧ ∀ field, field ∈ fields →
                            d !! str_remove column_prefix field = r !! field)
        rows [row].
Proof.
  apply (fetch_exercise_list_datasets [exercise_file]
           (λ _, Some [csv_row]) [row]).
  reflexivity.
Defined.

Lemma samples_timed :
  Forall (λ entry : gmap string Z, is_Some (sample_time entry)) samples.
Proof. repeat constructor; by eexists. Defined.

Lemma prepare_exports_document_witness :
  ∃ doc,
    prepare_exercise_data
      {[ location_file := fixes; live_file := samples ]} row
    = Ok (Some doc)
    ∧ export_exercise {[ location_file := fixes; live_file := samples ]} row
      = Ok [Progress; WriteFile ("exports/" ++ "abc" ++ ".tcx")%string doc;
            Exported "abc" ("exports/" ++ "abc" ++ ".tcx")%string].
Proof.
  apply (prepare_exports_document
           {[ location_file := fixes; live_file := samples ]} row "abc"
           fixes samples).
  - exact row_dataset.
  - discriminate.
  - eexists. reflexivity.
  - reflexivity.
  - reflexivity.
  - discriminate.
  - exact fixes_position_fix.
  - reflexivity.
  - exact samples_timed.
Defined.

Lemma export_all_aborts_witness :
  ∃ before failed after,
    [row; <["total_calorie" := "abc"]> row; row]
    = before ++ failed :: after
    ∧ (export_all ∅ before).2 = None
    ∧ export_exercise ∅ failed = Raise ValueError
    ∧ (export_all ∅ [row; <["total_calorie" := "abc"]> row; row]).1
      = (export_all ∅ before).1 ++ [Progress]
    ∧ export_all ∅ [row; <["total_calorie" := "abc"]> row; row]
      = export_all ∅ (before ++ [failed]).
Proof.
  apply (proj2 (export_all_aborts ∅
                  [row; <["total_calorie" := "abc"]> row; row])
           ValueError).
  reflexivity.
Defined.

Lemma merge_payload_origin_witness :
  ∃ sample t,
    sample ∈ samples
    ∧ sample_time sample = Some t
    ∧ nearest (fix_times fixes) t merged_first.1
    ∧ payload sample !! "heart_rate" = Some (VInt 140).
Proof.
  apply (merge_payload_origin fixes samples merged_fixes merged_first.1
           merged_first.2 "heart_rate" (VInt 140)).
  - reflexivity.
  - left.
  - do 2 right. left.
  - reflexivity.
Defined.

Lemma prepare_raises_witness :
  prepare_exercise_data
    {[ location_file := fixes; live_file := [sample_untimed] ]} row
  = Raise TypeError.
Proof.
  destruct (prepare_raises
              {[ location_file := fixes; live_file := [sample_untimed] ]}
              row "abc" row_dataset eq_refl) as (_ & _ & Hmerge).
  destruct (Hmerge fixes [sample_untimed]) as [Hraise _].
  - eexists. vm_compute. reflexivity.
  - reflexivity.
  - discriminate.
  - reflexivity.
  - apply Hraise. reflexivity.
Defined.

End FurtherClosed.
